(** * Alpha 2.0 liquidity transfers of the Binance connectors

    A shallow embedding of the two connectors of the repository,

    - [BinanceExchange] (src/core/exchanges/binance.py) and
    - [BinanceAdapter]  (src/core/exchange/binance_adapter.py),

    restricted to the Alpha 2.0 liquidity protocol: balance cache, catalog
    cache, instrument lookup, price oracle, order building and the transfer
    operations.  Python floats are IEEE binary64 numbers, here the primitive
    floats of Rocq; dict-shaped exchange replies are records whose optional
    fields stand for the keys the code reads (a field that is present holds a
    value of the type the exchange documents; the fields the code coerces with
    [or] and [float()] hold any scalar); the balance map is a finite map from
    asset codes to amounts.  The clock, the exchange gateway and the builtin
    [float()] on strings form the environment the code runs in.  Logging has
    no effect on what the methods return or change and is left out. *)

From Stdlib Require Import ZArith String Ascii List Floats Decimal DecimalString DecimalN Lia.
From stdpp Require Import base option list gmap strings.

Local Open Scope string_scope.
Local Open Scope Z_scope.

(** ** Python values and builtins *)

Module Py.

(** The scalar values a JSON reply can hold in a field the code coerces with
    [or] and [float()]. *)
Inductive pyval : Type :=
| PyNone
| PyBool (b : bool)
| PyInt (z : Z)
| PyFloat (f : float)
| PyStr (s : string).

(** Exceptions, by the place that raises them.  The [raise] statements of the
    source carry the data their messages interpolate; the two connectors word
    the message of the missing pair differently and raise the same
    [ValueError]. *)
Inductive exn : Type :=
| SavingsDisabled                       (* RuntimeError: savings feature not enabled *)
| NoAlphaSymbol (quote_asset : string)  (* ValueError: no Alpha pair for the quote asset *)
| InvalidPrice (symbol : string)        (* ValueError: the pair lacks a valid price *)
| KeyError (key : string)               (* d[key] on an absent key *)
| BuiltinError (what : string)          (* TypeError / ValueError / OverflowError of a builtin *)
| RequestError (code : Z).              (* whatever exchange.request raises *)

(** Truth value of a scalar: [None], [False], zero and the empty string are
    falsy (a NaN is truthy, both zeros are falsy). *)
Definition truthy (v : pyval) : bool :=
  match v with
  | PyNone => false
  | PyBool b => b
  | PyInt z => negb (z =? 0)
  | PyFloat f => negb (f =? 0)%float
  | PyStr s => negb (String.eqb s "")
  end.

(** [a or b] *)
Definition py_or (a b : pyval) : pyval := if truthy a then a else b.

(** [d.get(key, default)] on an optional field. *)
Definition get_default {A} (field : option A) (dflt : A) : A :=
  match field with Some v => v | None => dflt end.

(** [d[key]] *)
Definition getitem {A} (key : string) (field : option A) : exn + A :=
  match field with Some v => inr v | None => inl (KeyError key) end.

(** [float(z)] for a Python int: the nearest binary64, [OverflowError] when
    it is out of range. *)
Definition float_of_int (z : Z) : exn + float :=
  let f := SF2Prim (binary_normalize prec emax z 0 false) in
  if is_infinity f then inl (BuiltinError "OverflowError: int too large to convert to float")
  else inr f.

(** [float(v)]; the parsing of a string is the builtin's, taken from the
    environment as [float_of_str]. *)
Definition py_float (float_of_str : string -> option float) (v : pyval) : exn + float :=
  match v with
  | PyNone => inl (BuiltinError "TypeError: float() argument must be a string or a real number")
  | PyBool b => inr (if b then 1 else 0)%float
  | PyInt z => float_of_int z
  | PyFloat f => inr f
  | PyStr s =>
      match float_of_str s with
      | Some f => inr f
      | None => inl (BuiltinError "ValueError: could not convert string to float")
      end
  end.

(** [int(f)]: truncation towards zero; NaN and the infinities raise. *)
Definition py_int (f : float) : exn + Z :=
  match Prim2SF f with
  | S754_nan => inl (BuiltinError "ValueError: cannot convert float NaN to integer")
  | S754_infinity _ => inl (BuiltinError "OverflowError: cannot convert float infinity to integer")
  | S754_zero _ => inr 0
  | S754_finite s m e => inr (cond_Zopp s (Z.shiftl (Z.pos m) e))
  end.

(** *** [format(value, '.<precision>f')] *)

Definition digit_char (d : Z) : ascii := ascii_of_nat (48 + Z.to_nat d).

(** The [p] low-order decimal digits of [n], most significant first. *)
Fixpoint frac_digits (p : nat) (n : Z) : string :=
  match p with
  | O => EmptyString
  | S p' => String (digit_char ((n / 10 ^ Z.of_nat p') mod 10)) (frac_digits p' n)
  end.

Definition int_digits (n : Z) : string := NilZero.string_of_uint (N.to_uint (Z.to_N n)).

(** [m * 2^e * 10^p] rounded to the nearest integer, ties to even: the
    correctly rounded conversion that CPython's float formatting performs. *)
Definition scaled_round (m : positive) (e : Z) (p : nat) : Z :=
  let n := Z.pos m * 10 ^ Z.of_nat p in
  if 0 <=? e then n * 2 ^ e
  else
    let d := 2 ^ (- e) in
    let q := n / d in
    let r := n mod d in
    match 2 * r ?= d with
    | Lt => q
    | Gt => q + 1
    | Eq => if Z.even q then q else q + 1
    end.

(** The digits of the scaled integer [n] with the point [p] places from the
    right; no point is written for precision 0. *)
Definition fixed_digits (n : Z) (p : nat) : string :=
  int_digits (n / 10 ^ Z.of_nat p) +:+
  match p with
  | O => ""
  | S _ => "." +:+ frac_digits p n
  end.

Definition sign_str (s : bool) : string := if s then "-" else "".

Definition format_f (value : float) (precision : nat) : string :=
  match Prim2SF value with
  | S754_nan => "nan"
  | S754_infinity s => sign_str s +:+ "inf"
  | S754_zero s => sign_str s +:+ fixed_digits 0 precision
  | S754_finite s m e => sign_str s +:+ fixed_digits (scaled_round m e precision) precision
  end.

(** The largest C [int] and the largest [Py_ssize_t] of a 64-bit build. *)
Definition INT_MAX : Z := 2147483647.

Definition PY_SSIZE_T_MAX : Z := 9223372036854775807.

(** [format(value, f'.{precision}f')] with [precision] a Python int.  The
    specifier is refused with a [ValueError] when the precision is negative
    (the parser finds no digits after the point), when its digits overflow
    [Py_ssize_t], and when it exceeds [INT_MAX], whatever the value is. *)
Definition format_precision (value : float) (precision : Z) : exn + string :=
  if precision <? 0 then
    inl (BuiltinError "ValueError: Format specifier missing precision")
  else if PY_SSIZE_T_MAX <? precision then
    inl (BuiltinError "ValueError: Too many decimal digits in format string")
  else if INT_MAX <? precision then
    inl (BuiltinError "ValueError: precision too big")
  else inr (format_f value (Z.to_nat precision)).

End Py.

Import Py.

(** ** Exchange replies and requests *)

(** An entry of the [symbols] list of the Alpha exchange info.  A field is
    [None] when the key is absent from the dict. *)
Record AlphaSymbol : Type := {
  symbol : option string;
  baseAsset : option string;
  quoteAsset : option string;
  status : option string;
  pricePrecision : option Z;
  quantityPrecision : option Z;
}.

(** The reply of [v1/alpha-trade/get-exchange-info]. *)
Record ExchangeInfo : Type := { symbols : option (list AlphaSymbol) }.

(** The reply of [v1/alpha-trade/market/ticker-price]. *)
Record Ticker : Type := { price : option pyval }.

(** An item of the reply of [v1/asset/get-alpha-asset]. *)
Record AlphaAsset : Type := {
  cexAssetCode : option string;
  alphaId : option string;
  amount : option pyval;
}.

(** The reply of [v1/alpha-trade/order/place], handed back to the caller as
    it is. *)
Abbreviation OrderReply := (gmap string pyval).

(** [Dict[str, float]] *)
Abbreviation BalanceMap := (gmap string float).

Inductive Side : Type := BUY | SELL.

(** The [params] dict of an order placement. *)
Record OrderParams : Type := {
  o_baseAsset : string;
  o_quoteAsset : string;
  o_side : Side;
  o_quantity : string;
  o_price : string;
  o_timestamp : Z;
  o_recvWindow : Z;
}.

(** A call of [exchange.request], by endpoint, with its [params]. *)
Inductive Request : Type :=
| GetAlphaAsset (timestamp recvWindow : Z)
| GetExchangeInfo (timestamp recvWindow : Z)
| GetTickerPrice (symbol : string) (timestamp recvWindow : Z)
| PlaceOrder (params : OrderParams).

(** ** The environment and the effects of the code *)

(** What the code cannot decide itself: the readings of the two clocks
    ([time.time()] of the process, [milliseconds()] of the exchange client),
    the replies of the gateway, and the builtin [float()] on strings.  A
    reply may depend on every request made so far (the list holds the
    current request first). *)
Record Env : Type := {
  time_time : nat -> float;
  exchange_milliseconds : nat -> Z;
  reply_alpha_asset : list Request -> exn + list AlphaAsset;
  reply_exchange_info : list Request -> exn + ExchangeInfo;
  reply_ticker_price : list Request -> exn + Ticker;
  reply_place_order : list Request -> exn + OrderReply;
  float_of_str : string -> option float;
}.

(** The part of the world a call changes: how many clock readings were taken
    and which requests were sent, most recent first. *)
Record World : Type := { ticks : nat; trace : list Request }.

(** The world after one more clock reading, and after one more request. *)
Definition tick (w : World) : World := {| ticks := S (ticks w); trace := trace w |}.
Definition sent (req : Request) (w : World) : World :=
  {| ticks := ticks w; trace := req :: trace w |}.

Record Outcome (S A : Type) : Type := {
  result : exn + A;
  world : World;
  self : S;
}.
Arguments result {S A} _.
Arguments world {S A} _.
Arguments self {S A} _.

(** A method of a connector whose attributes have type [S]: it reads the
    environment, changes the world and [self], and returns or raises.  What
    was changed before an exception stays changed. *)
Definition M (S A : Type) : Type := Env -> World -> S -> Outcome S A.

Section Effects.
Context {S : Type}.

Definition ret {A} (a : A) : M S A :=
  fun _ w s => {| result := inr a; world := w; self := s |}.

Definition raise {A} (e : exn) : M S A :=
  fun _ w s => {| result := inl e; world := w; self := s |}.

Definition bind {A B} (m : M S A) (k : A -> M S B) : M S B :=
  fun env w s =>
    let o := m env w s in
    match result o with
    | inr a => k a env (world o) (self o)
    | inl e => {| result := inl e; world := world o; self := self o |}
    end.

(** [try: body  except Exception as exc: handler exc] *)
Definition try_except {A} (body : M S A) (handler : exn -> M S A) : M S A :=
  fun env w s =>
    let o := body env w s in
    match result o with
    | inr a => o
    | inl e => handler e env (world o) (self o)
    end.

(** A builtin that returns or raises. *)
Definition lift {A} (r : exn + A) : M S A :=
  match r with inr a => ret a | inl e => raise e end.

Definition get_self : M S S :=
  fun _ w s => {| result := inr s; world := w; self := s |}.

Definition set_self (s' : S) : M S unit :=
  fun _ w _ => {| result := inr tt; world := w; self := s' |}.

Definition read_env {A} (f : Env -> A) : M S A :=
  fun env w s => {| result := inr (f env); world := w; self := s |}.

(** [time.time()] *)
Definition now_time : M S float :=
  fun env w s => {| result := inr (time_time env (ticks w)); world := tick w; self := s |}.

(** [self._exchange.milliseconds()] *)
Definition milliseconds : M S Z :=
  fun env w s =>
    {| result := inr (exchange_milliseconds env (ticks w)); world := tick w; self := s |}.

(** [await exchange.request(...)]: the request is recorded, the gateway's
    reply to it is returned or raised. *)
Definition request {A} (reply : Env -> list Request -> exn + A) (req : Request) : M S A :=
  fun env w s =>
    {| result := reply env (req :: trace w); world := sent req w; self := s |}.
End Effects.

Notation "'let*' x ':=' m 'in' k" := (bind m (fun x => k))
  (at level 10, x name, m at level 100, k at level 200).
Notation "m ';;' k" := (bind m (fun _ => k))
  (at level 100, k at level 200, right associativity).

(** ** The scan for the tradable instrument *)

(** [s.get('quoteAsset') == quote_asset and s.get('status') == 'TRADING'] *)
Definition is_trading (quote_asset : string) (s : AlphaSymbol) : bool :=
  bool_decide (quoteAsset s = Some quote_asset) && bool_decide (status s = Some "TRADING").

(** [exchange_info.get('symbols', [])] *)
Definition symbols_of (exchange_info : ExchangeInfo) : list AlphaSymbol :=
  get_default (symbols exchange_info) [].

(** The instrument the specification asks for: the first entry, in catalog
    order, whose quote asset is [q] and whose status is TRADING. *)
Definition first_trading (q : string) (catalog : list AlphaSymbol) (s : AlphaSymbol) : Prop :=
  exists before after,
    catalog = (before ++ s :: after)%list /\
    quoteAsset s = Some q /\ status s = Some "TRADING" /\
    Forall (fun x => ~ (quoteAsset x = Some q /\ status x = Some "TRADING")) before.

Definition none_trading (q : string) (catalog : list AlphaSymbol) : Prop :=
  Forall (fun x => ~ (quoteAsset x = Some q /\ status x = Some "TRADING")) catalog.

(** ** The price oracle's parse and the balance parse, shared by both
    connectors (the same expressions in both files) *)

(** [float(ticker.get('price', 0) or 0)] *)
Definition ticker_price (fos : string -> option float) (ticker : Ticker) : exn + float :=
  py_float fos (py_or (get_default (price ticker) (PyInt 0)) (PyInt 0)).

(** [a or b] on two [d.get(key)] readings of string fields: the first one
    that is present and not empty, else the second as it is. *)
Definition str_or (a b : option string) : option string :=
  match a with
  | Some s => if String.eqb s "" then b else a
  | None => b
  end.

(** The loop over the items of the balance reply:
<<
    for item in result:
        asset_code = item.get('cexAssetCode') or item.get('alphaId')
        if not asset_code:
            continue
        amount = float(item.get('amount', 0) or 0)
        if amount > 0:
            balances[asset_code] = amount
>> *)
Fixpoint parse_balances (fos : string -> option float) (items : list AlphaAsset)
    (balances : BalanceMap) : exn + BalanceMap :=
  match items with
  | [] => inr balances
  | item :: rest =>
      match str_or (cexAssetCode item) (alphaId item) with
      | None => parse_balances fos rest balances
      | Some asset_code =>
          if String.eqb asset_code "" then parse_balances fos rest balances
          else
            match py_float fos (py_or (get_default (amount item) (PyInt 0)) (PyInt 0)) with
            | inl e => inl e
            | inr a =>
                if (0 <? a)%float
                then parse_balances fos rest (<[asset_code := a]> balances)
                else parse_balances fos rest balances
            end
      end
  end.

(** ** BinanceExchange (src/core/exchanges/binance.py) *)

Module BinanceExchange.

(** [{'timestamp': ..., 'data': ...}] *)
Record Cache (A : Type) : Type := { timestamp : float; data : A }.
Arguments timestamp {A} _.
Arguments data {A} _.

(** The attributes the Alpha methods read and write.  [enable_savings] is
    [self.config.enable_savings]; [cache_ttl], [time_diff] and
    [balance_cache] are attributes of the base class. *)
Record t : Type := {
  enable_savings : bool;
  cache_ttl : float;
  time_diff : float;
  balance_cache : Cache (option BalanceMap);
  funding_balance_cache : Cache BalanceMap;
  _alpha_exchange_cache : option (float * ExchangeInfo);
}.

Definition set_funding_balance_cache (c : Cache BalanceMap) (s : t) : t :=
  {| enable_savings := enable_savings s; cache_ttl := cache_ttl s; time_diff := time_diff s;
     balance_cache := balance_cache s;
     funding_balance_cache := c;
     _alpha_exchange_cache := _alpha_exchange_cache s |}.

Definition set_balance_cache (c : Cache (option BalanceMap)) (s : t) : t :=
  {| enable_savings := enable_savings s; cache_ttl := cache_ttl s; time_diff := time_diff s;
     balance_cache := c;
     funding_balance_cache := funding_balance_cache s;
     _alpha_exchange_cache := _alpha_exchange_cache s |}.

Definition set_alpha_exchange_cache (c : option (float * ExchangeInfo)) (s : t) : t :=
  {| enable_savings := enable_savings s; cache_ttl := cache_ttl s; time_diff := time_diff s;
     balance_cache := balance_cache s;
     funding_balance_cache := funding_balance_cache s;
     _alpha_exchange_cache := c |}.

(** The initial caches of [__init__]. *)
Definition init (enabled : bool) (ttl diff : float) : t :=
  {| enable_savings := enabled; cache_ttl := ttl; time_diff := diff;
     balance_cache := {| timestamp := 0; data := None |};
     funding_balance_cache := {| timestamp := 0; data := ∅ |};
     _alpha_exchange_cache := None |}.

(** [int(time.time() * 1000 + self.time_diff)] *)
Definition request_timestamp : M t Z :=
  let* now := now_time in
  let* s := get_self in
  lift (py_int (now * 1000 + time_diff s)%float).

(** The attributes after both balance caches are reset. *)
Definition cleared (s : t) : t :=
  set_funding_balance_cache {| timestamp := 0; data := ∅ |}
    (set_balance_cache {| timestamp := 0; data := None |} s).

(** [_clear_balance_cache] *)
Definition _clear_balance_cache : M t unit :=
  let* s := get_self in
  set_self (cleared s).

Definition fetch_funding_balance : M t BalanceMap :=
  let* s := get_self in
  if negb (enable_savings s) then ret ∅
  else
    let* now := now_time in
    if (now - timestamp (funding_balance_cache s) <? cache_ttl s)%float
    then ret (data (funding_balance_cache s))
    else
      try_except
        (let* ts := request_timestamp in
         let* reply := request reply_alpha_asset (GetAlphaAsset ts 5000) in
         let* fos := read_env float_of_str in
         let* balances := lift (parse_balances fos reply ∅) in
         let* s1 := get_self in
         set_self (set_funding_balance_cache {| timestamp := now; data := balances |} s1) ;;
         ret balances)
        (fun exc =>
           let* s2 := get_self in
           ret (data (funding_balance_cache s2))).

(** Lines 213-225 of [_get_alpha_symbol_info]: the exchange info, from the
    cache when it is younger than 30 seconds. *)
Definition alpha_exchange_info : M t ExchangeInfo :=
  let* s := get_self in
  let cache := _alpha_exchange_cache s in
  let* now := now_time in
  let refetch : M t ExchangeInfo :=
    let* ts := request_timestamp in
    let* exchange_info := request reply_exchange_info (GetExchangeInfo ts 5000) in
    let* s1 := get_self in
    set_self (set_alpha_exchange_cache (Some (now, exchange_info)) s1) ;;
    ret exchange_info in
  match cache with
  | Some c => if (now - c.1 <? 30)%float then ret c.2 else refetch
  | None => refetch
  end.

(** The [for] loop of [_get_alpha_symbol_info]: return the first symbol that
    passes the test, raise after the loop. *)
Fixpoint scan_symbols (quote_asset : string) (l : list AlphaSymbol) : exn + AlphaSymbol :=
  match l with
  | [] => inl (NoAlphaSymbol quote_asset)
  | s :: rest => if is_trading quote_asset s then inr s else scan_symbols quote_asset rest
  end.

Definition _get_alpha_symbol_info (quote_asset : string) : M t AlphaSymbol :=
  let* exchange_info := alpha_exchange_info in
  lift (scan_symbols quote_asset (symbols_of exchange_info)).

Definition _get_alpha_ticker_price (sym : string) : M t float :=
  let* ts := request_timestamp in
  let* ticker := request reply_ticker_price (GetTickerPrice sym ts 5000) in
  let* fos := read_env float_of_str in
  lift (ticker_price fos ticker).

(** [_format_alpha_value] *)
Definition _format_alpha_value (value : float) (precision : Z) : exn + string :=
  format_precision value precision.

(** The body shared by [transfer_to_savings] and [transfer_to_spot], which
    differ in the [side] of the order only. *)
Definition alpha_transfer (side : Side) (asset : string) (amount : float) : M t OrderReply :=
  let* s := get_self in
  if negb (enable_savings s) then raise SavingsDisabled
  else
    try_except
      (let* symbol_info := _get_alpha_symbol_info asset in
       let* sym := lift (getitem "symbol" (symbol symbol_info)) in
       let* price_value := _get_alpha_ticker_price sym in
       if (price_value <=? 0)%float then
         (* the message interpolates symbol_info['symbol'] *)
         raise (InvalidPrice sym)
       else
         let quantity_value := (amount / price_value)%float in
         let* quantity :=
           lift (_format_alpha_value quantity_value
                   (get_default (quantityPrecision symbol_info) 8)) in
         let* price :=
           lift (_format_alpha_value price_value
                   (get_default (pricePrecision symbol_info) 8)) in
         let* base := lift (getitem "baseAsset" (baseAsset symbol_info)) in
         let* ts := request_timestamp in
         let params :=
           {| o_baseAsset := base; o_quoteAsset := asset; o_side := side;
              o_quantity := quantity; o_price := price;
              o_timestamp := ts; o_recvWindow := 5000 |} in
         let* reply := request reply_place_order (PlaceOrder params) in
         _clear_balance_cache ;;
         ret reply)
      (fun exc => raise exc).

Definition transfer_to_savings (asset : string) (amount : float) : M t OrderReply :=
  alpha_transfer BUY asset amount.

Definition transfer_to_spot (asset : string) (amount : float) : M t OrderReply :=
  alpha_transfer SELL asset amount.

End BinanceExchange.

(** ** BinanceAdapter (src/core/exchange/binance_adapter.py) *)

Module BinanceAdapter.

(** The only attribute the Alpha methods keep: [getattr(self,
    '_alpha_exchange_cache', None)] reads [None] also when [initialize] has
    not set it yet.  The adapter has no balance cache and reads no feature
    flag. *)
Record t : Type := { _alpha_exchange_cache : option (float * ExchangeInfo) }.

Definition fetch_funding_balance : M t BalanceMap :=
  try_except
    (let* ts := milliseconds in
     let* response := request reply_alpha_asset (GetAlphaAsset ts 5000) in
     let* fos := read_env float_of_str in
     let* balances := lift (parse_balances fos response ∅) in
     ret balances)
    (fun exc => ret ∅).

Definition get_alpha_exchange_info : M t ExchangeInfo :=
  let* s := get_self in
  let cache := _alpha_exchange_cache s in
  let* now := now_time in
  let refetch : M t ExchangeInfo :=
    let* ts := milliseconds in
    let* info := request reply_exchange_info (GetExchangeInfo ts 5000) in
    set_self {| _alpha_exchange_cache := Some (now, info) |} ;;
    ret info in
  match cache with
  | Some c => if (now - c.1 <? 30)%float then ret c.2 else refetch
  | None => refetch
  end.

Definition get_alpha_ticker_price (sym : string) : M t float :=
  let* ts := milliseconds in
  let* ticker := request reply_ticker_price (GetTickerPrice sym ts 5000) in
  let* fos := read_env float_of_str in
  lift (ticker_price fos ticker).

(** [_format_with_precision] *)
Definition _format_with_precision (value : float) (precision : Z) : exn + string :=
  format_precision value precision.

(** [next((s for s in symbols if ...), None)] *)
Definition next_trading (quote_asset : string) (l : list AlphaSymbol) : option AlphaSymbol :=
  head (List.filter (is_trading quote_asset) l).

(** Lines 264-277 of [_build_alpha_order]: the price and the strings of the
    order for the symbol found. *)
Definition priced_order (symbol_info : AlphaSymbol) (quote_asset : string) (amount : float)
  : M t (string * string * string * string) :=
  let* symbol_name := lift (getitem "symbol" (symbol symbol_info)) in
  let* price_value := get_alpha_ticker_price symbol_name in
  if (price_value <=? 0)%float then raise (InvalidPrice symbol_name)
  else
    let quantity_value := (amount / price_value)%float in
    let* price :=
      lift (_format_with_precision price_value
              (get_default (pricePrecision symbol_info) 8)) in
    let* quantity :=
      lift (_format_with_precision quantity_value
              (get_default (quantityPrecision symbol_info) 8)) in
    let* base := lift (getitem "baseAsset" (baseAsset symbol_info)) in
    ret (base, quote_asset, price, quantity).

(** Returns [(baseAsset, quote_asset, price, quantity)].  A symbol that
    passed the test has a [quoteAsset] key, so [not symbol_info] holds for
    [None] only. *)
Definition _build_alpha_order (quote_asset : string) (amount : float)
  : M t (string * string * string * string) :=
  let* exchange_info := get_alpha_exchange_info in
  let symbols := symbols_of exchange_info in
  match next_trading quote_asset symbols with
  | None => raise (NoAlphaSymbol quote_asset)
  | Some symbol_info => priced_order symbol_info quote_asset amount
  end.

(** The body shared by [transfer_to_funding] and [transfer_to_spot], which
    differ in the [side] of the order only. *)
Definition alpha_order (side : Side) (asset : string) (amount : float) : M t bool :=
  try_except
    (let* order := _build_alpha_order asset amount in
     let '(base_asset, quote_asset, price, quantity) := order in
     let* ts := milliseconds in
     let params :=
       {| o_baseAsset := base_asset; o_quoteAsset := quote_asset; o_side := side;
          o_quantity := quantity; o_price := price;
          o_timestamp := ts; o_recvWindow := 5000 |} in
     request reply_place_order (PlaceOrder params) ;;
     ret true)
    (fun exc => ret false).

Definition transfer_to_funding (asset : string) (amount : float) : M t bool :=
  alpha_order BUY asset amount.

Definition transfer_to_spot (asset : string) (amount : float) : M t bool :=
  alpha_order SELL asset amount.

End BinanceAdapter.

(** ** Notions the properties are stated with *)

Fixpoint string_forall (f : ascii -> bool) (s : string) : bool :=
  match s with
  | EmptyString => true
  | String c r => f c && string_forall f r
  end.

Definition is_digit (c : ascii) : bool :=
  (48 <=? nat_of_ascii c)%nat && (nat_of_ascii c <=? 57)%nat.

Definition all_digits (s : string) : bool := string_forall is_digit s.

(** A fixed-point decimal string with exactly [p] digits after the point:
    an optional minus sign, at least one digit, and, unless [p] is 0, a point
    followed by [p] digits. *)
Definition fixed_point (p : nat) (s : string) : Prop :=
  exists sign int frac,
    s = sign +:+ int +:+ match p with O => "" | S _ => "." +:+ frac end /\
    (sign = "" \/ sign = "-") /\
    int <> "" /\ all_digits int = true /\
    all_digits frac = true /\ String.length frac = p.

(** No exponent marker in the string. *)
Definition no_exponent (s : string) : bool :=
  string_forall (fun c => negb (Ascii.eqb c "e") && negb (Ascii.eqb c "E")) s.

(** The orders submitted in a trace. *)
Definition placed (tr : list Request) : list OrderParams :=
  omap (fun r => match r with PlaceOrder p => Some p | _ => None end) tr.

(** The catalog fetches and the balance fetches in a trace. *)
Definition catalog_fetches (tr : list Request) : nat :=
  length (List.filter (fun r => match r with GetExchangeInfo _ _ => true | _ => false end) tr).

Definition balance_fetches (tr : list Request) : nat :=
  length (List.filter (fun r => match r with GetAlphaAsset _ _ => true | _ => false end) tr).

(** The error the gateway answered the most recent request of [tr] with, if
    it rejected it. *)
Definition rejected (env : Env) (tr : list Request) : option exn :=
  let err {A} (r : exn + A) : option exn :=
    match r with inl e => Some e | inr _ => None end in
  match tr with
  | [] => None
  | GetAlphaAsset _ _ :: _ => err (reply_alpha_asset env tr)
  | GetExchangeInfo _ _ :: _ => err (reply_exchange_info env tr)
  | GetTickerPrice _ _ _ :: _ => err (reply_ticker_price env tr)
  | PlaceOrder _ :: _ => err (reply_place_order env tr)
  end.

(** A finite number: neither NaN nor an infinity. *)
Definition finite (v : float) : Prop := is_finite v = true.

(** A [ValueError] with which [format] refuses a precision. *)
Definition format_error (e : exn) : Prop :=
  e = BuiltinError "ValueError: Format specifier missing precision" \/
  e = BuiltinError "ValueError: Too many decimal digits in format string" \/
  e = BuiltinError "ValueError: precision too big".

(** [now - fetchedAt < 30] for the entry of the catalog cache; an empty
    cache is not fresh. *)
Definition catalog_fresh (now : float) (cache : option (float * ExchangeInfo)) : bool :=
  match cache with
  | Some c => (now - c.1 <? 30)%float
  | None => false
  end.

(** The clock of the process is sane for a [BinanceExchange] when every
    request timestamp [int(time.time() * 1000 + self.time_diff)] can be
    computed: no reading makes it a NaN or an infinity. *)
Definition clock_sane (env : Env) (s : BinanceExchange.t) : Prop :=
  forall k, finite (time_time env k * 1000 + BinanceExchange.time_diff s)%float.

(** The contract of the catalog cache, for a method [getCatalog] of a
    connector that keeps the entry in the attribute [cache]:
    - a fresh entry is returned as it is, without a request;
    - otherwise one request is sent, and its reply, stamped with the time of
      the call, replaces the entry, or its error is raised and nothing
      changes;
    - so two calls, the first of which fetched, send one request when the
      second comes within 30 seconds of the first, and two when it comes
      more than 30 seconds after it. *)
Definition thirty_second_cache {S : Type} (getCatalog : M S ExchangeInfo)
    (cache : S -> option (float * ExchangeInfo)) (sane : Env -> S -> Prop) : Prop :=
  (forall env w s fetchedAt info,
      cache s = Some (fetchedAt, info) ->
      (time_time env (ticks w) - fetchedAt <? 30)%float = true ->
      let o := getCatalog env w s in
      result o = inr info /\ trace (world o) = trace w /\ self o = s) /\
  (forall env w s,
      sane env s ->
      catalog_fresh (time_time env (ticks w)) (cache s) = false ->
      let o := getCatalog env w s in
      exists ts,
        trace (world o) = GetExchangeInfo ts 5000 :: trace w /\
        match reply_exchange_info env (trace (world o)) with
        | inr info =>
            result o = inr info /\ cache (self o) = Some (time_time env (ticks w), info)
        | inl e => result o = inl e /\ self o = s
        end) /\
  (forall env w s info,
      sane env s ->
      catalog_fresh (time_time env (ticks w)) (cache s) = false ->
      let o1 := getCatalog env w s in
      let o2 := getCatalog env (world o1) (self o1) in
      result o1 = inr info ->
      sane env (self o1) ->
      let t1 := time_time env (ticks w) in
      let t2 := time_time env (ticks (world o1)) in
      ((t2 - t1 <? 30)%float = true ->
       result o2 = inr info /\
       catalog_fetches (trace (world o2)) = (catalog_fetches (trace w) + 1)%nat) /\
      ((30 <? t2 - t1)%float = true ->
       catalog_fetches (trace (world o2)) = (catalog_fetches (trace w) + 2)%nat)).

(** A transfer [op] of a connector is gated by the flag [enabled] of its
    attributes: with the flag off it raises the feature-disabled error at
    once, with no clock reading and no request. *)
Definition gated_by {S A : Type} (enabled : S -> bool) (op : M S A) : Prop :=
  forall env w s,
    enabled s = false ->
    op env w s = {| result := inl SavingsDisabled; world := w; self := s |}.

(** ** A test bench: three pairs quoted in USDT, the second one the first
    that is TRADING *)

Module Bench.

Definition ALPHA_USDT : AlphaSymbol :=
  {| symbol := Some "ALPHA_175USDT"; baseAsset := Some "ALPHA_175";
     quoteAsset := Some "USDT"; status := Some "TRADING";
     pricePrecision := Some 2; quantityPrecision := Some 4 |}.

Definition HALTED_USDT : AlphaSymbol :=
  {| symbol := Some "ALPHA_9USDT"; baseAsset := Some "ALPHA_9";
     quoteAsset := Some "USDT"; status := Some "BREAK";
     pricePrecision := Some 2; quantityPrecision := Some 4 |}.

Definition OTHER_USDT : AlphaSymbol :=
  {| symbol := Some "ALPHA_200USDT"; baseAsset := Some "ALPHA_200";
     quoteAsset := Some "USDT"; status := Some "TRADING";
     pricePrecision := Some 6; quantityPrecision := Some 1 |}.

(** A pair whose metadata has no precision keys. *)
Definition BARE_USDC : AlphaSymbol :=
  {| symbol := Some "ALPHA_3USDC"; baseAsset := Some "ALPHA_3";
     quoteAsset := Some "USDC"; status := Some "TRADING";
     pricePrecision := None; quantityPrecision := None |}.

Definition catalog : ExchangeInfo :=
  {| symbols := Some [HALTED_USDT; ALPHA_USDT; OTHER_USDT; BARE_USDC] |}.

Definition usdt_asset (a : pyval) : AlphaAsset :=
  {| cexAssetCode := Some "USDT"; alphaId := Some "ALPHA_1"; amount := Some a |}.

(** [float()] on the few strings the bench replies hold. *)
Definition bench_float (s : string) : option float :=
  if String.eqb s "2.5" then Some 2.5%float
  else if String.eqb s "5" then Some 5%float
  else if String.eqb s "0" then Some 0%float
  else if String.eqb s "nan" then Some nan
  else None.

(** The clock reads the listed values, then stays at the last second of
    the year 2023. *)
Definition clock (readings : list float) (k : nat) : float :=
  nth k readings 1704067199%float.

(** A gateway that accepts the request that makes the trace [n] long when
    [up n] holds, and rejects it otherwise; the ticker quotes [px]. *)
Definition bench_env (readings : list float) (px : option pyval) (up : nat -> bool) : Env :=
  let reply {A} (a : A) (tr : list Request) : exn + A :=
    if up (length tr) then inr a else inl (RequestError (-1003)) in
  {| time_time := clock readings;
     exchange_milliseconds := fun k => 1704067199000 + Z.of_nat k;
     reply_alpha_asset := reply [usdt_asset (PyStr "5")];
     reply_exchange_info := reply catalog;
     reply_ticker_price := reply {| price := px |};
     reply_place_order := reply {[ "orderId" := PyInt 42 ]};
     float_of_str := bench_float |}.

Definition env_ok (readings : list float) (px : option pyval) : Env :=
  bench_env readings px (fun _ => true).

Definition env_down (readings : list float) : Env :=
  bench_env readings (Some (PyStr "2.5")) (fun _ => false).

(** Accepts the first request only. *)
Definition env_flaky (readings : list float) : Env :=
  bench_env readings (Some (PyStr "2.5")) (fun n => (n <=? 1)%nat).

Definition w0 : World := {| ticks := 0; trace := [] |}.

Definition exchange0 (ttl : float) : BinanceExchange.t := BinanceExchange.init true ttl 0.

Definition adapter0 : BinanceAdapter.t := {| BinanceAdapter._alpha_exchange_cache := None |}.

End Bench.

(** ** Notions for the balance reply and for the set-up of the adapter *)

(** A string field that is present and not empty. *)
Definition nonempty (field : option string) : option string :=
  match field with
  | Some s => if String.eqb s "" then None else Some s
  | None => None
  end.

(** The code an item of the balance reply is filed under: its
    [cexAssetCode], or else its [alphaId]; [None] for an item with neither,
    which the loop skips. *)
Definition asset_key (item : AlphaAsset) : option string :=
  match nonempty (cexAssetCode item) with
  | Some c => Some c
  | None => nonempty (alphaId item)
  end.

(** [float(item.get('amount', 0) or 0)] *)
Definition asset_amount (fos : string -> option float) (item : AlphaAsset) : exn + float :=
  py_float fos (py_or (get_default (amount item) (PyInt 0)) (PyInt 0)).

(** A balance map as the loop builds it: every amount positive, no empty
    code. *)
Definition positive_balances (b : BalanceMap) : Prop :=
  forall k a, b !! k = Some a -> (0 <? a)%float = true /\ k <> "".

(** The new requests of a call: the trace after it is [new] followed by the
    trace before it. *)
Definition sends {S A : Type} (o : Outcome S A) (w : World) (new : list Request) : Prop :=
  trace (world o) = (new ++ trace w)%list.



(** The reply of the [fetch_balance] of the exchange client, of which
    [initialize] reads the [free] balances. *)
Record SpotBalance : Type := { free : option (list (string * pyval)) }.

Module BinanceAdapterSetup.

(** [len([k for k, v in balance['free'].items() if float(v) > 0])] *)
Fixpoint count_positive (fos : string -> option float) (l : list (string * pyval))
  : exn + nat :=
  match l with
  | [] => inr O
  | (_, v) :: rest =>
      match py_float fos v with
      | inl e => inl e
      | inr f =>
          match count_positive fos rest with
          | inl e => inl e
          | inr n => inr (if (0 <? f)%float then S n else n)
          end
      end
  end.

(** [initialize] of [BinanceAdapter].  The catalog cache is emptied first;
    [load_markets()] and [fetch_balance()] are calls of the exchange client
    outside the Alpha endpoints, whose outcomes are given; the number of
    assets is computed for the log line only. *)
Definition initialize (load_markets : exn + unit) (fetch_balance : exn + SpotBalance)
  : M BinanceAdapter.t unit :=
  set_self {| BinanceAdapter._alpha_exchange_cache := None |} ;;
  lift load_markets ;;
  let* balance := lift fetch_balance in
  let* fos := read_env float_of_str in
  let* held := lift (getitem "free" (free balance)) in
  let* n := lift (count_positive fos held) in
  ret tt.

End BinanceAdapterSetup.

(** ** Facts about binary64 numbers *)

Section FloatFacts.

Lemma sub_zero_r (x : float) : (x - 0)%float = x.
Proof.
  apply Prim2SF_inj. rewrite FloatAxioms.sub_spec.
  change (Prim2SF 0) with (S754_zero false).
  unfold SF64sub, SFsub.
  destruct (Prim2SF x) as [[|]|[|]| |s m e]; reflexivity.
Qed.

Lemma SFcompare_antisym (x y : spec_float) :
  SFcompare y x = option_map CompOpp (SFcompare x y).
Proof.
  destruct x as [sx|sx| |sx mx ex], y as [sy|sy| |sy my ey]; simpl;
    try reflexivity; try (destruct sx; reflexivity);
    try (destruct sy; reflexivity); try (destruct sx, sy; reflexivity).
  destruct sx, sy; simpl; try reflexivity;
    rewrite (Z.compare_antisym ex ey);
    destruct (ex ?= ey)%Z eqn:E; simpl; try reflexivity;
    rewrite !Pos.compare_cont_spec, (Pos.compare_antisym mx my); simpl;
    destruct (mx ?= my)%positive; reflexivity.
Qed.

(** [a <= b] excludes [b < a]. *)
Lemma leb_not_ltb (a b : float) : (a <=? b)%float = true -> (b <? a)%float = false.
Proof.
  rewrite FloatAxioms.leb_spec, FloatAxioms.ltb_spec. unfold SFleb, SFltb.
  rewrite (SFcompare_antisym (Prim2SF a) (Prim2SF b)).
  destruct (SFcompare (Prim2SF a) (Prim2SF b)) as [[| |]|]; simpl; congruence.
Qed.

(** [a < b] excludes [b < a]. *)
Lemma ltb_asym (a b : float) : (a <? b)%float = true -> (b <? a)%float = false.
Proof.
  rewrite !FloatAxioms.ltb_spec. unfold SFltb.
  rewrite (SFcompare_antisym (Prim2SF a) (Prim2SF b)).
  destruct (SFcompare (Prim2SF a) (Prim2SF b)) as [[| |]|]; simpl; congruence.
Qed.

(** A finite number is a zero or has a mantissa and an exponent. *)
Lemma finite_cases (v : float) :
  finite v ->
  (exists s, Prim2SF v = S754_zero s) \/ (exists s m e, Prim2SF v = S754_finite s m e).
Proof.
  unfold finite, is_finite, is_nan, is_infinity.
  rewrite !FloatAxioms.eqb_spec, FloatAxioms.abs_spec.
  change (Prim2SF infinity) with (S754_infinity false).
  destruct (Prim2SF v) as [s|[|]| |s m e]; simpl; try discriminate; eauto.
Qed.

End FloatFacts.

(** ** Facts about the fixed-point rendering *)

Section FormatFacts.

Lemma string_forall_app f (a b : string) :
  string_forall f (a +:+ b) = string_forall f a && string_forall f b.
Proof.
  induction a as [|c a IH]; simpl; [reflexivity|].
  rewrite IH. apply andb_assoc.
Qed.

Lemma string_forall_impl (f g : ascii -> bool) (s : string) :
  (forall c, f c = true -> g c = true) ->
  string_forall f s = true -> string_forall g s = true.
Proof.
  intros Hfg. induction s as [|c s IH]; simpl; [reflexivity|].
  intros [Hc Hs]%andb_true_iff. rewrite (Hfg _ Hc), (IH Hs). reflexivity.
Qed.

Lemma digit_char_is_digit (d : Z) : 0 <= d < 10 -> is_digit (digit_char d) = true.
Proof.
  intros Hd.
  assert (Hc : d = 0 \/ d = 1 \/ d = 2 \/ d = 3 \/ d = 4 \/
               d = 5 \/ d = 6 \/ d = 7 \/ d = 8 \/ d = 9) by lia.
  repeat destruct Hc as [-> | Hc]; try subst d; reflexivity.
Qed.

Lemma frac_digits_length (p : nat) (n : Z) : String.length (frac_digits p n) = p.
Proof.
  induction p as [|p IH]; [reflexivity|].
  change (S (String.length (frac_digits p n)) = S p). congruence.
Qed.

Lemma frac_digits_all (p : nat) (n : Z) : all_digits (frac_digits p n) = true.
Proof.
  unfold all_digits. induction p as [|p IH]; [reflexivity|].
  change (frac_digits (S p) n)
    with (String (digit_char ((n / 10 ^ Z.of_nat p) mod 10)) (frac_digits p n)).
  change (is_digit (digit_char ((n / 10 ^ Z.of_nat p) mod 10))
          && string_forall is_digit (frac_digits p n) = true).
  rewrite IH, digit_char_is_digit; [reflexivity|].
  apply Z.mod_pos_bound. lia.
Qed.

Lemma uint_digits_all (u : Decimal.uint) : all_digits (NilEmpty.string_of_uint u) = true.
Proof. unfold all_digits. induction u; simpl; auto. Qed.

Lemma int_digits_all (n : Z) : all_digits (int_digits n) = true.
Proof.
  unfold int_digits, NilZero.string_of_uint.
  generalize (N.to_uint (Z.to_N n)). intros u.
  destruct u; first [reflexivity | apply uint_digits_all].
Qed.

Lemma int_digits_nonempty (n : Z) : int_digits n <> "".
Proof.
  unfold int_digits, NilZero.string_of_uint.
  destruct (N.to_uint (Z.to_N n)); simpl; discriminate.
Qed.

Lemma fixed_digits_shape (s : bool) (n : Z) (p : nat) :
  fixed_point p (sign_str s +:+ fixed_digits n p).
Proof.
  exists (sign_str s), (int_digits (n / 10 ^ Z.of_nat p)), (frac_digits p n).
  split; [|split; [|split; [|split; [|split]]]].
  - unfold fixed_digits. destruct p; reflexivity.
  - destruct s; auto.
  - apply int_digits_nonempty.
  - apply int_digits_all.
  - apply frac_digits_all.
  - apply frac_digits_length.
Qed.

(** The rendering of a finite number is a fixed-point string. *)
Lemma format_f_finite (v : float) (p : nat) : finite v -> fixed_point p (format_f v p).
Proof.
  intros [[s E]|(s & m & e & E)]%finite_cases; unfold format_f; rewrite E;
    apply fixed_digits_shape.
Qed.

Lemma fixed_digits_no_exponent (s : bool) (n : Z) (p : nat) :
  no_exponent (sign_str s +:+ fixed_digits n p) = true.
Proof.
  assert (Hd : forall t, all_digits t = true -> no_exponent t = true).
  { intros t. apply string_forall_impl. intros c Hc.
    destruct (Ascii.eqb_spec c "e") as [->|_]; [discriminate Hc|].
    destruct (Ascii.eqb_spec c "E") as [->|_]; [discriminate Hc|]. reflexivity. }
  unfold no_exponent in *. unfold fixed_digits.
  rewrite !string_forall_app, (Hd _ (int_digits_all _)).
  destruct p as [|p].
  - destruct s; reflexivity.
  - rewrite string_forall_app, (Hd _ (frac_digits_all _ _)). destruct s; reflexivity.
Qed.

(** No rendering, of any number, holds an exponent marker. *)
Lemma format_f_no_exponent (v : float) (p : nat) : no_exponent (format_f v p) = true.
Proof.
  unfold format_f. destruct (Prim2SF v) as [s|s| |s m e];
    try apply fixed_digits_no_exponent; try reflexivity.
  destruct s; reflexivity.
Qed.

(** A fixed-point string starts with a digit or a minus sign. *)
Lemma fixed_point_head (p : nat) (s : string) :
  fixed_point p s ->
  exists c r, s = String c r /\ (is_digit c = true \/ c = "-"%char).
Proof.
  intros (sign & int & frac & -> & Hs & Hne & Hint & _).
  destruct Hs as [-> | ->]; simpl.
  - destruct int as [|c r]; [congruence|]. simpl. exists c. eexists. split; [reflexivity|].
    left. unfold all_digits in Hint. simpl in Hint. apply andb_true_iff in Hint. tauto.
  - eauto.
Qed.

End FormatFacts.

(** ** How the methods run *)

Ltac run :=
  cbv beta iota zeta delta
    [bind ret raise lift try_except get_self set_self read_env now_time
     milliseconds request result world self].

Section AdapterRuns.
Import BinanceAdapter.

Lemma adapter_catalog_hit env w s fetchedAt info :
  _alpha_exchange_cache s = Some (fetchedAt, info) ->
  (time_time env (ticks w) - fetchedAt <? 30)%float = true ->
  get_alpha_exchange_info env w s = {| result := inr info; world := tick w; self := s |}.
Proof.
  intros Hc Hf. unfold get_alpha_exchange_info. run.
  rewrite Hc. simpl. rewrite Hf. reflexivity.
Qed.

Lemma adapter_catalog_miss env w s :
  catalog_fresh (time_time env (ticks w)) (_alpha_exchange_cache s) = false ->
  let req := GetExchangeInfo (exchange_milliseconds env (S (ticks w))) 5000 in
  get_alpha_exchange_info env w s =
    {| result := reply_exchange_info env (req :: trace w);
       world := sent req (tick (tick w));
       self := match reply_exchange_info env (req :: trace w) with
               | inr info =>
                   {| _alpha_exchange_cache := Some (time_time env (ticks w), info) |}
               | inl _ => s
               end |}.
Proof.
  intros Hf. unfold get_alpha_exchange_info. run.
  destruct (_alpha_exchange_cache s) as [[t info]|]; simpl in *;
    [rewrite Hf|]; destruct (reply_exchange_info env _); reflexivity.
Qed.

End AdapterRuns.

Section ExchangeRuns.
Import BinanceExchange.

Lemma py_int_finite (f : float) : finite f -> exists z, py_int f = inr z.
Proof.
  intros [[s E]|(s & m & e & E)]%finite_cases; unfold py_int; rewrite E; eauto.
Qed.

Lemma request_timestamp_run env w s :
  request_timestamp env w s =
    {| result := py_int (time_time env (ticks w) * 1000 + time_diff s)%float;
       world := tick w; self := s |}.
Proof. unfold request_timestamp. run. destruct (py_int _); reflexivity. Qed.

Lemma exchange_catalog_hit env w s fetchedAt info :
  _alpha_exchange_cache s = Some (fetchedAt, info) ->
  (time_time env (ticks w) - fetchedAt <? 30)%float = true ->
  alpha_exchange_info env w s = {| result := inr info; world := tick w; self := s |}.
Proof.
  intros Hc Hf. unfold alpha_exchange_info. run.
  rewrite Hc. simpl. rewrite Hf. reflexivity.
Qed.

(** A miss: the timestamp is computed from a second clock reading, the
    request is sent, and the reply replaces the entry. *)
Lemma exchange_catalog_miss env w s :
  catalog_fresh (time_time env (ticks w)) (_alpha_exchange_cache s) = false ->
  alpha_exchange_info env w s =
    match py_int (time_time env (S (ticks w)) * 1000 + time_diff s)%float with
    | inl e => {| result := inl e; world := tick (tick w); self := s |}
    | inr ts =>
        let req := GetExchangeInfo ts 5000 in
        {| result := reply_exchange_info env (req :: trace w);
           world := sent req (tick (tick w));
           self := match reply_exchange_info env (req :: trace w) with
                   | inr info =>
                       set_alpha_exchange_cache (Some (time_time env (ticks w), info)) s
                   | inl _ => s
                   end |}
    end.
Proof.
  intros Hf. unfold alpha_exchange_info. run.
  destruct (_alpha_exchange_cache s) as [[t info]|]; simpl in *; [rewrite Hf|];
    rewrite !request_timestamp_run; run; simpl;
    destruct (py_int _); try reflexivity;
    destruct (reply_exchange_info env _); reflexivity.
Qed.

End ExchangeRuns.

(** ** The catalog cache *)

Section CatalogCache.
Context {S : Type} (getCatalog : M S ExchangeInfo)
        (cache : S -> option (float * ExchangeInfo)) (sane : Env -> S -> Prop).

Hypothesis hit : forall env w s fetchedAt info,
    cache s = Some (fetchedAt, info) ->
    (time_time env (ticks w) - fetchedAt <? 30)%float = true ->
    let o := getCatalog env w s in
    result o = inr info /\ trace (world o) = trace w /\ self o = s.

Hypothesis miss : forall env w s,
    sane env s ->
    catalog_fresh (time_time env (ticks w)) (cache s) = false ->
    let o := getCatalog env w s in
    exists ts,
      trace (world o) = GetExchangeInfo ts 5000 :: trace w /\
      match reply_exchange_info env (trace (world o)) with
      | inr info =>
          result o = inr info /\ cache (self o) = Some (time_time env (ticks w), info)
      | inl e => result o = inl e /\ self o = s
      end.

(** The two-call behaviour follows from the behaviour of one call. *)
Lemma thirty_second_cache_intro : thirty_second_cache getCatalog cache sane.
Proof.
  split; [exact hit|]. split; [exact miss|].
  intros env w s info Hsane Hstale o1 o2 Hok Hsane1 t1 t2.
  destruct (miss env w s Hsane Hstale) as (ts & Htr & Hreply).
  fold o1 in Htr, Hreply.
  destruct (reply_exchange_info env (trace (world o1))) as [e|info'].
  { destruct Hreply as [Hres _]. congruence. }
  destruct Hreply as [Hres Hcache].
  assert (info' = info) as -> by congruence.
  split.
  - intros Hin.
    destruct (hit env (world o1) (self o1) t1 info Hcache Hin) as (Hr & Ht & _).
    fold o2 in Hr, Ht. split; [exact Hr|].
    rewrite Ht, Htr. unfold catalog_fetches. simpl. lia.
  - intros Hout. apply ltb_asym in Hout.
    assert (Hstale2 : catalog_fresh t2 (cache (self o1)) = false).
    { rewrite Hcache. exact Hout. }
    destruct (miss env (world o1) (self o1) Hsane1 Hstale2) as (ts2 & Htr2 & _).
    fold o2 in Htr2. rewrite Htr2, Htr. unfold catalog_fetches. simpl. lia.
Qed.

End CatalogCache.

(** C5. The instrument-catalog cache of both connectors
    ([BinanceAdapter.get_alpha_exchange_info] and lines 213-225 of
    [BinanceExchange._get_alpha_symbol_info]): a call returns the cached
    catalog without a request exactly when [now - fetchedAt < 30]; otherwise it
    sends one request and replaces the entry by the reply, stamped with the
    time of the call; hence two calls within 30 seconds send one request and
    two calls more than 30 seconds apart send two. *)
Theorem catalog_cache_thirty_seconds :
  thirty_second_cache BinanceAdapter.get_alpha_exchange_info
    BinanceAdapter._alpha_exchange_cache (fun _ _ => True) /\
  thirty_second_cache BinanceExchange.alpha_exchange_info
    BinanceExchange._alpha_exchange_cache clock_sane.
Proof.
  split; apply thirty_second_cache_intro.
  - intros env w s t info Hc Hf. cbv zeta.
    rewrite (adapter_catalog_hit env w s t info Hc Hf). auto.
  - intros env w s _ Hf. cbv zeta. rewrite (adapter_catalog_miss env w s Hf).
    eexists. split; [reflexivity|]. simpl.
    destruct (reply_exchange_info env _); auto.
  - intros env w s t info Hc Hf. cbv zeta.
    rewrite (exchange_catalog_hit env w s t info Hc Hf). auto.
  - intros env w s Hsane Hf. cbv zeta. rewrite (exchange_catalog_miss env w s Hf).
    destruct (py_int_finite _ (Hsane (S (ticks w)))) as [ts ->].
    exists ts. split; [reflexivity|]. simpl.
    destruct (reply_exchange_info env _); auto.
Qed.

(** ** The instrument lookup *)

Section Lookup.
Variable q : string.

Lemma is_trading_spec (s : AlphaSymbol) :
  is_trading q s = true <-> quoteAsset s = Some q /\ status s = Some "TRADING".
Proof.
  unfold is_trading. rewrite andb_true_iff, !bool_decide_eq_true. reflexivity.
Qed.

Lemma is_trading_false (s : AlphaSymbol) :
  is_trading q s = false <-> ~ (quoteAsset s = Some q /\ status s = Some "TRADING").
Proof. rewrite <- is_trading_spec. destruct (is_trading q s); split; congruence. Qed.

(** The first match is unique. *)
Lemma first_trading_unique (l : list AlphaSymbol) (x y : AlphaSymbol) :
  first_trading q l x -> first_trading q l y -> x = y.
Proof.
  intros (b1 & a1 & -> & Hq1 & Hs1 & Hb1) (b2 & a2 & E & Hq2 & Hs2 & Hb2).
  revert b2 E Hb2. induction b1 as [|z b1 IH]; intros [|z2 b2] E Hb2; simpl in E.
  - congruence.
  - injection E as -> _. apply Forall_cons in Hb2 as [Hz _]. tauto.
  - injection E as -> _. apply Forall_cons in Hb1 as [Hz _]. tauto.
  - injection E as -> E. apply Forall_cons in Hb1 as [_ Hb1].
    apply Forall_cons in Hb2 as [_ Hb2]. exact (IH Hb1 b2 E Hb2).
Qed.

(** Every catalog has a first match or none at all. *)
Lemma first_or_none (l : list AlphaSymbol) :
  (exists x, first_trading q l x) \/ none_trading q l.
Proof.
  induction l as [|z l [[x (b & a & -> & Hq & Hs & Hb)]|Hn]].
  - right. constructor.
  - destruct (is_trading q z) eqn:Ez.
    + left. exists z, [], (b ++ x :: a)%list. apply is_trading_spec in Ez.
      split; [reflexivity|]. repeat split; try tauto. constructor.
    + left. exists x, (z :: b), a. apply is_trading_false in Ez.
      split; [reflexivity|]. repeat split; auto.
  - destruct (is_trading q z) eqn:Ez.
    + left. exists z, [], l. apply is_trading_spec in Ez.
      split; [reflexivity|]. repeat split; try tauto. constructor.
    + right. apply is_trading_false in Ez. constructor; assumption.
Qed.

Lemma first_not_none (l : list AlphaSymbol) (x : AlphaSymbol) :
  first_trading q l x -> none_trading q l -> False.
Proof.
  intros (b & a & -> & Hq & Hs & _) Hn. unfold none_trading in Hn.
  rewrite Forall_app, Forall_cons in Hn. tauto.
Qed.

Lemma scan_symbols_first (l : list AlphaSymbol) (x : AlphaSymbol) :
  BinanceExchange.scan_symbols q l = inr x <-> first_trading q l x.
Proof.
  induction l as [|z l IH]; simpl.
  - split; [discriminate|]. intros (b & a & E & _). destruct b; discriminate.
  - destruct (is_trading q z) eqn:Ez.
    + assert (Hz : first_trading q (z :: l) z).
      { exists [], l. apply is_trading_spec in Ez.
        split; [reflexivity|]. repeat split; try tauto. constructor. }
      split.
      * intros [= <-]. exact Hz.
      * intros Hx. f_equal. exact (first_trading_unique _ _ _ Hz Hx).
    + apply is_trading_false in Ez. rewrite IH. split.
      * intros (b & a & -> & Hq & Hs & Hb). exists (z :: b), a.
        split; [reflexivity|]. repeat split; auto.
      * intros (b & a & E & Hq & Hs & Hb). destruct b as [|z' b]; simpl in E.
        -- injection E as -> _. tauto.
        -- injection E as -> ->. apply Forall_cons in Hb as [_ Hb]. exists b, a. tauto.
Qed.

Lemma scan_symbols_none (l : list AlphaSymbol) (e : exn) :
  BinanceExchange.scan_symbols q l = inl e <-> e = NoAlphaSymbol q /\ none_trading q l.
Proof.
  unfold none_trading. induction l as [|z l IH]; simpl.
  - split; [intros [= <-]; split; [reflexivity|constructor] | intros [-> _]; reflexivity].
  - destruct (is_trading q z) eqn:Ez.
    + apply is_trading_spec in Ez. split; [discriminate|].
      intros [_ Hn]. apply Forall_cons in Hn as [Hz _]. tauto.
    + apply is_trading_false in Ez. rewrite IH, Forall_cons. tauto.
Qed.

(** The generator expression with [next] finds what the [for] loop finds. *)
Lemma next_trading_scan (l : list AlphaSymbol) :
  BinanceAdapter.next_trading q l =
    match BinanceExchange.scan_symbols q l with inr x => Some x | inl _ => None end.
Proof.
  unfold BinanceAdapter.next_trading. induction l as [|z l IH]; simpl; [reflexivity|].
  destruct (is_trading q z); [reflexivity | exact IH].
Qed.

Lemma next_trading_first (l : list AlphaSymbol) (x : AlphaSymbol) :
  BinanceAdapter.next_trading q l = Some x <-> first_trading q l x.
Proof.
  rewrite next_trading_scan, <- scan_symbols_first.
  destruct (BinanceExchange.scan_symbols q l); split; congruence.
Qed.

Lemma next_trading_none (l : list AlphaSymbol) :
  BinanceAdapter.next_trading q l = None <-> none_trading q l.
Proof.
  rewrite next_trading_scan.
  destruct (BinanceExchange.scan_symbols q l) as [e|x] eqn:E.
  - apply scan_symbols_none in E. tauto.
  - apply scan_symbols_first in E. split; [discriminate|].
    intros Hn. destruct (first_not_none _ _ E Hn).
Qed.

End Lookup.

Section LookupRuns.

Lemma exchange_catalog_cached env w s info :
  result (BinanceExchange.alpha_exchange_info env w s) = inr info ->
  exists fetchedAt,
    BinanceExchange._alpha_exchange_cache
      (self (BinanceExchange.alpha_exchange_info env w s)) = Some (fetchedAt, info).
Proof.
  destruct (catalog_fresh (time_time env (ticks w))
              (BinanceExchange._alpha_exchange_cache s)) eqn:Hf.
  - destruct (BinanceExchange._alpha_exchange_cache s) as [[t i]|] eqn:Hc; [|discriminate].
    rewrite (exchange_catalog_hit env w s t i Hc Hf). simpl. intros [= ->]. eauto.
  - rewrite (exchange_catalog_miss env w s Hf).
    destruct (py_int _) as [e|ts]; [discriminate|]. simpl.
    destruct (reply_exchange_info env _) as [e|i]; [discriminate|].
    intros [= ->]. eauto.
Qed.

Lemma adapter_catalog_cached env w s info :
  result (BinanceAdapter.get_alpha_exchange_info env w s) = inr info ->
  exists fetchedAt,
    BinanceAdapter._alpha_exchange_cache
      (self (BinanceAdapter.get_alpha_exchange_info env w s)) = Some (fetchedAt, info).
Proof.
  destruct (catalog_fresh (time_time env (ticks w))
              (BinanceAdapter._alpha_exchange_cache s)) eqn:Hf.
  - destruct (BinanceAdapter._alpha_exchange_cache s) as [[t i]|] eqn:Hc; [|discriminate].
    rewrite (adapter_catalog_hit env w s t i Hc Hf). simpl. intros [= ->]. eauto.
  - rewrite (adapter_catalog_miss env w s Hf). simpl.
    destruct (reply_exchange_info env _) as [e|i]; [discriminate|].
    intros [= ->]. eauto.
Qed.

Lemma exchange_symbol_info_run q env w s :
  BinanceExchange._get_alpha_symbol_info q env w s =
    let oc := BinanceExchange.alpha_exchange_info env w s in
    {| result := match result oc with
                 | inr info => BinanceExchange.scan_symbols q (symbols_of info)
                 | inl e => inl e
                 end;
       world := world oc; self := self oc |}.
Proof.
  unfold BinanceExchange._get_alpha_symbol_info. run.
  destruct (BinanceExchange.alpha_exchange_info env w s) as [[e|info] w1 s1]; simpl;
    [reflexivity|].
  destruct (BinanceExchange.scan_symbols q (symbols_of info)); reflexivity.
Qed.

Lemma adapter_ticker_run sym env w s :
  BinanceAdapter.get_alpha_ticker_price sym env w s =
    let req := GetTickerPrice sym (exchange_milliseconds env (ticks w)) 5000 in
    {| result := match reply_ticker_price env (req :: trace w) with
                 | inr ticker => ticker_price (float_of_str env) ticker
                 | inl e => inl e
                 end;
       world := sent req (tick w); self := s |}.
Proof.
  unfold BinanceAdapter.get_alpha_ticker_price. run. simpl.
  destruct (reply_ticker_price env _) as [e|t]; [reflexivity|].
  destruct (ticker_price _ t); reflexivity.
Qed.

(** The strings of the order, once the price is known. *)
Lemma adapter_priced_order_run si q amount env w s :
  BinanceAdapter.priced_order si q amount env w s =
    match symbol si with
    | None => {| result := inl (KeyError "symbol"); world := w; self := s |}
    | Some sym =>
        let o := BinanceAdapter.get_alpha_ticker_price sym env w s in
        {| result :=
             match result o with
             | inl e => inl e
             | inr p =>
                 if (p <=? 0)%float then inl (InvalidPrice sym)
                 else
                   match format_precision p (get_default (pricePrecision si) 8) with
                   | inl e => inl e
                   | inr price =>
                       match format_precision (amount / p)
                               (get_default (quantityPrecision si) 8) with
                       | inl e => inl e
                       | inr quantity =>
                           match getitem "baseAsset" (baseAsset si) with
                           | inl e => inl e
                           | inr base => inr (base, q, price, quantity)
                           end
                       end
                   end
             end;
           world := world o; self := s |}
    end.
Proof.
  unfold BinanceAdapter.priced_order, BinanceAdapter._format_with_precision. run.
  destruct (symbol si) as [sym|]; simpl; [|reflexivity].
  rewrite adapter_ticker_run. simpl.
  destruct (reply_ticker_price env _) as [e|t]; [reflexivity|].
  destruct (ticker_price _ t) as [e|p]; [reflexivity|].
  destruct (p <=? 0)%float; [reflexivity|].
  destruct (format_precision p _); [reflexivity|].
  destruct (format_precision (amount / p) _); [reflexivity|].
  destruct (baseAsset si); reflexivity.
Qed.

Lemma adapter_build_run q amount env w s :
  BinanceAdapter._build_alpha_order q amount env w s =
    let oc := BinanceAdapter.get_alpha_exchange_info env w s in
    match result oc with
    | inl e => {| result := inl e; world := world oc; self := self oc |}
    | inr info =>
        match BinanceAdapter.next_trading q (symbols_of info) with
        | Some x => BinanceAdapter.priced_order x q amount env (world oc) (self oc)
        | None => {| result := inl (NoAlphaSymbol q); world := world oc; self := self oc |}
        end
    end.
Proof.
  unfold BinanceAdapter._build_alpha_order. run.
  destruct (BinanceAdapter.get_alpha_exchange_info env w s) as [[e|info] w1 s1]; simpl;
    [reflexivity|].
  destruct (BinanceAdapter.next_trading q (symbols_of info)); reflexivity.
Qed.

Lemma adapter_priced_order_self si q amount env w s :
  self (BinanceAdapter.priced_order si q amount env w s) = s.
Proof. rewrite adapter_priced_order_run. destruct (symbol si); reflexivity. Qed.

End LookupRuns.

(** C1. Resolving the instrument for a settlement asset [q], in
    [BinanceExchange._get_alpha_symbol_info] and in the lookup of
    [BinanceAdapter._build_alpha_order]: on the catalog [info] that the
    catalog step returned, the first entry in catalog order whose quoteAsset
    is [q] and whose status is TRADING is the one returned (the one the order
    is priced for); when no entry qualifies the call fails with the
    no-instrument error; one of the two cases always applies.  The lookup
    changes neither the attributes nor the world after the catalog step, and
    the catalog it scanned is the one the cache holds afterwards. *)
Theorem resolve_instrument_first_trading (q : string) :
  (forall env w s,
      let oc := BinanceExchange.alpha_exchange_info env w s in
      let o := BinanceExchange._get_alpha_symbol_info q env w s in
      world o = world oc /\ self o = self oc /\
      (forall e, result oc = inl e -> result o = inl e) /\
      (forall info, result oc = inr info ->
         (forall x, first_trading q (symbols_of info) x -> result o = inr x) /\
         (none_trading q (symbols_of info) -> result o = inl (NoAlphaSymbol q)) /\
         ((exists x, first_trading q (symbols_of info) x) \/
          none_trading q (symbols_of info)) /\
         (exists fetchedAt,
             BinanceExchange._alpha_exchange_cache (self o) = Some (fetchedAt, info)))) /\
  (forall amount env w s,
      let oc := BinanceAdapter.get_alpha_exchange_info env w s in
      let o := BinanceAdapter._build_alpha_order q amount env w s in
      self o = self oc /\
      (forall e, result oc = inl e -> result o = inl e /\ world o = world oc) /\
      (forall info, result oc = inr info ->
         (forall x, first_trading q (symbols_of info) x ->
            o = BinanceAdapter.priced_order x q amount env (world oc) (self oc)) /\
         (none_trading q (symbols_of info) ->
            result o = inl (NoAlphaSymbol q) /\ world o = world oc) /\
         ((exists x, first_trading q (symbols_of info) x) \/
          none_trading q (symbols_of info)) /\
         (exists fetchedAt,
             BinanceAdapter._alpha_exchange_cache (self o) = Some (fetchedAt, info)))).
Proof.
  split.
  - intros env w s oc o. subst o. rewrite exchange_symbol_info_run. fold oc. simpl.
    split; [reflexivity|]. split; [reflexivity|]. split.
    + intros e ->. reflexivity.
    + intros info Hinfo. rewrite Hinfo. repeat split.
      * intros x Hx. apply scan_symbols_first. exact Hx.
      * intros Hn. apply scan_symbols_none. auto.
      * apply first_or_none.
      * apply exchange_catalog_cached. exact Hinfo.
  - intros amount env w s oc o.
    assert (Ho : o = BinanceAdapter._build_alpha_order q amount env w s) by reflexivity.
    rewrite adapter_build_run in Ho. fold oc in Ho. cbv zeta in Ho.
    assert (Hself : self o = self oc).
    { rewrite Ho. destruct (result oc) as [e|info]; [reflexivity|].
      destruct (BinanceAdapter.next_trading q (symbols_of info));
        [apply adapter_priced_order_self | reflexivity]. }
    split; [exact Hself|]. split.
    + intros e He. rewrite Ho, He. auto.
    + intros info Hinfo. rewrite Hinfo in Ho. repeat split.
      * intros x Hx. apply next_trading_first in Hx. rewrite Hx in Ho. exact Ho.
      * apply next_trading_none in H. rewrite H in Ho. rewrite Ho. reflexivity.
      * apply next_trading_none in H. rewrite H in Ho. rewrite Ho. reflexivity.
      * apply first_or_none.
      * rewrite Hself. apply adapter_catalog_cached. exact Hinfo.
Qed.

(** ** The transfers of BinanceExchange, step by step *)

Section ExchangeTransfer.
Import BinanceExchange.

Lemma exchange_ticker_run sym env w s :
  _get_alpha_ticker_price sym env w s =
    match py_int (time_time env (ticks w) * 1000 + time_diff s)%float with
    | inl e => {| result := inl e; world := tick w; self := s |}
    | inr ts =>
        let req := GetTickerPrice sym ts 5000 in
        {| result := match reply_ticker_price env (req :: trace w) with
                     | inr ticker => ticker_price (float_of_str env) ticker
                     | inl e => inl e
                     end;
           world := sent req (tick w); self := s |}
    end.
Proof.
  unfold _get_alpha_ticker_price. run. rewrite request_timestamp_run. run. simpl.
  destruct (py_int _) as [e|ts]; [reflexivity|].
  destruct (reply_ticker_price env _) as [e|t]; [reflexivity|].
  destruct (ticker_price _ t); reflexivity.
Qed.

Lemma exchange_ticker_self sym env w s :
  self (_get_alpha_ticker_price sym env w s) = s.
Proof. rewrite exchange_ticker_run. destruct (py_int _); reflexivity. Qed.

(** The whole case tree of a transfer. *)
Lemma exchange_transfer_run side asset amount env w s :
  alpha_transfer side asset amount env w s =
    if negb (enable_savings s)
    then {| result := inl SavingsDisabled; world := w; self := s |}
    else
      let o1 := _get_alpha_symbol_info asset env w s in
      match result o1 with
      | inl e => {| result := inl e; world := world o1; self := self o1 |}
      | inr si =>
      match symbol si with
      | None => {| result := inl (KeyError "symbol"); world := world o1; self := self o1 |}
      | Some sym =>
      let o2 := _get_alpha_ticker_price sym env (world o1) (self o1) in
      match result o2 with
      | inl e => {| result := inl e; world := world o2; self := self o1 |}
      | inr p =>
      if (p <=? 0)%float
      then {| result := inl (InvalidPrice sym); world := world o2; self := self o1 |}
      else
      match format_precision (amount / p) (get_default (quantityPrecision si) 8) with
      | inl e => {| result := inl e; world := world o2; self := self o1 |}
      | inr quantity =>
      match format_precision p (get_default (pricePrecision si) 8) with
      | inl e => {| result := inl e; world := world o2; self := self o1 |}
      | inr price =>
      match baseAsset si with
      | None =>
          {| result := inl (KeyError "baseAsset"); world := world o2; self := self o1 |}
      | Some base =>
      match py_int (time_time env (ticks (world o2)) * 1000 + time_diff (self o1))%float with
      | inl e => {| result := inl e; world := tick (world o2); self := self o1 |}
      | inr ts =>
          let req :=
            PlaceOrder {| o_baseAsset := base; o_quoteAsset := asset; o_side := side;
                          o_quantity := quantity; o_price := price;
                          o_timestamp := ts; o_recvWindow := 5000 |} in
          match reply_place_order env (req :: trace (world o2)) with
          | inl e =>
              {| result := inl e; world := sent req (tick (world o2)); self := self o1 |}
          | inr reply =>
              {| result := inr reply; world := sent req (tick (world o2));
                 self := cleared (self o1) |}
          end
      end end end end end end end.
Proof.
  unfold alpha_transfer, _format_alpha_value, _clear_balance_cache.
  cbv beta iota zeta delta [bind get_self try_except result world self].
  destruct (negb (enable_savings s)); [reflexivity|].
  destruct (_get_alpha_symbol_info asset env w s) as [[e|si] w1 s1]; simpl; [reflexivity|].
  destruct (symbol si) as [sym|]; simpl; [|reflexivity].
  pose proof (exchange_ticker_self sym env w1 s1) as Hs2.
  destruct (_get_alpha_ticker_price sym env w1 s1) as [[e|p] w2 s2]; simpl in *; subst s2;
    [reflexivity|].
  destruct (p <=? 0)%float; simpl; [reflexivity|].
  destruct (format_precision (amount / p) _); simpl; [reflexivity|].
  destruct (format_precision p _); simpl; [reflexivity|].
  destruct (baseAsset si); simpl; [|reflexivity].
  rewrite request_timestamp_run. simpl.
  destruct (py_int _); simpl; [reflexivity|].
  destruct (reply_place_order env _); reflexivity.
Qed.

End ExchangeTransfer.

(** ** The transfers of BinanceAdapter and the balance reads, step by step *)

Section MoreRuns.

Lemma adapter_transfer_run side asset amount env w s :
  BinanceAdapter.alpha_order side asset amount env w s =
    let o1 := BinanceAdapter._build_alpha_order asset amount env w s in
    match result o1 with
    | inl e => {| result := inr false; world := world o1; self := self o1 |}
    | inr (base, quote, price, quantity) =>
        let req :=
          PlaceOrder {| o_baseAsset := base; o_quoteAsset := quote; o_side := side;
                        o_quantity := quantity; o_price := price;
                        o_timestamp := exchange_milliseconds env (ticks (world o1));
                        o_recvWindow := 5000 |} in
        {| result := match reply_place_order env (req :: trace (world o1)) with
                     | inl e => inr false
                     | inr _ => inr true
                     end;
           world := sent req (tick (world o1)); self := self o1 |}
    end.
Proof.
  unfold BinanceAdapter.alpha_order. run.
  destruct (BinanceAdapter._build_alpha_order asset amount env w s)
    as [[e|[[[base quote] price] quantity]] w1 s1]; simpl; [reflexivity|].
  destruct (reply_place_order env _); reflexivity.
Qed.

Lemma adapter_balance_run env w s :
  BinanceAdapter.fetch_funding_balance env w s =
    let req := GetAlphaAsset (exchange_milliseconds env (ticks w)) 5000 in
    {| result := match reply_alpha_asset env (req :: trace w) with
                 | inl e => inr ∅
                 | inr items =>
                     match parse_balances (float_of_str env) items ∅ with
                     | inl e => inr ∅
                     | inr balances => inr balances
                     end
                 end;
       world := sent req (tick w); self := s |}.
Proof.
  unfold BinanceAdapter.fetch_funding_balance. run. simpl.
  destruct (reply_alpha_asset env _) as [e|items]; [reflexivity|].
  destruct (parse_balances _ items ∅); reflexivity.
Qed.

Import BinanceExchange.

Lemma exchange_balance_run env w s :
  fetch_funding_balance env w s =
    if negb (enable_savings s) then {| result := inr ∅; world := w; self := s |}
    else
      let now := time_time env (ticks w) in
      let cached := data (funding_balance_cache s) in
      if (now - timestamp (funding_balance_cache s) <? cache_ttl s)%float
      then {| result := inr cached; world := tick w; self := s |}
      else
        match py_int (time_time env (S (ticks w)) * 1000 + time_diff s)%float with
        | inl e => {| result := inr cached; world := tick (tick w); self := s |}
        | inr ts =>
            let req := GetAlphaAsset ts 5000 in
            match reply_alpha_asset env (req :: trace w) with
            | inl e =>
                {| result := inr cached; world := sent req (tick (tick w)); self := s |}
            | inr items =>
                match parse_balances (float_of_str env) items ∅ with
                | inl e =>
                    {| result := inr cached; world := sent req (tick (tick w));
                       self := s |}
                | inr balances =>
                    {| result := inr balances; world := sent req (tick (tick w));
                       self := set_funding_balance_cache
                                 {| timestamp := now; data := balances |} s |}
                end
            end
        end.
Proof.
  unfold fetch_funding_balance.
  cbv beta iota zeta delta [bind get_self try_except now_time result world self].
  destruct (negb (enable_savings s)); [reflexivity|].
  destruct (_ <? _)%float; [reflexivity|].
  rewrite request_timestamp_run. run. simpl.
  destruct (py_int _); [reflexivity|].
  destruct (reply_alpha_asset env _) as [e|items]; [reflexivity|].
  destruct (parse_balances _ items ∅); reflexivity.
Qed.

(** What the catalog step and the lookup leave untouched. *)
Lemma exchange_catalog_keeps env w s :
  let s' := self (alpha_exchange_info env w s) in
  enable_savings s' = enable_savings s /\ cache_ttl s' = cache_ttl s /\
  time_diff s' = time_diff s /\ balance_cache s' = balance_cache s /\
  funding_balance_cache s' = funding_balance_cache s.
Proof.
  cbv zeta.
  destruct (catalog_fresh (time_time env (ticks w)) (_alpha_exchange_cache s)) eqn:Hf.
  - destruct (_alpha_exchange_cache s) as [[t i]|] eqn:Hc; [|discriminate].
    rewrite (exchange_catalog_hit env w s t i Hc Hf). simpl. auto.
  - rewrite (exchange_catalog_miss env w s Hf).
    destruct (py_int _); simpl; auto.
    destruct (reply_exchange_info env _); simpl; auto.
Qed.

Lemma exchange_symbol_info_keeps q env w s :
  let s' := self (_get_alpha_symbol_info q env w s) in
  enable_savings s' = enable_savings s /\ cache_ttl s' = cache_ttl s /\
  time_diff s' = time_diff s /\ balance_cache s' = balance_cache s /\
  funding_balance_cache s' = funding_balance_cache s.
Proof. rewrite exchange_symbol_info_run. apply exchange_catalog_keeps. Qed.

(** The requests of the catalog step and of the price oracle place no
    order. *)
Lemma exchange_catalog_placed env w s :
  placed (trace (world (alpha_exchange_info env w s))) = placed (trace w).
Proof.
  destruct (catalog_fresh (time_time env (ticks w)) (_alpha_exchange_cache s)) eqn:Hf.
  - destruct (_alpha_exchange_cache s) as [[t i]|] eqn:Hc; [|discriminate].
    rewrite (exchange_catalog_hit env w s t i Hc Hf). reflexivity.
  - rewrite (exchange_catalog_miss env w s Hf). destruct (py_int _); reflexivity.
Qed.

Lemma exchange_ticker_placed sym env w s :
  placed (trace (world (_get_alpha_ticker_price sym env w s))) = placed (trace w).
Proof. rewrite exchange_ticker_run. destruct (py_int _); reflexivity. Qed.

Lemma adapter_catalog_placed env w s :
  placed (trace (world (BinanceAdapter.get_alpha_exchange_info env w s))) =
    placed (trace w).
Proof.
  destruct (catalog_fresh (time_time env (ticks w))
              (BinanceAdapter._alpha_exchange_cache s)) eqn:Hf.
  - destruct (BinanceAdapter._alpha_exchange_cache s) as [[t i]|] eqn:Hc; [|discriminate].
    rewrite (adapter_catalog_hit env w s t i Hc Hf). reflexivity.
  - rewrite (adapter_catalog_miss env w s Hf). reflexivity.
Qed.

Lemma adapter_priced_order_placed si q amount env w s :
  placed (trace (world (BinanceAdapter.priced_order si q amount env w s))) =
    placed (trace w).
Proof.
  rewrite adapter_priced_order_run. destruct (symbol si); [|reflexivity].
  rewrite adapter_ticker_run. reflexivity.
Qed.

Lemma adapter_build_placed q amount env w s :
  placed (trace (world (BinanceAdapter._build_alpha_order q amount env w s))) =
    placed (trace w).
Proof.
  rewrite adapter_build_run. cbv zeta.
  pose proof (adapter_catalog_placed env w s) as Hc.
  destruct (BinanceAdapter.get_alpha_exchange_info env w s) as [[e|info] w1 s1];
    simpl in *; [exact Hc|].
  destruct (BinanceAdapter.next_trading q (symbols_of info)); simpl; [|exact Hc].
  rewrite adapter_priced_order_placed. exact Hc.
Qed.

End MoreRuns.

(** ** The feature gate *)

Lemma exchange_transfer_gated side asset amount :
  gated_by BinanceExchange.enable_savings (BinanceExchange.alpha_transfer side asset amount).
Proof. intros env w s Hoff. rewrite exchange_transfer_run, Hoff. reflexivity. Qed.

(** The adapter's transfers never raise: they return [True] or [False]. *)
Lemma adapter_transfer_returns side asset amount env w s :
  exists b, result (BinanceAdapter.alpha_order side asset amount env w s) = inr b.
Proof.
  rewrite adapter_transfer_run. cbv zeta.
  destruct (result (BinanceAdapter._build_alpha_order asset amount env w s))
    as [e|[[[base quote] price] quantity]]; simpl; eauto.
  destruct (reply_place_order env _); eauto.
Qed.

(** C9, amended. In [BinanceExchange], a [transfer_to_savings] or
    [transfer_to_spot] called while [enable_savings] is off raises the
    feature-disabled error at once: no clock reading, no request, no
    attribute changed.  The transfers of [BinanceAdapter] are gated by no
    flag of its attributes: they never raise. *)
Theorem savings_gate_of_the_exchange (asset : string) (amount : float) :
  gated_by BinanceExchange.enable_savings
    (BinanceExchange.transfer_to_savings asset amount) /\
  gated_by BinanceExchange.enable_savings
    (BinanceExchange.transfer_to_spot asset amount) /\
  (forall flag s, flag s = false ->
     ~ gated_by flag (BinanceAdapter.transfer_to_funding asset amount) /\
     ~ gated_by flag (BinanceAdapter.transfer_to_spot asset amount)).
Proof.
  split; [apply exchange_transfer_gated|]. split; [apply exchange_transfer_gated|].
  intros flag s Hoff. split; intros Hg.
  - destruct (adapter_transfer_returns BUY asset amount
                (Bench.env_down []) Bench.w0 s) as [b Hb].
    unfold BinanceAdapter.transfer_to_funding in Hg.
    rewrite (Hg _ _ _ Hoff) in Hb. discriminate.
  - destruct (adapter_transfer_returns SELL asset amount
                (Bench.env_down []) Bench.w0 s) as [b Hb].
    unfold BinanceAdapter.transfer_to_spot in Hg.
    rewrite (Hg _ _ _ Hoff) in Hb. discriminate.
Qed.

Lemma savings_gate_witness :
  BinanceExchange.transfer_to_savings "USDT" 100
    (Bench.env_ok [] (Some (PyStr "2.5"))) Bench.w0 (BinanceExchange.init false 30 0) =
  {| result := inl SavingsDisabled; world := Bench.w0;
     self := BinanceExchange.init false 30 0 |}.
Proof.
  apply (proj1 (savings_gate_of_the_exchange "USDT" 100)). reflexivity.
Defined.

(** C9 as stated fails on [BinanceAdapter]: its [transfer_to_funding] reads
    no feature flag, so with the feature disabled in the configuration (the
    flag that is off for every adapter) it still sends its three requests
    and returns [True]. *)
Lemma adapter_transfer_ignores_feature_flag :
  ~ gated_by (fun _ : BinanceAdapter.t => false)
      (BinanceAdapter.transfer_to_funding "USDT" 100) /\
  result (BinanceAdapter.transfer_to_funding "USDT" 100
            (Bench.env_ok [] (Some (PyStr "2.5"))) Bench.w0 Bench.adapter0) = inr true /\
  length (trace (world (BinanceAdapter.transfer_to_funding "USDT" 100
            (Bench.env_ok [] (Some (PyStr "2.5"))) Bench.w0 Bench.adapter0))) = 3%nat.
Proof.
  split; [|split; vm_compute; reflexivity].
  intros Hg.
  specialize (Hg (Bench.env_ok [] (Some (PyStr "2.5"))) Bench.w0 Bench.adapter0 eq_refl).
  apply (f_equal result) in Hg. vm_compute in Hg. discriminate.
Qed.

(** ** A failed transfer and the balance caches *)

Lemma exchange_balance_read_same env w (s s' : BinanceExchange.t) :
  BinanceExchange.enable_savings s' = BinanceExchange.enable_savings s ->
  BinanceExchange.cache_ttl s' = BinanceExchange.cache_ttl s ->
  BinanceExchange.time_diff s' = BinanceExchange.time_diff s ->
  BinanceExchange.funding_balance_cache s' = BinanceExchange.funding_balance_cache s ->
  result (BinanceExchange.fetch_funding_balance env w s') =
    result (BinanceExchange.fetch_funding_balance env w s) /\
  world (BinanceExchange.fetch_funding_balance env w s') =
    world (BinanceExchange.fetch_funding_balance env w s).
Proof.
  intros He Ht Hd Hc. rewrite !exchange_balance_run, He, Ht, Hd, Hc. cbv zeta.
  destruct (negb _); [auto|]. destruct (_ <? _)%float; [auto|].
  destruct (py_int _); [auto|]. destruct (reply_alpha_asset env _); [auto|].
  destruct (parse_balances _ _ _); auto.
Qed.

Lemma exchange_failed_transfer side asset amount env w s e :
  let o := BinanceExchange.alpha_transfer side asset amount env w s in
  result o = inl e ->
  BinanceExchange.balance_cache (self o) = BinanceExchange.balance_cache s /\
  BinanceExchange.funding_balance_cache (self o) = BinanceExchange.funding_balance_cache s /\
  forall env' w',
    result (BinanceExchange.fetch_funding_balance env' w' (self o)) =
      result (BinanceExchange.fetch_funding_balance env' w' s) /\
    world (BinanceExchange.fetch_funding_balance env' w' (self o)) =
      world (BinanceExchange.fetch_funding_balance env' w' s).
Proof.
  cbv zeta. intros Hfail.
  assert (Hkeep :
    BinanceExchange.enable_savings
      (self (BinanceExchange.alpha_transfer side asset amount env w s)) =
      BinanceExchange.enable_savings s /\
    BinanceExchange.cache_ttl
      (self (BinanceExchange.alpha_transfer side asset amount env w s)) =
      BinanceExchange.cache_ttl s /\
    BinanceExchange.time_diff
      (self (BinanceExchange.alpha_transfer side asset amount env w s)) =
      BinanceExchange.time_diff s /\
    BinanceExchange.balance_cache
      (self (BinanceExchange.alpha_transfer side asset amount env w s)) =
      BinanceExchange.balance_cache s /\
    BinanceExchange.funding_balance_cache
      (self (BinanceExchange.alpha_transfer side asset amount env w s)) =
      BinanceExchange.funding_balance_cache s).
  { revert Hfail. rewrite exchange_transfer_run.
    pose proof (exchange_symbol_info_keeps asset env w s) as Hk. cbv zeta in *.
    destruct (negb _); simpl; [auto|].
    destruct (result (BinanceExchange._get_alpha_symbol_info asset env w s)) as [e1|si];
      simpl; [auto|].
    destruct (symbol si) as [sym|]; simpl; [|auto].
    destruct (result (BinanceExchange._get_alpha_ticker_price sym env _ _)) as [e2|p];
      simpl; [auto|].
    destruct (p <=? 0)%float; simpl; [auto|].
    destruct (format_precision (amount / p) _); simpl; [auto|].
    destruct (format_precision p _); simpl; [auto|].
    destruct (baseAsset si); simpl; [|auto].
    destruct (py_int _); simpl; [auto|].
    destruct (reply_place_order env _); simpl; [auto|discriminate]. }
  destruct Hkeep as (He & Ht & Hd & Hb & Hc).
  split; [exact Hb|]. split; [exact Hc|].
  intros env' w'. apply exchange_balance_read_same; assumption.
Qed.

(** C10. In [BinanceExchange], a [transfer_to_savings] or [transfer_to_spot]
    that fails, at whatever step, leaves [balance_cache] and
    [funding_balance_cache] exactly as they were, and the next balance read
    returns what it would have returned, and sends what it would have sent,
    had the transfer not been tried. *)
Theorem failed_transfer_keeps_balance_caches (asset : string) (amount : float)
    (env : Env) (w : World) (s : BinanceExchange.t) (e : exn) :
  (let o := BinanceExchange.transfer_to_savings asset amount env w s in
   result o = inl e ->
   BinanceExchange.balance_cache (self o) = BinanceExchange.balance_cache s /\
   BinanceExchange.funding_balance_cache (self o) =
     BinanceExchange.funding_balance_cache s /\
   forall env' w',
     result (BinanceExchange.fetch_funding_balance env' w' (self o)) =
       result (BinanceExchange.fetch_funding_balance env' w' s) /\
     world (BinanceExchange.fetch_funding_balance env' w' (self o)) =
       world (BinanceExchange.fetch_funding_balance env' w' s)) /\
  (let o := BinanceExchange.transfer_to_spot asset amount env w s in
   result o = inl e ->
   BinanceExchange.balance_cache (self o) = BinanceExchange.balance_cache s /\
   BinanceExchange.funding_balance_cache (self o) =
     BinanceExchange.funding_balance_cache s /\
   forall env' w',
     result (BinanceExchange.fetch_funding_balance env' w' (self o)) =
       result (BinanceExchange.fetch_funding_balance env' w' s) /\
     world (BinanceExchange.fetch_funding_balance env' w' (self o)) =
       world (BinanceExchange.fetch_funding_balance env' w' s)).
Proof. split; apply exchange_failed_transfer. Qed.

(** ** The order built from an instrument and a price *)

Lemma format_precision_in_range (v : float) (z : Z) :
  0 <= z <= INT_MAX -> format_precision v z = inr (format_f v (Z.to_nat z)).
Proof.
  intros Hz. unfold format_precision.
  destruct (Z.ltb_spec z 0) as [H|_]; [lia|].
  destruct (Z.ltb_spec PY_SSIZE_T_MAX z) as [H|_]; [unfold PY_SSIZE_T_MAX, INT_MAX in *; lia|].
  destruct (Z.ltb_spec INT_MAX z) as [H|_]; [lia|]. reflexivity.
Qed.

Lemma format_precision_out_of_range (z : Z) :
  ~ 0 <= z <= INT_MAX ->
  exists e, format_error e /\ forall v, format_precision v z = inl e.
Proof.
  intros Hz. unfold format_precision, format_error.
  destruct (Z.ltb_spec z 0) as [H|H]; [eauto|].
  destruct (Z.ltb_spec PY_SSIZE_T_MAX z) as [H1|H1]; [eauto|].
  destruct (Z.ltb_spec INT_MAX z) as [H2|H2]; [eauto 6 | lia].
Qed.

Lemma format_precision_nat (v : float) (p : nat) :
  Z.of_nat p <= INT_MAX -> format_precision v (Z.of_nat p) = inr (format_f v p).
Proof.
  intros Hp. rewrite format_precision_in_range by lia. rewrite Nat2Z.id. reflexivity.
Qed.

Lemma adapter_order_strings si sym base q amount p qp pp env w s :
  symbol si = Some sym -> baseAsset si = Some base ->
  get_default (quantityPrecision si) 8 = Z.of_nat qp ->
  get_default (pricePrecision si) 8 = Z.of_nat pp ->
  Z.of_nat qp <= INT_MAX -> Z.of_nat pp <= INT_MAX ->
  result (BinanceAdapter.get_alpha_ticker_price sym env w s) = inr p ->
  (p <=? 0)%float = false ->
  BinanceAdapter.priced_order si q amount env w s =
    {| result := inr (base, q, format_f p pp, format_f (amount / p) qp);
       world := world (BinanceAdapter.get_alpha_ticker_price sym env w s);
       self := s |}.
Proof.
  intros Hsym Hbase Hqp Hpp Hqmax Hpmax Hp Hpos.
  rewrite adapter_priced_order_run, Hsym. cbv zeta.
  rewrite Hp, Hpos, Hqp, Hpp, !format_precision_nat, Hbase by assumption. reflexivity.
Qed.

Lemma exchange_order_strings side si sym base asset amount p qp pp env w s :
  BinanceExchange.enable_savings s = true ->
  clock_sane env s ->
  let o1 := BinanceExchange._get_alpha_symbol_info asset env w s in
  result o1 = inr si ->
  symbol si = Some sym -> baseAsset si = Some base ->
  get_default (quantityPrecision si) 8 = Z.of_nat qp ->
  get_default (pricePrecision si) 8 = Z.of_nat pp ->
  Z.of_nat qp <= INT_MAX -> Z.of_nat pp <= INT_MAX ->
  let o2 := BinanceExchange._get_alpha_ticker_price sym env (world o1) (self o1) in
  result o2 = inr p ->
  (p <=? 0)%float = false ->
  exists ts,
    trace (world (BinanceExchange.alpha_transfer side asset amount env w s)) =
      PlaceOrder {| o_baseAsset := base; o_quoteAsset := asset; o_side := side;
                    o_quantity := format_f (amount / p) qp; o_price := format_f p pp;
                    o_timestamp := ts; o_recvWindow := 5000 |} :: trace (world o2).
Proof.
  intros Hon Hsane o1 Hsi Hsym Hbase Hqp Hpp Hqmax Hpmax o2 Hp Hpos.
  rewrite exchange_transfer_run, Hon. simpl negb. cbv iota zeta.
  fold o1. rewrite Hsi, Hsym. fold o2.
  rewrite Hp, Hpos, Hqp, Hpp, !format_precision_nat, Hbase by assumption.
  destruct (exchange_symbol_info_keeps asset env w s) as (_ & _ & Hd & _). fold o1 in Hd.
  destruct (py_int_finite _ (Hsane (ticks (world o2)))) as [ts Hts].
  rewrite Hd, Hts. exists ts.
  destruct (reply_place_order env _); reflexivity.
Qed.

Lemma bench_clock_sane (px : option pyval) (up : nat -> bool) (ttl : float) :
  clock_sane (Bench.bench_env [] px up) (Bench.exchange0 ttl).
Proof. intros [|k]; reflexivity. Qed.

(** C2. The order built for an instrument with the given precisions, each
    at most [INT_MAX], and a fetched price [p > 0] carries the quantity
    [amount / p] and the price [p], each rendered at its precision: in
    [BinanceAdapter._build_alpha_order]
    the returned strings, in the transfers of [BinanceExchange] the params of
    the order request.  For amount 100, price 2.5 and precisions 4 and 2 the
    strings are "40.0000" and "2.50". *)
Theorem build_order_quantity_and_price :
  (format_f (100 / 2.5) 4 = "40.0000" /\ format_f 2.5 2 = "2.50") /\
  (forall info si sym base q amount p qp pp env w s,
      let oc := BinanceAdapter.get_alpha_exchange_info env w s in
      result oc = inr info ->
      first_trading q (symbols_of info) si ->
      symbol si = Some sym -> baseAsset si = Some base ->
      quantityPrecision si = Some (Z.of_nat qp) ->
      pricePrecision si = Some (Z.of_nat pp) ->
      Z.of_nat qp <= INT_MAX -> Z.of_nat pp <= INT_MAX ->
      result (BinanceAdapter.get_alpha_ticker_price sym env (world oc) (self oc)) = inr p ->
      (p <=? 0)%float = false ->
      result (BinanceAdapter._build_alpha_order q amount env w s) =
        inr (base, q, format_f p pp, format_f (amount / p) qp)) /\
  (forall side si sym base asset amount p qp pp env w s,
      BinanceExchange.enable_savings s = true ->
      clock_sane env s ->
      let o1 := BinanceExchange._get_alpha_symbol_info asset env w s in
      result o1 = inr si ->
      symbol si = Some sym -> baseAsset si = Some base ->
      quantityPrecision si = Some (Z.of_nat qp) ->
      pricePrecision si = Some (Z.of_nat pp) ->
      Z.of_nat qp <= INT_MAX -> Z.of_nat pp <= INT_MAX ->
      let o2 := BinanceExchange._get_alpha_ticker_price sym env (world o1) (self o1) in
      result o2 = inr p ->
      (p <=? 0)%float = false ->
      exists ts,
        trace (world (BinanceExchange.alpha_transfer side asset amount env w s)) =
          PlaceOrder {| o_baseAsset := base; o_quoteAsset := asset; o_side := side;
                        o_quantity := format_f (amount / p) qp;
                        o_price := format_f p pp;
                        o_timestamp := ts; o_recvWindow := 5000 |} :: trace (world o2)).
Proof.
  split; [split; vm_compute; reflexivity|]. split.
  - intros info si sym base q amount p qp pp env w s oc Hinfo Hfirst Hsym Hbase Hqp Hpp
      Hqmax Hpmax Hp Hpos.
    rewrite adapter_build_run. fold oc. cbv zeta. rewrite Hinfo.
    apply next_trading_first in Hfirst. rewrite Hfirst.
    rewrite (adapter_order_strings si sym base q amount p qp pp); auto.
    + rewrite Hqp. reflexivity.
    + rewrite Hpp. reflexivity.
  - intros side si sym base asset amount p qp pp env w s Hon Hsane o1 Hsi Hsym Hbase
      Hqp Hpp Hqmax Hpmax o2 Hp Hpos.
    apply (exchange_order_strings side si sym base asset amount p qp pp); auto.
    + rewrite Hqp. reflexivity.
    + rewrite Hpp. reflexivity.
Qed.

Lemma build_order_witness :
  exists ts,
    trace (world (BinanceExchange.transfer_to_savings "USDT" 100
                    (Bench.env_ok [] (Some (PyStr "2.5"))) Bench.w0 (Bench.exchange0 30))) =
      PlaceOrder {| o_baseAsset := "ALPHA_175"; o_quoteAsset := "USDT"; o_side := BUY;
                    o_quantity := "40.0000"; o_price := "2.50";
                    o_timestamp := ts; o_recvWindow := 5000 |}
      :: trace (world (BinanceExchange._get_alpha_ticker_price "ALPHA_175USDT"
                         (Bench.env_ok [] (Some (PyStr "2.5")))
                         (world (BinanceExchange._get_alpha_symbol_info "USDT"
                                   (Bench.env_ok [] (Some (PyStr "2.5"))) Bench.w0
                                   (Bench.exchange0 30)))
                         (self (BinanceExchange._get_alpha_symbol_info "USDT"
                                  (Bench.env_ok [] (Some (PyStr "2.5"))) Bench.w0
                                  (Bench.exchange0 30))))).
Proof.
  apply (proj2 (proj2 build_order_quantity_and_price)
           BUY Bench.ALPHA_USDT "ALPHA_175USDT" "ALPHA_175" "USDT" 100%float 2.5%float
           4%nat 2%nat (Bench.env_ok [] (Some (PyStr "2.5"))) Bench.w0 (Bench.exchange0 30)).
  - reflexivity.
  - apply bench_clock_sane.
  - vm_compute. reflexivity.
  - reflexivity.
  - reflexivity.
  - reflexivity.
  - reflexivity.
  - unfold INT_MAX. lia.
  - unfold INT_MAX. lia.
  - vm_compute. reflexivity.
  - vm_compute. reflexivity.
Defined.

(** ** The price oracle and the price check *)

Lemma ticker_price_default fos (ticker : Ticker) :
  price ticker = None \/ price ticker = Some PyNone \/ price ticker = Some (PyStr "") ->
  ticker_price fos ticker = inr 0%float.
Proof. unfold ticker_price. intros [-> | [-> | ->]]; reflexivity. Qed.

Lemma ticker_price_truthy fos (ticker : Ticker) (v : pyval) :
  price ticker = Some v -> truthy v = true -> ticker_price fos ticker = py_float fos v.
Proof. unfold ticker_price, py_or. intros -> Hv. simpl. rewrite Hv. reflexivity. Qed.

Lemma ticker_price_falsy fos (ticker : Ticker) (v : pyval) :
  price ticker = Some v -> truthy v = false -> ticker_price fos ticker = inr 0%float.
Proof. unfold ticker_price, py_or. intros -> Hv. simpl. rewrite Hv. reflexivity. Qed.

Lemma adapter_invalid_price si sym q amount p env w s :
  symbol si = Some sym ->
  result (BinanceAdapter.get_alpha_ticker_price sym env w s) = inr p ->
  (p <=? 0)%float = true ->
  BinanceAdapter.priced_order si q amount env w s =
    {| result := inl (InvalidPrice sym);
       world := world (BinanceAdapter.get_alpha_ticker_price sym env w s); self := s |}.
Proof.
  intros Hsym Hp Hle. rewrite adapter_priced_order_run, Hsym. cbv zeta.
  rewrite Hp, Hle. reflexivity.
Qed.

(** A failed order build makes the adapter's transfer return [False]
    without placing an order. *)
Lemma adapter_build_failure side asset amount env w s e :
  result (BinanceAdapter._build_alpha_order asset amount env w s) = inl e ->
  let o := BinanceAdapter.alpha_order side asset amount env w s in
  result o = inr false /\ placed (trace (world o)) = placed (trace w).
Proof.
  intros He. cbv zeta. rewrite adapter_transfer_run. cbv zeta. rewrite He. simpl.
  split; [reflexivity|]. apply adapter_build_placed.
Qed.

Lemma exchange_invalid_price side asset amount si sym p env w s :
  BinanceExchange.enable_savings s = true ->
  let o1 := BinanceExchange._get_alpha_symbol_info asset env w s in
  result o1 = inr si ->
  symbol si = Some sym ->
  let o2 := BinanceExchange._get_alpha_ticker_price sym env (world o1) (self o1) in
  result o2 = inr p ->
  (p <=? 0)%float = true ->
  let o := BinanceExchange.alpha_transfer side asset amount env w s in
  result o = inl (InvalidPrice sym) /\ world o = world o2 /\
  placed (trace (world o)) = placed (trace w).
Proof.
  intros Hon o1 Hsi Hsym o2 Hp Hle. cbv zeta.
  rewrite exchange_transfer_run, Hon. simpl negb. cbv iota zeta.
  fold o1. rewrite Hsi, Hsym. fold o2. rewrite Hp, Hle. simpl.
  split; [reflexivity|]. split; [reflexivity|].
  unfold o2. rewrite exchange_ticker_placed. unfold o1.
  rewrite exchange_symbol_info_run. simpl. apply exchange_catalog_placed.
Qed.

(** C7. The price oracle of both connectors returns
    [float(ticker.get('price', 0) or 0)] of the ticker the gateway replied
    with: 0 for an absent price field and for every falsy one (null, empty,
    the numbers 0 and 0.0, [False]), the number parsed from the field
    otherwise.  When the price returned is [<= 0] the order build
    fails with the invalid-price error and no order is submitted: in
    [BinanceAdapter] the build raises and the transfer places nothing, in
    [BinanceExchange] the transfer raises and places nothing. *)
Theorem invalid_price_aborts_order :
  (forall fos ticker,
      price ticker = None \/ price ticker = Some PyNone \/ price ticker = Some (PyStr "") ->
      ticker_price fos ticker = inr 0%float) /\
  (forall fos ticker v,
      price ticker = Some v -> truthy v = true ->
      ticker_price fos ticker = py_float fos v) /\
  (forall fos ticker v,
      price ticker = Some v -> truthy v = false ->
      ticker_price fos ticker = inr 0%float) /\
  (forall sym env w s ticker,
      let o := BinanceAdapter.get_alpha_ticker_price sym env w s in
      reply_ticker_price env (trace (world o)) = inr ticker ->
      result o = ticker_price (float_of_str env) ticker) /\
  (forall sym env w s ticker,
      clock_sane env s ->
      let o := BinanceExchange._get_alpha_ticker_price sym env w s in
      reply_ticker_price env (trace (world o)) = inr ticker ->
      result o = ticker_price (float_of_str env) ticker) /\
  (forall side info si sym q amount p env w s,
      let oc := BinanceAdapter.get_alpha_exchange_info env w s in
      result oc = inr info ->
      first_trading q (symbols_of info) si ->
      symbol si = Some sym ->
      result (BinanceAdapter.get_alpha_ticker_price sym env (world oc) (self oc)) = inr p ->
      (p <=? 0)%float = true ->
      result (BinanceAdapter._build_alpha_order q amount env w s) = inl (InvalidPrice sym) /\
      let o := BinanceAdapter.alpha_order side q amount env w s in
      result o = inr false /\ placed (trace (world o)) = placed (trace w)) /\
  (forall side asset amount si sym p env w s,
      BinanceExchange.enable_savings s = true ->
      let o1 := BinanceExchange._get_alpha_symbol_info asset env w s in
      result o1 = inr si ->
      symbol si = Some sym ->
      let o2 := BinanceExchange._get_alpha_ticker_price sym env (world o1) (self o1) in
      result o2 = inr p ->
      (p <=? 0)%float = true ->
      let o := BinanceExchange.alpha_transfer side asset amount env w s in
      result o = inl (InvalidPrice sym) /\ world o = world o2 /\
      placed (trace (world o)) = placed (trace w)).
Proof.
  split; [exact ticker_price_default|]. split; [exact ticker_price_truthy|].
  split; [exact ticker_price_falsy|].
  split; [|split; [|split]].
  - intros sym env w s ticker o. subst o. rewrite adapter_ticker_run. simpl.
    intros ->. reflexivity.
  - intros sym env w s ticker Hsane o. subst o. rewrite exchange_ticker_run.
    destruct (py_int_finite _ (Hsane (ticks w))) as [ts ->]. simpl.
    intros ->. reflexivity.
  - intros side info si sym q amount p env w s oc Hinfo Hfirst Hsym Hp Hle.
    assert (Hfail : result (BinanceAdapter._build_alpha_order q amount env w s) =
                    inl (InvalidPrice sym)).
    { rewrite adapter_build_run. fold oc. cbv zeta. rewrite Hinfo.
      apply next_trading_first in Hfirst. rewrite Hfirst.
      rewrite (adapter_invalid_price si sym q amount p); auto. }
    split; [exact Hfail|]. exact (adapter_build_failure side q amount env w s _ Hfail).
  - intros side asset amount si sym p env w s Hon o1 Hsi Hsym o2 Hp Hle.
    exact (exchange_invalid_price side asset amount si sym p env w s Hon Hsi Hsym Hp Hle).
Qed.

Lemma invalid_price_witness :
  ticker_price Bench.bench_float {| price := Some (PyInt 0) |} = inr 0%float /\
  result (BinanceExchange.transfer_to_savings "USDT" 100
            (Bench.env_ok [] (Some (PyInt 0))) Bench.w0 (Bench.exchange0 30)) =
    inl (InvalidPrice "ALPHA_175USDT") /\
  placed (trace (world (BinanceExchange.transfer_to_savings "USDT" 100
            (Bench.env_ok [] (Some (PyInt 0))) Bench.w0 (Bench.exchange0 30)))) = [].
Proof.
  split.
  - apply (proj1 (proj2 (proj2 invalid_price_aborts_order))
             Bench.bench_float {| price := Some (PyInt 0) |} (PyInt 0)); reflexivity.
  - destruct (proj2 (proj2 (proj2 (proj2 (proj2 (proj2 invalid_price_aborts_order)))))
                BUY "USDT" 100%float Bench.ALPHA_USDT "ALPHA_175USDT" 0%float
                (Bench.env_ok [] (Some (PyInt 0))) Bench.w0 (Bench.exchange0 30))
      as (Hres & _ & Hplaced).
    + reflexivity.
    + vm_compute. reflexivity.
    + reflexivity.
    + vm_compute. reflexivity.
    + reflexivity.
    + split; [exact Hres | exact Hplaced].
Defined.

(** ** Failures of a transfer *)

Ltac reduce_run := cbv zeta; cbn [result world self trace ticks sent tick].

Ltac split_matches :=
  repeat (reduce_run;
          match goal with
          | |- context [match ?x with _ => _ end] =>
              lazymatch x with
              | context [match _ with _ => _ end] => fail
              | _ => destruct x eqn:?
              end
          end);
  reduce_run.

(** The requests [new] sent during a call, most recent first, given as the
    difference of the traces. *)
Ltac give_new_requests :=
  first
    [ exists (@nil Request); split; [reflexivity|]
    | eexists [_]; split; [reflexivity|]
    | eexists [_; _]; split; [reflexivity|]
    | eexists [_; _; _]; split; [reflexivity|] ].

Ltac rejected_is_last :=
  let pre := fresh "pre" in
  let Hsplit := fresh "Hsplit" in
  let Hrej := fresh "Hrej" in
  intros pre ? ? ? Hsplit Hrej;
  destruct pre as [|? [|? [|? pre]]]; cbn [app] in Hsplit;
  try discriminate Hsplit;
  try (destruct pre; discriminate Hsplit);
  injection Hsplit as; subst;
  cbn [app rejected] in Hrej;
  first [ split; [reflexivity|]; congruence
        | congruence
        | (repeat match goal with
                  | H : _ = inr _ |- _ => rewrite H in Hrej
                  | H : _ = inl _ |- _ => rewrite H in Hrej
                  end); first [discriminate Hrej | split; [reflexivity|]; congruence] ].

Lemma exchange_transfer_failures side asset amount env w s :
  let o := BinanceExchange.alpha_transfer side asset amount env w s in
  exists new,
    trace (world o) = (new ++ trace w)%list /\
    (length (placed new) <= 1)%nat /\
    (forall pre req post e,
        new = (pre ++ req :: post)%list ->
        rejected env (req :: post ++ trace w) = Some e ->
        pre = [] /\ result o = inl e) /\
    (forall reply,
        result o = inr reply ->
        exists p rest,
          new = PlaceOrder p :: rest /\
          reply_place_order env (trace (world o)) = inr reply).
Proof.
  cbv zeta. rewrite exchange_transfer_run.
  destruct (negb (BinanceExchange.enable_savings s)).
  { reduce_run. give_new_requests. split; [simpl; lia|]. split; [|discriminate].
    intros [|? ?] ? ? ? ?; discriminate. }
  rewrite exchange_symbol_info_run. cbv zeta.
  destruct (catalog_fresh (time_time env (ticks w))
              (BinanceExchange._alpha_exchange_cache s)) eqn:Hf.
  - destruct (BinanceExchange._alpha_exchange_cache s) as [[t i]|] eqn:Hc; [|discriminate].
    rewrite (exchange_catalog_hit env w s t i Hc Hf). reduce_run.
    destruct (BinanceExchange.scan_symbols asset (symbols_of i)) as [e0|si]; reduce_run.
    { give_new_requests. split; [simpl; lia|]. split; [|discriminate].
      intros [|? ?] ? ? ? ?; discriminate. }
    destruct (symbol si) as [sym|]; reduce_run.
    2:{ give_new_requests. split; [simpl; lia|]. split; [|discriminate].
        intros [|? ?] ? ? ? ?; discriminate. }
    rewrite exchange_ticker_run. reduce_run.
    split_matches; give_new_requests;
      (split; [simpl; lia|]); (split; [rejected_is_last|]);
      try discriminate; intros ? [= <-]; eauto.
  - rewrite (exchange_catalog_miss env w s Hf). reduce_run.
    destruct (py_int (time_time env (S (ticks w)) * 1000 + BinanceExchange.time_diff s))
      as [e0|ts0] eqn:Hts0; reduce_run.
    { give_new_requests. split; [simpl; lia|]. split; [|discriminate].
      intros [|? ?] ? ? ? ?; discriminate. }
    destruct (reply_exchange_info env (GetExchangeInfo ts0 5000 :: trace w))
      as [e1|info] eqn:Hinfo; reduce_run.
    { give_new_requests. split; [simpl; lia|]. split; [rejected_is_last|discriminate]. }
    destruct (BinanceExchange.scan_symbols asset (symbols_of info)) as [e2|si]; reduce_run.
    { give_new_requests. split; [simpl; lia|]. split; [rejected_is_last|discriminate]. }
    destruct (symbol si) as [sym|]; reduce_run.
    2:{ give_new_requests. split; [simpl; lia|]. split; [rejected_is_last|discriminate]. }
    rewrite exchange_ticker_run. reduce_run.
    split_matches; give_new_requests;
      (split; [simpl; lia|]); (split; [rejected_is_last|]);
      try discriminate; intros ? [= <-]; eauto.
Qed.

Lemma adapter_transfer_failures side asset amount env w s :
  let o := BinanceAdapter.alpha_order side asset amount env w s in
  exists new,
    trace (world o) = (new ++ trace w)%list /\
    (length (placed new) <= 1)%nat /\
    (forall pre req post e,
        new = (pre ++ req :: post)%list ->
        rejected env (req :: post ++ trace w) = Some e ->
        pre = [] /\ result o = inr false) /\
    (result o = inr true ->
     exists p rest reply,
       new = PlaceOrder p :: rest /\
       reply_place_order env (trace (world o)) = inr reply).
Proof.
  cbv zeta. rewrite adapter_transfer_run, adapter_build_run. cbv zeta.
  destruct (catalog_fresh (time_time env (ticks w))
              (BinanceAdapter._alpha_exchange_cache s)) eqn:Hf.
  - destruct (BinanceAdapter._alpha_exchange_cache s) as [[t i]|] eqn:Hc; [|discriminate].
    rewrite (adapter_catalog_hit env w s t i Hc Hf). reduce_run.
    destruct (BinanceAdapter.next_trading asset (symbols_of i)) as [si|]; reduce_run.
    2:{ give_new_requests. split; [simpl; lia|]. split; [|discriminate].
        intros [|? ?] ? ? ? ?; discriminate. }
    rewrite adapter_priced_order_run.
    destruct (symbol si) as [sym|]; reduce_run.
    2:{ give_new_requests. split; [simpl; lia|]. split; [|discriminate].
        intros [|? ?] ? ? ? ?; discriminate. }
    rewrite adapter_ticker_run. reduce_run.
    split_matches; give_new_requests;
      (split; [simpl; lia|]); (split; [rejected_is_last|]);
      try discriminate; intros ?; eauto.
  - rewrite (adapter_catalog_miss env w s Hf). reduce_run.
    destruct (reply_exchange_info env
                (GetExchangeInfo (exchange_milliseconds env (S (ticks w))) 5000 :: trace w))
      as [e1|info] eqn:Hinfo; reduce_run.
    { give_new_requests. split; [simpl; lia|]. split; [rejected_is_last|discriminate]. }
    destruct (BinanceAdapter.next_trading asset (symbols_of info)) as [si|]; reduce_run.
    2:{ give_new_requests. split; [simpl; lia|]. split; [rejected_is_last|discriminate]. }
    rewrite adapter_priced_order_run.
    destruct (symbol si) as [sym|]; reduce_run.
    2:{ give_new_requests. split; [simpl; lia|]. split; [rejected_is_last|discriminate]. }
    rewrite adapter_ticker_run. reduce_run.
    split_matches; give_new_requests;
      (split; [simpl; lia|]); (split; [rejected_is_last|]);
      try discriminate; intros ?; eauto.
Qed.

Lemma exchange_step_failures side asset amount env w s e :
  BinanceExchange.enable_savings s = true ->
  let o1 := BinanceExchange._get_alpha_symbol_info asset env w s in
  let o := BinanceExchange.alpha_transfer side asset amount env w s in
  (result o1 = inl e -> result o = inl e /\ world o = world o1) /\
  (forall si sym,
      result o1 = inr si -> symbol si = Some sym ->
      let o2 := BinanceExchange._get_alpha_ticker_price sym env (world o1) (self o1) in
      result o2 = inl e -> result o = inl e /\ world o = world o2).
Proof.
  intros Hon o1 o. subst o. rewrite exchange_transfer_run, Hon. simpl negb.
  cbv iota zeta. fold o1. split.
  - intros ->. auto.
  - intros si sym -> -> ->. auto.
Qed.

(** C4, amended. Neither connector retries: a transfer sends each request
    once, at most one of them an order, and a request the gateway rejects is
    the last one sent.  In [BinanceExchange] ([transfer_to_savings],
    [transfer_to_spot], the two sides of [alpha_transfer]) the error of the
    rejected request, like the error of a failed lookup or price fetch, is
    the error the call raises, and the call returns only the reply of an
    accepted order.  In [BinanceAdapter] ([transfer_to_funding],
    [transfer_to_spot], the two sides of [alpha_order]) the call never raises:
    a rejected request makes it return [False], and it returns [True] only
    after an accepted order. *)
Theorem transfer_failures_without_retry (side : Side) (asset : string) (amount : float)
    (env : Env) (w : World) :
  (forall s,
      let o := BinanceExchange.alpha_transfer side asset amount env w s in
      exists new,
        trace (world o) = (new ++ trace w)%list /\
        (length (placed new) <= 1)%nat /\
        (forall pre req post e,
            new = (pre ++ req :: post)%list ->
            rejected env (req :: post ++ trace w) = Some e ->
            pre = [] /\ result o = inl e) /\
        (forall reply,
            result o = inr reply ->
            exists p rest,
              new = PlaceOrder p :: rest /\
              reply_place_order env (trace (world o)) = inr reply)) /\
  (forall s e,
      BinanceExchange.enable_savings s = true ->
      let o1 := BinanceExchange._get_alpha_symbol_info asset env w s in
      let o := BinanceExchange.alpha_transfer side asset amount env w s in
      (result o1 = inl e -> result o = inl e /\ world o = world o1) /\
      (forall si sym,
          result o1 = inr si -> symbol si = Some sym ->
          let o2 := BinanceExchange._get_alpha_ticker_price sym env (world o1) (self o1) in
          result o2 = inl e -> result o = inl e /\ world o = world o2)) /\
  (forall s,
      let o := BinanceAdapter.alpha_order side asset amount env w s in
      (exists b, result o = inr b) /\
      exists new,
        trace (world o) = (new ++ trace w)%list /\
        (length (placed new) <= 1)%nat /\
        (forall pre req post e,
            new = (pre ++ req :: post)%list ->
            rejected env (req :: post ++ trace w) = Some e ->
            pre = [] /\ result o = inr false) /\
        (result o = inr true ->
         exists p rest reply,
           new = PlaceOrder p :: rest /\
           reply_place_order env (trace (world o)) = inr reply)).
Proof.
  split; [intros s; apply exchange_transfer_failures|].
  split; [intros s e; apply exchange_step_failures|].
  intros s. split; [apply adapter_transfer_returns | apply adapter_transfer_failures].
Qed.

Lemma transfer_failures_witness :
  result (BinanceExchange.transfer_to_savings "USDT" 100
            (Bench.env_down []) Bench.w0 (Bench.exchange0 30)) =
    inl (RequestError (-1003)) /\
  world (BinanceExchange.transfer_to_savings "USDT" 100
           (Bench.env_down []) Bench.w0 (Bench.exchange0 30)) =
    world (BinanceExchange._get_alpha_symbol_info "USDT"
             (Bench.env_down []) Bench.w0 (Bench.exchange0 30)).
Proof.
  apply (proj1 (proj1 (proj2 (transfer_failures_without_retry BUY "USDT" 100
                                (Bench.env_down []) Bench.w0))
                  (Bench.exchange0 30) (RequestError (-1003)) eq_refl)).
  vm_compute. reflexivity.
Defined.

(** C4 as stated fails on [BinanceAdapter]: with a gateway that rejects the
    catalog request, [transfer_to_funding] raises nothing and returns the
    default [False]. *)
Lemma adapter_transfer_swallows_error :
  rejected (Bench.env_down [])
    (trace (world (BinanceAdapter.transfer_to_funding "USDT" 100
                     (Bench.env_down []) Bench.w0 Bench.adapter0))) =
    Some (RequestError (-1003)) /\
  result (BinanceAdapter.transfer_to_funding "USDT" 100
            (Bench.env_down []) Bench.w0 Bench.adapter0) = inr false.
Proof. split; vm_compute; reflexivity. Qed.

(** ** The balance cache *)

Section BalanceCache.
Import BinanceExchange.

(** A read of a cache whose timestamp is 0 goes to the network as soon as
    the clock reads at least [cache_ttl]. *)
Lemma exchange_read_after_reset env w s :
  enable_savings s = true ->
  timestamp (funding_balance_cache s) = 0%float ->
  clock_sane env s ->
  (cache_ttl s <=? time_time env (ticks w))%float = true ->
  exists ts,
    trace (world (fetch_funding_balance env w s)) = GetAlphaAsset ts 5000 :: trace w.
Proof.
  intros Hon Hzero Hsane Hlate.
  rewrite exchange_balance_run. cbv zeta.
  rewrite Hon, Hzero, sub_zero_r, (leb_not_ltb _ _ Hlate).
  simpl negb. cbv iota.
  destruct (py_int_finite _ (Hsane (S (ticks w)))) as [ts ->]. exists ts.
  destruct (reply_alpha_asset env _) as [e|items]; [reflexivity|].
  destruct (parse_balances _ items ∅); reflexivity.
Qed.

Lemma exchange_transfer_success side asset amount env w s reply :
  let o := alpha_transfer side asset amount env w s in
  result o = inr reply ->
  funding_balance_cache (self o) = {| timestamp := 0; data := ∅ |} /\
  balance_cache (self o) = {| timestamp := 0; data := None |} /\
  enable_savings (self o) = true /\
  cache_ttl (self o) = cache_ttl s /\ time_diff (self o) = time_diff s.
Proof.
  cbv zeta. rewrite exchange_transfer_run.
  pose proof (exchange_symbol_info_keeps asset env w s) as Hk. cbv zeta in Hk.
  destruct (enable_savings s) eqn:Hon; simpl negb; cbv iota; [|discriminate].
  cbv zeta.
  destruct (result (_get_alpha_symbol_info asset env w s)) as [e1|si]; [discriminate|].
  destruct (symbol si) as [sym|]; [|discriminate].
  destruct (result (_get_alpha_ticker_price sym env _ _)) as [e2|p]; [discriminate|].
  destruct (p <=? 0)%float; [discriminate|].
  destruct (format_precision (amount / p) _); [discriminate|].
  destruct (format_precision p _); [discriminate|].
  destruct (baseAsset si); [|discriminate].
  destruct (py_int _); [discriminate|].
  destruct (reply_place_order env _); [discriminate|].
  intros _. simpl. tauto.
Qed.

Lemma exchange_next_read_after_transfer side asset amount env w s reply :
  let o := alpha_transfer side asset amount env w s in
  result o = inr reply ->
  funding_balance_cache (self o) = {| timestamp := 0; data := ∅ |} /\
  balance_cache (self o) = {| timestamp := 0; data := None |} /\
  forall w',
    clock_sane env s ->
    (cache_ttl s <=? time_time env (ticks w'))%float = true ->
    exists ts,
      trace (world (fetch_funding_balance env w' (self o))) =
        GetAlphaAsset ts 5000 :: trace w'.
Proof.
  intros o Hok.
  destruct (exchange_transfer_success side asset amount env w s reply Hok)
    as (Hf & Hb & Hon & Httl & Hdiff). fold o in Hf, Hb, Hon, Httl, Hdiff.
  split; [exact Hf|]. split; [exact Hb|].
  intros w' Hsane Hlate. apply exchange_read_after_reset.
  - exact Hon.
  - rewrite Hf. reflexivity.
  - intros k. rewrite Hdiff. apply Hsane.
  - rewrite Httl. exact Hlate.
Qed.

End BalanceCache.

(** C3, amended. Every [transfer_to_savings] and [transfer_to_spot] of
    [BinanceExchange] whose order is accepted resets [funding_balance_cache]
    to the empty map with timestamp 0 (and [balance_cache] to no data with
    timestamp 0), however fresh the entry was; the next
    [fetch_funding_balance] then sends a balance request provided the clock
    reads at least [cache_ttl] seconds (the timestamp 0 is the epoch) and is
    sane.  [BinanceAdapter] keeps no balance cache: every
    [fetch_funding_balance] of it sends a balance request. *)
Theorem accepted_transfer_resets_balance_cache (asset : string) (amount : float)
    (env : Env) (w : World) :
  (forall s reply,
      let o := BinanceExchange.transfer_to_savings asset amount env w s in
      result o = inr reply ->
      BinanceExchange.funding_balance_cache (self o) =
        {| BinanceExchange.timestamp := 0; BinanceExchange.data := ∅ |} /\
      BinanceExchange.balance_cache (self o) =
        {| BinanceExchange.timestamp := 0; BinanceExchange.data := None |} /\
      forall w',
        clock_sane env s ->
        (BinanceExchange.cache_ttl s <=? time_time env (ticks w'))%float = true ->
        exists ts,
          trace (world (BinanceExchange.fetch_funding_balance env w' (self o))) =
            GetAlphaAsset ts 5000 :: trace w') /\
  (forall s reply,
      let o := BinanceExchange.transfer_to_spot asset amount env w s in
      result o = inr reply ->
      BinanceExchange.funding_balance_cache (self o) =
        {| BinanceExchange.timestamp := 0; BinanceExchange.data := ∅ |} /\
      BinanceExchange.balance_cache (self o) =
        {| BinanceExchange.timestamp := 0; BinanceExchange.data := None |} /\
      forall w',
        clock_sane env s ->
        (BinanceExchange.cache_ttl s <=? time_time env (ticks w'))%float = true ->
        exists ts,
          trace (world (BinanceExchange.fetch_funding_balance env w' (self o))) =
            GetAlphaAsset ts 5000 :: trace w') /\
  (forall s,
      trace (world (BinanceAdapter.fetch_funding_balance env w s)) =
        GetAlphaAsset (exchange_milliseconds env (ticks w)) 5000 :: trace w).
Proof.
  split; [intros s reply; apply exchange_next_read_after_transfer|].
  split; [intros s reply; apply exchange_next_read_after_transfer|].
  intros s. rewrite adapter_balance_run. reflexivity.
Qed.

Lemma accepted_transfer_witness :
  result (BinanceExchange.fetch_funding_balance
            (Bench.env_ok [] (Some (PyStr "2.5"))) Bench.w0
            (BinanceExchange.set_funding_balance_cache
               {| BinanceExchange.timestamp := 1704067190;
                  BinanceExchange.data := {[ "USDT" := 7%float ]} |}
               (Bench.exchange0 30))) = inr {[ "USDT" := 7%float ]} /\
  BinanceExchange.funding_balance_cache
    (self (BinanceExchange.transfer_to_savings "USDT" 100
             (Bench.env_ok [] (Some (PyStr "2.5"))) Bench.w0
             (BinanceExchange.set_funding_balance_cache
                {| BinanceExchange.timestamp := 1704067190;
                   BinanceExchange.data := {[ "USDT" := 7%float ]} |}
                (Bench.exchange0 30)))) =
    {| BinanceExchange.timestamp := 0; BinanceExchange.data := ∅ |} /\
  exists ts,
    trace (world (BinanceExchange.fetch_funding_balance
                    (Bench.env_ok [] (Some (PyStr "2.5"))) Bench.w0
                    (self (BinanceExchange.transfer_to_savings "USDT" 100
                             (Bench.env_ok [] (Some (PyStr "2.5"))) Bench.w0
                             (BinanceExchange.set_funding_balance_cache
                                {| BinanceExchange.timestamp := 1704067190;
                                   BinanceExchange.data := {[ "USDT" := 7%float ]} |}
                                (Bench.exchange0 30)))))) =
      GetAlphaAsset ts 5000 :: trace Bench.w0.
Proof.
  split; [vm_compute; reflexivity|].
  destruct (proj1 (accepted_transfer_resets_balance_cache "USDT" 100
                     (Bench.env_ok [] (Some (PyStr "2.5"))) Bench.w0)
              (BinanceExchange.set_funding_balance_cache
                 {| BinanceExchange.timestamp := 1704067190;
                    BinanceExchange.data := {[ "USDT" := 7%float ]} |}
                 (Bench.exchange0 30))
              {[ "orderId" := PyInt 42 ]})
    as (Hreset & _ & Hnext).
  - vm_compute. reflexivity.
  - split; [exact Hreset|]. apply Hnext.
    + intros [|k]; reflexivity.
    + vm_compute. reflexivity.
Defined.

(** C3 as stated fails when the cache lifetime exceeds the clock reading:
    with [cache_ttl] of ten thousand million seconds and the clock at the end
    of 2023, the read that follows an accepted transfer finds the reset entry
    fresh ([now - 0 < cache_ttl]) and returns its empty map without any
    balance request. *)
Lemma reset_cache_read_without_fetch :
  result (BinanceExchange.transfer_to_savings "USDT" 100
            (Bench.env_ok [] (Some (PyStr "2.5"))) Bench.w0
            (Bench.exchange0 10000000000)) = inr {[ "orderId" := PyInt 42 ]} /\
  result (BinanceExchange.fetch_funding_balance
            (Bench.env_ok [] (Some (PyStr "2.5")))
            (world (BinanceExchange.transfer_to_savings "USDT" 100
                      (Bench.env_ok [] (Some (PyStr "2.5"))) Bench.w0
                      (Bench.exchange0 10000000000)))
            (self (BinanceExchange.transfer_to_savings "USDT" 100
                     (Bench.env_ok [] (Some (PyStr "2.5"))) Bench.w0
                     (Bench.exchange0 10000000000)))) = inr ∅ /\
  balance_fetches
    (trace (world (BinanceExchange.fetch_funding_balance
            (Bench.env_ok [] (Some (PyStr "2.5")))
            (world (BinanceExchange.transfer_to_savings "USDT" 100
                      (Bench.env_ok [] (Some (PyStr "2.5"))) Bench.w0
                      (Bench.exchange0 10000000000)))
            (self (BinanceExchange.transfer_to_savings "USDT" 100
                     (Bench.env_ok [] (Some (PyStr "2.5"))) Bench.w0
                     (Bench.exchange0 10000000000)))))) = 0%nat.
Proof. repeat split; vm_compute; reflexivity. Qed.

Section BalanceFallback.
Import BinanceExchange.

(** A stale read of [BinanceExchange]: one balance request is sent; its
    parsed reply replaces the entry, a failure leaves the entry and
    returns its data. *)
Lemma exchange_stale_read env w s :
  enable_savings s = true ->
  (time_time env (ticks w) - timestamp (funding_balance_cache s) <? cache_ttl s)%float
    = false ->
  clock_sane env s ->
  let o := fetch_funding_balance env w s in
  exists ts,
    trace (world o) = GetAlphaAsset ts 5000 :: trace w /\
    match reply_alpha_asset env (trace (world o)) with
    | inl e => result o = inr (data (funding_balance_cache s)) /\ self o = s
    | inr items =>
        match parse_balances (float_of_str env) items ∅ with
        | inl e => result o = inr (data (funding_balance_cache s)) /\ self o = s
        | inr balances =>
            result o = inr balances /\
            funding_balance_cache (self o) =
              {| timestamp := time_time env (ticks w); data := balances |}
        end
    end.
Proof.
  intros Hon Hstale Hsane. cbv zeta. rewrite exchange_balance_run. cbv zeta.
  rewrite Hon, Hstale. simpl negb. cbv iota.
  destruct (py_int_finite _ (Hsane (S (ticks w)))) as [ts ->]. exists ts.
  destruct (reply_alpha_asset env (GetAlphaAsset ts 5000 :: trace w)) as [e|items] eqn:Hr.
  - cbn [trace world sent tick result self]. rewrite Hr. auto.
  - destruct (parse_balances (float_of_str env) items ∅) as [e|balances] eqn:Hp;
      cbn [trace world sent tick result self]; rewrite Hr, Hp; auto.
Qed.

End BalanceFallback.

(** C6, amended. In [BinanceExchange], a stale [fetch_funding_balance] whose
    request is accepted and parsed stores the balances with the time of the
    call and returns them; one whose request is rejected, or whose reply does
    not parse, returns the data of the cache entry, raises nothing and
    changes nothing, so after a successful fetch it returns the balances of
    that fetch.  [_clear_balance_cache] resets the entry to the empty map
    with timestamp 0, and the next read then sends a balance request provided
    the feature is on and the clock reads at least [cache_ttl] seconds and is
    sane.  [BinanceAdapter.fetch_funding_balance] keeps no cache: it sends a
    request on every call and returns the empty map when the request is
    rejected. *)
Theorem balance_cache_fallback_and_invalidate (env : Env) :
  (forall w s,
      BinanceExchange.enable_savings s = true ->
      (time_time env (ticks w)
         - BinanceExchange.timestamp (BinanceExchange.funding_balance_cache s)
       <? BinanceExchange.cache_ttl s)%float = false ->
      clock_sane env s ->
      let o := BinanceExchange.fetch_funding_balance env w s in
      (forall items balances,
          reply_alpha_asset env (trace (world o)) = inr items ->
          parse_balances (float_of_str env) items ∅ = inr balances ->
          result o = inr balances /\
          BinanceExchange.funding_balance_cache (self o) =
            {| BinanceExchange.timestamp := time_time env (ticks w);
               BinanceExchange.data := balances |}) /\
      (forall e,
          rejected env (trace (world o)) = Some e ->
          result o = inr (BinanceExchange.data (BinanceExchange.funding_balance_cache s)) /\
          self o = s) /\
      (forall items e,
          reply_alpha_asset env (trace (world o)) = inr items ->
          parse_balances (float_of_str env) items ∅ = inl e ->
          result o = inr (BinanceExchange.data (BinanceExchange.funding_balance_cache s)) /\
          self o = s)) /\
  (forall s previous fetchedAt w' e,
      BinanceExchange.enable_savings s = true ->
      clock_sane env s ->
      BinanceExchange.funding_balance_cache s =
        {| BinanceExchange.timestamp := fetchedAt; BinanceExchange.data := previous |} ->
      (time_time env (ticks w') - fetchedAt <? BinanceExchange.cache_ttl s)%float = false ->
      let o := BinanceExchange.fetch_funding_balance env w' s in
      rejected env (trace (world o)) = Some e ->
      result o = inr previous /\ self o = s) /\
  (forall w s,
      let o := BinanceExchange._clear_balance_cache env w s in
      result o = inr tt /\ world o = w /\
      BinanceExchange.funding_balance_cache (self o) =
        {| BinanceExchange.timestamp := 0; BinanceExchange.data := ∅ |} /\
      BinanceExchange.balance_cache (self o) =
        {| BinanceExchange.timestamp := 0; BinanceExchange.data := None |} /\
      forall w',
        BinanceExchange.enable_savings s = true ->
        clock_sane env s ->
        (BinanceExchange.cache_ttl s <=? time_time env (ticks w'))%float = true ->
        exists ts,
          trace (world (BinanceExchange.fetch_funding_balance env w' (self o))) =
            GetAlphaAsset ts 5000 :: trace w') /\
  (forall w s,
      let o := BinanceAdapter.fetch_funding_balance env w s in
      trace (world o) = GetAlphaAsset (exchange_milliseconds env (ticks w)) 5000 :: trace w /\
      self o = s /\
      forall e, rejected env (trace (world o)) = Some e -> result o = inr ∅).
Proof.
  assert (Hstale : forall w s,
      BinanceExchange.enable_savings s = true ->
      (time_time env (ticks w)
         - BinanceExchange.timestamp (BinanceExchange.funding_balance_cache s)
       <? BinanceExchange.cache_ttl s)%float = false ->
      clock_sane env s ->
      forall e,
        rejected env (trace (world (BinanceExchange.fetch_funding_balance env w s))) = Some e ->
        result (BinanceExchange.fetch_funding_balance env w s) =
          inr (BinanceExchange.data (BinanceExchange.funding_balance_cache s)) /\
        self (BinanceExchange.fetch_funding_balance env w s) = s).
  { intros w s Hon Hst Hsane e.
    destruct (exchange_stale_read env w s Hon Hst Hsane) as (ts & Htr & Hcases).
    rewrite Htr in *. cbn [rejected].
    destruct (reply_alpha_asset env _); [auto|discriminate]. }
  split; [|split; [|split]].
  - intros w s Hon Hst Hsane o.
    destruct (exchange_stale_read env w s Hon Hst Hsane) as (ts & Htr & Hcases).
    fold o in Htr, Hcases. split; [|split].
    + intros items balances Hr Hp. rewrite Hr, Hp in Hcases. exact Hcases.
    + apply Hstale; assumption.
    + intros items e Hr Hp. rewrite Hr, Hp in Hcases. exact Hcases.
  - intros s previous fetchedAt w' e Hon Hsane Hcache Hst o Hrej.
    destruct (Hstale w' s Hon) with (e := e) as [Hres Hself]; auto.
    + rewrite Hcache. exact Hst.
    + rewrite Hcache in Hres. auto.
  - intros w s o. repeat split.
    intros w' Hon Hsane Hlate. apply exchange_read_after_reset; auto.
  - intros w s o. subst o. rewrite adapter_balance_run. cbv zeta.
    cbn [trace world sent tick result self rejected].
    split; [reflexivity|]. split; [reflexivity|].
    intros e. destruct (reply_alpha_asset env _); [reflexivity|discriminate].
Qed.

Lemma balance_cache_witness :
  result (BinanceExchange.fetch_funding_balance (Bench.env_down []) Bench.w0
            (BinanceExchange.set_funding_balance_cache
               {| BinanceExchange.timestamp := 1704060000;
                  BinanceExchange.data := {[ "USDT" := 5%float ]} |}
               (Bench.exchange0 30))) = inr {[ "USDT" := 5%float ]} /\
  self (BinanceExchange.fetch_funding_balance (Bench.env_down []) Bench.w0
          (BinanceExchange.set_funding_balance_cache
             {| BinanceExchange.timestamp := 1704060000;
                BinanceExchange.data := {[ "USDT" := 5%float ]} |}
             (Bench.exchange0 30))) =
    BinanceExchange.set_funding_balance_cache
      {| BinanceExchange.timestamp := 1704060000;
         BinanceExchange.data := {[ "USDT" := 5%float ]} |}
      (Bench.exchange0 30).
Proof.
  apply (proj1 (proj2 (balance_cache_fallback_and_invalidate (Bench.env_down [])))
           _ {[ "USDT" := 5%float ]} 1704060000%float Bench.w0
           (RequestError (-1003))).
  - reflexivity.
  - intros [|k]; reflexivity.
  - reflexivity.
  - vm_compute. reflexivity.
  - vm_compute. reflexivity.
Defined.

(** C6 as stated fails on [BinanceAdapter.fetch_funding_balance]: after a
    fetch that returned a balance of 5 USDT, a fetch whose request the
    gateway rejects returns the empty map, not the previous value. *)
Lemma adapter_failed_fetch_returns_empty :
  result (BinanceAdapter.fetch_funding_balance (Bench.env_flaky []) Bench.w0
            Bench.adapter0) = inr {[ "USDT" := 5%float ]} /\
  rejected (Bench.env_flaky [])
    (trace (world (BinanceAdapter.fetch_funding_balance (Bench.env_flaky [])
       (world (BinanceAdapter.fetch_funding_balance (Bench.env_flaky []) Bench.w0
                 Bench.adapter0))
       (self (BinanceAdapter.fetch_funding_balance (Bench.env_flaky []) Bench.w0
                Bench.adapter0))))) = Some (RequestError (-1003)) /\
  result (BinanceAdapter.fetch_funding_balance (Bench.env_flaky [])
       (world (BinanceAdapter.fetch_funding_balance (Bench.env_flaky []) Bench.w0
                 Bench.adapter0))
       (self (BinanceAdapter.fetch_funding_balance (Bench.env_flaky []) Bench.w0
                Bench.adapter0))) = inr ∅.
Proof. repeat split; vm_compute; reflexivity. Qed.

(** ** The precision formatter *)

(** C8, amended. For every finite value and every integer precision from 0
    to [INT_MAX], [_format_alpha_value] and [_format_with_precision] render
    the value as a fixed-point decimal string with exactly [precision] digits
    after the point (no point for precision 0); no rendering, of any value,
    holds an exponent marker; [format(1/3, 8)] is "0.33333333" and
    [format(2.0, 0)] is "2"; an instrument whose metadata has no precision
    keys is formatted with precision 8; and a precision that is negative or
    above [INT_MAX] makes both formatters raise a [ValueError], whatever the
    value. *)
Theorem formatter_fixed_point :
  (forall v p,
      Z.of_nat p <= INT_MAX ->
      BinanceExchange._format_alpha_value v (Z.of_nat p) = inr (format_f v p) /\
      BinanceAdapter._format_with_precision v (Z.of_nat p) = inr (format_f v p)) /\
  (forall v p, finite v -> fixed_point p (format_f v p)) /\
  (forall v p, no_exponent (format_f v p) = true) /\
  (format_f (1 / 3) 8 = "0.33333333" /\ format_f 2 0 = "2") /\
  (forall si sym base q amount p env w s,
      symbol si = Some sym -> baseAsset si = Some base ->
      quantityPrecision si = None -> pricePrecision si = None ->
      result (BinanceAdapter.get_alpha_ticker_price sym env w s) = inr p ->
      (p <=? 0)%float = false ->
      result (BinanceAdapter.priced_order si q amount env w s) =
        inr (base, q, format_f p 8, format_f (amount / p) 8)) /\
  (forall side si sym base asset amount p env w s,
      BinanceExchange.enable_savings s = true ->
      clock_sane env s ->
      let o1 := BinanceExchange._get_alpha_symbol_info asset env w s in
      result o1 = inr si ->
      symbol si = Some sym -> baseAsset si = Some base ->
      quantityPrecision si = None -> pricePrecision si = None ->
      let o2 := BinanceExchange._get_alpha_ticker_price sym env (world o1) (self o1) in
      result o2 = inr p ->
      (p <=? 0)%float = false ->
      exists ts,
        trace (world (BinanceExchange.alpha_transfer side asset amount env w s)) =
          PlaceOrder {| o_baseAsset := base; o_quoteAsset := asset; o_side := side;
                        o_quantity := format_f (amount / p) 8;
                        o_price := format_f p 8;
                        o_timestamp := ts; o_recvWindow := 5000 |} :: trace (world o2)) /\
  (forall v precision,
      ~ 0 <= precision <= INT_MAX ->
      exists e,
        format_error e /\
        BinanceExchange._format_alpha_value v precision = inl e /\
        BinanceAdapter._format_with_precision v precision = inl e).
Proof.
  assert (H8 : Z.of_nat 8 <= INT_MAX) by (unfold INT_MAX; lia).
  split; [|split; [|split; [|split; [|split; [|split]]]]].
  - intros v p Hp. split; apply format_precision_nat; exact Hp.
  - exact format_f_finite.
  - exact format_f_no_exponent.
  - split; vm_compute; reflexivity.
  - intros si sym base q amount p env w s Hsym Hbase Hqp Hpp Hp Hpos.
    rewrite (adapter_order_strings si sym base q amount p 8 8); auto.
    + rewrite Hqp. reflexivity.
    + rewrite Hpp. reflexivity.
  - intros side si sym base asset amount p env w s Hon Hsane o1 Hsi Hsym Hbase
      Hqp Hpp o2 Hp Hpos.
    apply (exchange_order_strings side si sym base asset amount p 8 8); auto.
    + rewrite Hqp. reflexivity.
    + rewrite Hpp. reflexivity.
  - intros v precision Hout.
    destruct (format_precision_out_of_range precision Hout) as (e & He & Hraise).
    exists e. split; [exact He|]. split; apply Hraise.
Qed.

Lemma formatter_witness :
  BinanceExchange._format_alpha_value (1 / 3) 8 = inr "0.33333333" /\
  fixed_point 8 (format_f (1 / 3) 8) /\
  exists e, format_error e /\ BinanceExchange._format_alpha_value (1 / 3) 2147483648 = inl e.
Proof.
  split; [|split].
  - destruct (proj1 formatter_fixed_point (1 / 3)%float 8%nat) as [Hfmt _].
    + unfold INT_MAX. lia.
    + etransitivity; [exact Hfmt | vm_compute; reflexivity].
  - apply (proj1 (proj2 formatter_fixed_point) (1 / 3)%float 8%nat). reflexivity.
  - destruct (proj2 (proj2 (proj2 (proj2 (proj2 (proj2 formatter_fixed_point)))))
                (1 / 3)%float 2147483648) as (e & He & Hraise & _).
    + unfold INT_MAX. lia.
    + exists e. split; [exact He | exact Hraise].
Defined.

(** C8 as stated fails on values that are not finite: an infinite value is
    rendered "inf", which has no digits and no point, and a ticker price
    "nan" passes the [<= 0] check and reaches the order as the strings
    "nan".  It fails on large precisions too: 2147483648 is a non-negative
    integer precision that the formatter refuses. *)
Lemma formatter_renders_non_finite :
  format_f infinity 2 = "inf" /\
  ~ fixed_point 2 (format_f infinity 2) /\
  placed (trace (world (BinanceExchange.transfer_to_savings "USDT" 100
            (Bench.env_ok [] (Some (PyStr "nan"))) Bench.w0 (Bench.exchange0 30)))) =
    [ {| o_baseAsset := "ALPHA_175"; o_quoteAsset := "USDT"; o_side := BUY;
         o_quantity := "nan"; o_price := "nan";
         o_timestamp := 1704067199000; o_recvWindow := 5000 |} ] /\
  BinanceExchange._format_alpha_value 1 2147483648 =
    inl (BuiltinError "ValueError: precision too big").
Proof.
  split; [reflexivity|]. split; [|split; [vm_compute; reflexivity | reflexivity]].
  intros Hfp. apply fixed_point_head in Hfp as (c & r & E & [Hd | Hm]).
  - change (format_f infinity 2) with "inf" in E. injection E as <- _. discriminate Hd.
  - change (format_f infinity 2) with "inf" in E. injection E as <- _. discriminate Hm.
Qed.

(** ** The lookup, the catalog cache and a failed transfer on the bench *)

Lemma resolve_instrument_witness :
  result (BinanceExchange._get_alpha_symbol_info "USDT"
            (Bench.env_ok [] None) Bench.w0 (Bench.exchange0 30)) = inr Bench.ALPHA_USDT.
Proof.
  destruct (proj1 (resolve_instrument_first_trading "USDT")
              (Bench.env_ok [] None) Bench.w0 (Bench.exchange0 30))
    as (_ & _ & _ & Hinfo).
  destruct (Hinfo Bench.catalog) as (Hfirst & _).
  - vm_compute. reflexivity.
  - apply Hfirst.
    exists [Bench.HALTED_USDT], [Bench.OTHER_USDT; Bench.BARE_USDC].
    split; [reflexivity|]. split; [reflexivity|]. split; [reflexivity|].
    constructor; [|constructor]. intros [_ Hst]. discriminate Hst.
Defined.

Lemma catalog_cache_witness :
  result (BinanceAdapter.get_alpha_exchange_info
            (Bench.env_ok [1704067100; 0; 1704067110]%float None)
            (world (BinanceAdapter.get_alpha_exchange_info
                      (Bench.env_ok [1704067100; 0; 1704067110]%float None)
                      Bench.w0 Bench.adapter0))
            (self (BinanceAdapter.get_alpha_exchange_info
                     (Bench.env_ok [1704067100; 0; 1704067110]%float None)
                     Bench.w0 Bench.adapter0))) = inr Bench.catalog /\
  catalog_fetches
    (trace (world (BinanceAdapter.get_alpha_exchange_info
            (Bench.env_ok [1704067100; 0; 1704067110]%float None)
            (world (BinanceAdapter.get_alpha_exchange_info
                      (Bench.env_ok [1704067100; 0; 1704067110]%float None)
                      Bench.w0 Bench.adapter0))
            (self (BinanceAdapter.get_alpha_exchange_info
                     (Bench.env_ok [1704067100; 0; 1704067110]%float None)
                     Bench.w0 Bench.adapter0))))) = 1%nat.
Proof.
  apply (proj1 (proj2 (proj2 (proj1 catalog_cache_thirty_seconds))
                  (Bench.env_ok [1704067100; 0; 1704067110]%float None)
                  Bench.w0 Bench.adapter0 Bench.catalog I eq_refl eq_refl I)).
  vm_compute. reflexivity.
Defined.

Lemma failed_transfer_witness :
  result (BinanceExchange.transfer_to_savings "USDT" 100
            (Bench.bench_env [] (Some (PyStr "2.5")) (fun n => (n <=? 2)%nat)) Bench.w0
            (BinanceExchange.set_balance_cache
               {| BinanceExchange.timestamp := 1704067180;
                  BinanceExchange.data := Some {[ "USDT" := 9%float ]} |}
               (BinanceExchange.set_funding_balance_cache
                  {| BinanceExchange.timestamp := 1704067190;
                     BinanceExchange.data := {[ "USDT" := 7%float ]} |}
                  (Bench.exchange0 30)))) = inl (RequestError (-1003)) /\
  BinanceExchange.balance_cache
    (self (BinanceExchange.transfer_to_savings "USDT" 100
             (Bench.bench_env [] (Some (PyStr "2.5")) (fun n => (n <=? 2)%nat)) Bench.w0
             (BinanceExchange.set_balance_cache
                {| BinanceExchange.timestamp := 1704067180;
                   BinanceExchange.data := Some {[ "USDT" := 9%float ]} |}
                (BinanceExchange.set_funding_balance_cache
                   {| BinanceExchange.timestamp := 1704067190;
                      BinanceExchange.data := {[ "USDT" := 7%float ]} |}
                   (Bench.exchange0 30))))) =
    {| BinanceExchange.timestamp := 1704067180;
       BinanceExchange.data := Some {[ "USDT" := 9%float ]} |} /\
  BinanceExchange.funding_balance_cache
    (self (BinanceExchange.transfer_to_savings "USDT" 100
             (Bench.bench_env [] (Some (PyStr "2.5")) (fun n => (n <=? 2)%nat)) Bench.w0
             (BinanceExchange.set_balance_cache
                {| BinanceExchange.timestamp := 1704067180;
                   BinanceExchange.data := Some {[ "USDT" := 9%float ]} |}
                (BinanceExchange.set_funding_balance_cache
                   {| BinanceExchange.timestamp := 1704067190;
                      BinanceExchange.data := {[ "USDT" := 7%float ]} |}
                   (Bench.exchange0 30))))) =
    {| BinanceExchange.timestamp := 1704067190;
       BinanceExchange.data := {[ "USDT" := 7%float ]} |} /\
  length (placed (trace (world (BinanceExchange.transfer_to_savings "USDT" 100
             (Bench.bench_env [] (Some (PyStr "2.5")) (fun n => (n <=? 2)%nat)) Bench.w0
             (BinanceExchange.set_balance_cache
                {| BinanceExchange.timestamp := 1704067180;
                   BinanceExchange.data := Some {[ "USDT" := 9%float ]} |}
                (BinanceExchange.set_funding_balance_cache
                   {| BinanceExchange.timestamp := 1704067190;
                      BinanceExchange.data := {[ "USDT" := 7%float ]} |}
                   (Bench.exchange0 30))))))) = 1%nat.
Proof.
  assert (Hres : result (BinanceExchange.transfer_to_savings "USDT" 100
            (Bench.bench_env [] (Some (PyStr "2.5")) (fun n => (n <=? 2)%nat)) Bench.w0
            (BinanceExchange.set_balance_cache
               {| BinanceExchange.timestamp := 1704067180;
                  BinanceExchange.data := Some {[ "USDT" := 9%float ]} |}
               (BinanceExchange.set_funding_balance_cache
                  {| BinanceExchange.timestamp := 1704067190;
                     BinanceExchange.data := {[ "USDT" := 7%float ]} |}
                  (Bench.exchange0 30)))) = inl (RequestError (-1003)))
    by (vm_compute; reflexivity).
  destruct (proj1 (failed_transfer_keeps_balance_caches "USDT" 100
                     (Bench.bench_env [] (Some (PyStr "2.5")) (fun n => (n <=? 2)%nat))
                     Bench.w0
                     (BinanceExchange.set_balance_cache
                        {| BinanceExchange.timestamp := 1704067180;
                           BinanceExchange.data := Some {[ "USDT" := 9%float ]} |}
                        (BinanceExchange.set_funding_balance_cache
                           {| BinanceExchange.timestamp := 1704067190;
                              BinanceExchange.data := {[ "USDT" := 7%float ]} |}
                           (Bench.exchange0 30)))
                     (RequestError (-1003))) Hres)
    as (Hb & Hf & _).
  split; [exact Hres|]. split; [exact Hb|]. split; [exact Hf|].
  vm_compute. reflexivity.
Defined.

(** ** The loop over the balance reply *)

Section BalanceLoop.
Variable fos : string -> option float.

Lemma str_or_key (item : AlphaAsset) :
  match str_or (cexAssetCode item) (alphaId item) with
  | Some c => if String.eqb c "" then None else Some c
  | None => None
  end = asset_key item.
Proof.
  unfold str_or, asset_key, nonempty.
  destruct (cexAssetCode item) as [c|]; [|reflexivity].
  destruct (String.eqb c "") eqn:Ec; [reflexivity|]. rewrite Ec. reflexivity.
Qed.

(** One turn of the loop, by the key and the amount of the item. *)
Lemma parse_balances_step (item : AlphaAsset) (rest : list AlphaAsset) (acc : BalanceMap) :
  parse_balances fos (item :: rest) acc =
    match asset_key item with
    | None => parse_balances fos rest acc
    | Some k =>
        match asset_amount fos item with
        | inl e => inl e
        | inr a =>
            if (0 <? a)%float then parse_balances fos rest (<[k := a]> acc)
            else parse_balances fos rest acc
        end
    end.
Proof.
  rewrite <- str_or_key. simpl. unfold asset_amount.
  destruct (str_or (cexAssetCode item) (alphaId item)) as [c|]; [|reflexivity].
  destruct (String.eqb c ""); reflexivity.
Qed.

Lemma asset_key_nonempty (item : AlphaAsset) (k : string) :
  asset_key item = Some k -> k <> "".
Proof.
  unfold asset_key, nonempty.
  destruct (cexAssetCode item) as [c|].
  - destruct (String.eqb_spec c "") as [->|Hc].
    + destruct (alphaId item) as [a|]; [|discriminate].
      destruct (String.eqb_spec a "") as [->|Ha]; [discriminate|]. congruence.
    + congruence.
  - destruct (alphaId item) as [a|]; [|discriminate].
    destruct (String.eqb_spec a "") as [->|Ha]; [discriminate|]. congruence.
Qed.

(** Every entry of the result was in the map the loop started from or
    comes from an item. *)
Lemma parse_balances_sound (items : list AlphaAsset) (acc b : BalanceMap) :
  parse_balances fos items acc = inr b ->
  forall k a, b !! k = Some a ->
    acc !! k = Some a \/
    exists item, item ∈ items /\ asset_key item = Some k /\
                 asset_amount fos item = inr a /\ (0 <? a)%float = true.
Proof.
  revert acc. induction items as [|item rest IH]; intros acc.
  - intros [= <-] k a Hk. auto.
  - rewrite parse_balances_step. intros Hp k a Hk.
    assert (Hrest : forall acc', parse_balances fos rest acc' = inr b ->
              (acc' !! k = Some a \/
               exists item0, item0 ∈ item :: rest /\ asset_key item0 = Some k /\
                             asset_amount fos item0 = inr a /\ (0 <? a)%float = true)).
    { intros acc' Hp'. destruct (IH acc' Hp' k a Hk) as [H|(i & Hi & H)]; [auto|].
      right. exists i. split; [right; exact Hi | exact H]. }
    destruct (asset_key item) as [k0|] eqn:Hkey; [|auto].
    destruct (asset_amount fos item) as [e|a0] eqn:Ha; [discriminate|].
    destruct (0 <? a0)%float eqn:Hpos; [|auto].
    destruct (Hrest _ Hp) as [Hins|H]; [|auto].
    destruct (decide (k0 = k)) as [->|Hne].
    + rewrite lookup_insert_eq in Hins. injection Hins as ->.
      right. exists item. split; [left|]; auto.
    + rewrite lookup_insert_ne in Hins by exact Hne. auto.
Qed.

(** Whatever was in the map at the start, or is put in by an item, has an
    entry at the end. *)
Lemma parse_balances_keeps (items : list AlphaAsset) (acc b : BalanceMap) (k : string) :
  parse_balances fos items acc = inr b -> is_Some (acc !! k) -> is_Some (b !! k).
Proof.
  revert acc. induction items as [|item rest IH]; intros acc.
  - intros [= <-]. auto.
  - rewrite parse_balances_step. intros Hp Hk.
    destruct (asset_key item) as [k0|]; [|eauto].
    destruct (asset_amount fos item) as [e|a0]; [discriminate|].
    destruct (0 <? a0)%float; [|eauto].
    apply (IH _ Hp). destruct (decide (k0 = k)) as [->|Hne].
    + rewrite lookup_insert_eq. eauto.
    + rewrite lookup_insert_ne by exact Hne. exact Hk.
Qed.

Lemma parse_balances_complete (items : list AlphaAsset) (acc b : BalanceMap) :
  parse_balances fos items acc = inr b ->
  forall item k a,
    item ∈ items -> asset_key item = Some k ->
    asset_amount fos item = inr a -> (0 <? a)%float = true ->
    is_Some (b !! k).
Proof.
  revert acc. induction items as [|item0 rest IH]; intros acc Hp item k a Hin Hkey Ha Hpos.
  - apply elem_of_nil in Hin. destruct Hin.
  - rewrite parse_balances_step in Hp. apply elem_of_cons in Hin as [->|Hin].
    + rewrite Hkey, Ha, Hpos in Hp.
      apply (parse_balances_keeps _ _ _ _ Hp). rewrite lookup_insert_eq. eauto.
    + destruct (asset_key item0) as [k0|]; [|eauto].
      destruct (asset_amount fos item0) as [e|a0]; [discriminate|].
      destruct (0 <? a0)%float; eauto.
Qed.

(** The loop fails exactly on an item that has a key and an amount that
    [float()] rejects. *)
Lemma parse_balances_error (items : list AlphaAsset) (acc : BalanceMap) (e : exn) :
  parse_balances fos items acc = inl e ->
  exists item k, item ∈ items /\ asset_key item = Some k /\ asset_amount fos item = inl e.
Proof.
  revert acc. induction items as [|item rest IH]; intros acc; [discriminate|].
  rewrite parse_balances_step.
  assert (Hrest : forall acc', parse_balances fos rest acc' = inl e ->
            exists item0 k, item0 ∈ item :: rest /\ asset_key item0 = Some k /\
                            asset_amount fos item0 = inl e).
  { intros acc' Hp. destruct (IH _ Hp) as (i & k & Hi & H).
    exists i, k. split; [right; exact Hi | exact H]. }
  destruct (asset_key item) as [k0|] eqn:Hkey; [|apply Hrest].
  destruct (asset_amount fos item) as [e0|a0] eqn:Ha.
  - intros [= ->]. exists item, k0. split; [left|]; auto.
  - destruct (0 <? a0)%float; apply Hrest.
Qed.

Lemma parse_balances_total (items : list AlphaAsset) (acc : BalanceMap) :
  (forall item k, item ∈ items -> asset_key item = Some k ->
     exists a, asset_amount fos item = inr a) ->
  exists b, parse_balances fos items acc = inr b.
Proof.
  intros Hok. destruct (parse_balances fos items acc) as [e|b] eqn:Hp; [|eauto].
  destruct (parse_balances_error _ _ _ Hp) as (item & k & Hin & Hkey & Ha).
  destruct (Hok item k Hin Hkey) as [a Ha']. congruence.
Qed.

End BalanceLoop.

(** X1. The loop of [fetch_funding_balance] over the balance reply, the same
    in both connectors: every entry of the map it builds has a positive
    amount, a code that is not empty, and comes from an item of the reply
    filed under its [cexAssetCode] or, failing that, its [alphaId]; every
    such item with a positive amount has an entry; and the loop raises only
    on an item that has a code and an amount that [float()] rejects, items
    without a code being skipped unread. *)
Theorem balance_loop_entries (fos : string -> option float) (items : list AlphaAsset) :
  (forall b, parse_balances fos items ∅ = inr b ->
     (forall k a, b !! k = Some a ->
        (0 <? a)%float = true /\ k <> "" /\
        exists item, item ∈ items /\ asset_key item = Some k /\
                     asset_amount fos item = inr a) /\
     (forall item k a,
        item ∈ items -> asset_key item = Some k ->
        asset_amount fos item = inr a -> (0 <? a)%float = true ->
        is_Some (b !! k))) /\
  (forall e, parse_balances fos items ∅ = inl e ->
     exists item k, item ∈ items /\ asset_key item = Some k /\
                    asset_amount fos item = inl e) /\
  ((forall item k, item ∈ items -> asset_key item = Some k ->
      exists a, asset_amount fos item = inr a) ->
   exists b, parse_balances fos items ∅ = inr b).
Proof.
  split; [|split].
  - intros b Hp. split.
    + intros k a Hk.
      destruct (parse_balances_sound fos items ∅ b Hp k a Hk) as [H|(i & Hi & Hkey & Ha & Hpos)].
      { rewrite lookup_empty in H. discriminate. }
      split; [exact Hpos|]. split; [exact (asset_key_nonempty _ _ Hkey)|]. eauto.
    + exact (parse_balances_complete fos items ∅ b Hp).
  - intros e. apply parse_balances_error.
  - apply parse_balances_total.
Qed.

Lemma balance_loop_entries_witness :
  exists b, parse_balances Bench.bench_float [Bench.usdt_asset (PyStr "5")] ∅ = inr b.
Proof.
  apply (proj2 (proj2 (balance_loop_entries Bench.bench_float [Bench.usdt_asset (PyStr "5")]))).
  intros item k Hin _. apply list_elem_of_singleton in Hin. subst item.
  exists 5%float. vm_compute. reflexivity.
Defined.

(** ** Balance reads *)

Lemma exchange_balance_run_cases (env : Env) (w : World) (s : BinanceExchange.t) :
  let o := BinanceExchange.fetch_funding_balance env w s in
  (exists b, result o = inr b) /\
  BinanceExchange.set_funding_balance_cache
    (BinanceExchange.funding_balance_cache s) (self o) = s.
Proof.
  cbv zeta. rewrite exchange_balance_run. cbv zeta.
  assert (Hid : BinanceExchange.set_funding_balance_cache
                  (BinanceExchange.funding_balance_cache s) s = s)
    by (destruct s; reflexivity).
  destruct (negb _); [split; [eauto | exact Hid]|].
  split.
  - destruct (_ <? _)%float; [eauto|]. destruct (py_int _); [eauto|].
    destruct (reply_alpha_asset env _); [eauto|].
    destruct (parse_balances _ _ _); eauto.
  - destruct (_ <? _)%float; [exact Hid|]. destruct (py_int _); [exact Hid|].
    destruct (reply_alpha_asset env _); [exact Hid|].
    destruct (parse_balances _ _ _); [exact Hid|]. destruct s; reflexivity.
Qed.

(** X2. A balance read turns every error of the gateway and of the parse
    into a result.  Whatever the clock reads and whether the gateway answers
    or rejects the request, [fetch_funding_balance] of either connector
    returns a map.  When the request it sent is rejected, or the reply holds
    an amount that [float()] rejects, [BinanceExchange] returns the cached
    map and keeps its state, and [BinanceAdapter] returns the empty map.
    [BinanceExchange] changes no attribute but [funding_balance_cache], and
    with the feature off it returns the empty map without reading the clock
    or sending a request; [BinanceAdapter] changes no attribute. *)
Theorem balance_reads_handle_errors (env : Env) (w : World) :
  (forall s,
      let o := BinanceExchange.fetch_funding_balance env w s in
      (exists b, result o = inr b) /\
      BinanceExchange.set_funding_balance_cache
        (BinanceExchange.funding_balance_cache s) (self o) = s /\
      (BinanceExchange.enable_savings s = false ->
       o = {| result := inr ∅; world := w; self := s |}) /\
      (forall ts e,
          trace (world o) = GetAlphaAsset ts 5000 :: trace w ->
          reply_alpha_asset env (trace (world o)) = inl e \/
          (exists items,
              reply_alpha_asset env (trace (world o)) = inr items /\
              parse_balances (float_of_str env) items ∅ = inl e) ->
          result o = inr (BinanceExchange.data (BinanceExchange.funding_balance_cache s)) /\
          self o = s)) /\
  (forall s,
      let o := BinanceAdapter.fetch_funding_balance env w s in
      (exists b, result o = inr b) /\ self o = s /\
      exists ts,
        trace (world o) = GetAlphaAsset ts 5000 :: trace w /\
        forall e,
          reply_alpha_asset env (trace (world o)) = inl e \/
          (exists items,
              reply_alpha_asset env (trace (world o)) = inr items /\
              parse_balances (float_of_str env) items ∅ = inl e) ->
          result o = inr ∅).
Proof.
  split.
  - intros s o. destruct (exchange_balance_run_cases env w s) as [Hret Hkeep].
    split; [exact Hret|]. split; [exact Hkeep|]. split.
    { intros Hoff. subst o. rewrite exchange_balance_run. cbv zeta. rewrite Hoff.
      reflexivity. }
    intros ts e. subst o. rewrite exchange_balance_run. cbv zeta.
    assert (Hno : forall r : Request, trace w <> r :: trace w).
    { intros r Heq. apply (f_equal length) in Heq. simpl in Heq. lia. }
    destruct (negb _); [intros Htr; destruct (Hno _ Htr)|].
    destruct (_ <? _)%float; [intros Htr; destruct (Hno _ Htr)|].
    destruct (py_int _) as [e'|ts']; [intros Htr; destruct (Hno _ Htr)|].
    destruct (reply_alpha_asset env (GetAlphaAsset ts' 5000 :: trace w))
      as [e'|items] eqn:Hr.
    { cbn [result world self trace sent tick]. auto. }
    destruct (parse_balances (float_of_str env) items ∅) as [e'|b] eqn:Hp;
      cbn [result world self trace sent tick].
    { auto. }
    intros _ [Hrej | (items' & Hitems & Hbad)].
    + rewrite Hr in Hrej. discriminate.
    + rewrite Hr in Hitems. injection Hitems as <-. rewrite Hp in Hbad. discriminate.
  - intros s o. subst o. rewrite adapter_balance_run. cbv zeta.
    cbn [result world self trace sent tick].
    split; [|split; [reflexivity|]].
    + destruct (reply_alpha_asset env _); [eauto|].
      destruct (parse_balances _ _ _); eauto.
    + exists (exchange_milliseconds env (ticks w)). split; [reflexivity|].
      intros e [Hrej | (items & Hitems & Hbad)].
      * rewrite Hrej. reflexivity.
      * rewrite Hitems, Hbad. reflexivity.
Qed.

Lemma balance_reads_handle_errors_witness :
  result (BinanceExchange.fetch_funding_balance (Bench.env_down []) Bench.w0
            (BinanceExchange.set_funding_balance_cache
               {| BinanceExchange.timestamp := 1704060000;
                  BinanceExchange.data := {[ "USDT" := 5%float ]} |}
               (Bench.exchange0 30))) = inr {[ "USDT" := 5%float ]} /\
  self (BinanceExchange.fetch_funding_balance (Bench.env_down []) Bench.w0
          (BinanceExchange.set_funding_balance_cache
             {| BinanceExchange.timestamp := 1704060000;
                BinanceExchange.data := {[ "USDT" := 5%float ]} |}
             (Bench.exchange0 30))) =
    BinanceExchange.set_funding_balance_cache
      {| BinanceExchange.timestamp := 1704060000;
         BinanceExchange.data := {[ "USDT" := 5%float ]} |}
      (Bench.exchange0 30).
Proof.
  destruct (proj1 (balance_reads_handle_errors (Bench.env_down []) Bench.w0)
              (BinanceExchange.set_funding_balance_cache
                 {| BinanceExchange.timestamp := 1704060000;
                    BinanceExchange.data := {[ "USDT" := 5%float ]} |}
                 (Bench.exchange0 30)))
    as (_ & _ & _ & Hrejected).
  apply (Hrejected 1704067199000 (RequestError (-1003))).
  - vm_compute. reflexivity.
  - left. vm_compute. reflexivity.
Defined.

(** X3. The balance cache of [BinanceExchange]: an entry younger than
    [cache_ttl] is returned as it is, without a request and without a
    change, even when the gateway is down; so after a read that fetched and
    stored the balances [b], a read that comes within [cache_ttl] seconds
    returns [b] and the two reads have sent one balance request, and a read
    that comes [cache_ttl] seconds or more later sends a second one. *)
Theorem balance_cache_within_ttl (env : Env) :
  (forall w s,
      BinanceExchange.enable_savings s = true ->
      (time_time env (ticks w)
         - BinanceExchange.timestamp (BinanceExchange.funding_balance_cache s)
       <? BinanceExchange.cache_ttl s)%float = true ->
      BinanceExchange.fetch_funding_balance env w s =
        {| result := inr (BinanceExchange.data (BinanceExchange.funding_balance_cache s));
           world := tick w; self := s |}) /\
  (forall w s items b,
      BinanceExchange.enable_savings s = true ->
      clock_sane env s ->
      (time_time env (ticks w)
         - BinanceExchange.timestamp (BinanceExchange.funding_balance_cache s)
       <? BinanceExchange.cache_ttl s)%float = false ->
      let o1 := BinanceExchange.fetch_funding_balance env w s in
      reply_alpha_asset env (trace (world o1)) = inr items ->
      parse_balances (float_of_str env) items ∅ = inr b ->
      let o2 := BinanceExchange.fetch_funding_balance env (world o1) (self o1) in
      let t1 := time_time env (ticks w) in
      let t2 := time_time env (ticks (world o1)) in
      ((t2 - t1 <? BinanceExchange.cache_ttl s)%float = true ->
       result o2 = inr b /\ self o2 = self o1 /\
       balance_fetches (trace (world o2)) = (balance_fetches (trace w) + 1)%nat) /\
      ((BinanceExchange.cache_ttl s <=? t2 - t1)%float = true ->
       balance_fetches (trace (world o2)) = (balance_fetches (trace w) + 2)%nat)).
Proof.
  split.
  - intros w s Hon Hfresh. rewrite exchange_balance_run. cbv zeta.
    rewrite Hon, Hfresh. reflexivity.
  - intros w s items b Hon Hsane Hstale o1 Hreply Hparse o2 t1 t2.
    destruct (exchange_stale_read env w s Hon Hstale Hsane) as (ts & Htr & Hcases).
    fold o1 in Htr, Hcases. rewrite Hreply, Hparse in Hcases.
    destruct Hcases as [Hres Hcache].
    destruct (exchange_balance_run_cases env w s) as [_ Hkeep].
    fold o1 in Hkeep.
    pose proof (f_equal BinanceExchange.enable_savings Hkeep) as Hon1.
    pose proof (f_equal BinanceExchange.cache_ttl Hkeep) as Httl.
    pose proof (f_equal BinanceExchange.time_diff Hkeep) as Hdiff.
    cbn [BinanceExchange.set_funding_balance_cache BinanceExchange.enable_savings
         BinanceExchange.cache_ttl BinanceExchange.time_diff] in Hon1, Httl, Hdiff.
    rewrite Hon in Hon1.
    split.
    + intros Hin. subst o2. rewrite exchange_balance_run. cbv zeta.
      rewrite Hon1, Hcache, Httl. simpl negb. cbv iota.
      cbn [BinanceExchange.timestamp BinanceExchange.data]. fold t1 t2. rewrite Hin.
      cbn [result self world trace tick]. rewrite Htr.
      split; [reflexivity|]. split; [reflexivity|].
      unfold balance_fetches. simpl. lia.
    + intros Hout. apply leb_not_ltb in Hout.
      assert (Hsane1 : clock_sane env (self o1)).
      { intros k. rewrite Hdiff. apply Hsane. }
      assert (Hstale1 :
        (time_time env (ticks (world o1))
           - BinanceExchange.timestamp (BinanceExchange.funding_balance_cache (self o1))
         <? BinanceExchange.cache_ttl (self o1))%float = false).
      { rewrite Hcache, Httl. exact Hout. }
      destruct (exchange_stale_read env (world o1) (self o1) Hon1 Hstale1 Hsane1)
        as (ts2 & Htr2 & _).
      fold o2 in Htr2. rewrite Htr2, Htr. unfold balance_fetches. simpl. lia.
Qed.

Lemma balance_cache_within_ttl_witness :
  BinanceExchange.fetch_funding_balance (Bench.env_down []) Bench.w0
    (BinanceExchange.set_funding_balance_cache
       {| BinanceExchange.timestamp := 1704067190;
          BinanceExchange.data := {[ "USDT" := 5%float ]} |}
       (Bench.exchange0 30)) =
    {| result := inr {[ "USDT" := 5%float ]};
       world := tick Bench.w0;
       self := BinanceExchange.set_funding_balance_cache
                 {| BinanceExchange.timestamp := 1704067190;
                    BinanceExchange.data := {[ "USDT" := 5%float ]} |}
                 (Bench.exchange0 30) |}.
Proof.
  apply (proj1 (balance_cache_within_ttl (Bench.env_down [])) Bench.w0).
  - reflexivity.
  - vm_compute. reflexivity.
Defined.

Lemma positive_balances_empty : positive_balances ∅.
Proof. intros k a Hk. rewrite lookup_empty in Hk. discriminate. Qed.

Lemma parse_balances_positive fos (items : list AlphaAsset) (b : BalanceMap) :
  parse_balances fos items ∅ = inr b -> positive_balances b.
Proof.
  intros Hp k a Hk.
  destruct (parse_balances_sound fos items ∅ b Hp k a Hk) as [H|(i & _ & Hkey & _ & Hpos)].
  - rewrite lookup_empty in H. discriminate.
  - split; [exact Hpos | exact (asset_key_nonempty _ _ Hkey)].
Qed.

(** X4. Only positive balances are ever reported or cached:
    [BinanceAdapter.fetch_funding_balance] returns a map whose amounts are
    all positive and whose codes are not empty, and in [BinanceExchange] the
    cached balance map has this property from [__init__] on, through every
    read and every transfer, as has every map a read returns. *)
Theorem balances_stay_positive (env : Env) (w : World) :
  (forall s b,
      result (BinanceAdapter.fetch_funding_balance env w s) = inr b ->
      positive_balances b) /\
  (forall enabled ttl diff,
      positive_balances
        (BinanceExchange.data
           (BinanceExchange.funding_balance_cache (BinanceExchange.init enabled ttl diff)))) /\
  (forall s,
      positive_balances (BinanceExchange.data (BinanceExchange.funding_balance_cache s)) ->
      let o := BinanceExchange.fetch_funding_balance env w s in
      positive_balances
        (BinanceExchange.data (BinanceExchange.funding_balance_cache (self o))) /\
      forall b, result o = inr b -> positive_balances b) /\
  (forall side asset amount s,
      positive_balances (BinanceExchange.data (BinanceExchange.funding_balance_cache s)) ->
      positive_balances
        (BinanceExchange.data
           (BinanceExchange.funding_balance_cache
              (self (BinanceExchange.alpha_transfer side asset amount env w s))))).
Proof.
  split; [|split; [|split]].
  - intros s b. rewrite adapter_balance_run. cbv zeta. simpl.
    destruct (reply_alpha_asset env _) as [e|items].
    { intros [= <-]. apply positive_balances_empty. }
    destruct (parse_balances _ items ∅) as [e|b'] eqn:Hp.
    { intros [= <-]. apply positive_balances_empty. }
    intros [= <-]. exact (parse_balances_positive _ _ _ Hp).
  - intros enabled ttl diff. apply positive_balances_empty.
  - intros s Hpos o. subst o. rewrite exchange_balance_run. cbv zeta.
    destruct (negb _).
    { simpl. split; [exact Hpos|]. intros b [= <-]. apply positive_balances_empty. }
    destruct (_ <? _)%float.
    { simpl. split; [exact Hpos|]. intros b [= <-]. exact Hpos. }
    destruct (py_int _).
    { simpl. split; [exact Hpos|]. intros b [= <-]. exact Hpos. }
    destruct (reply_alpha_asset env _) as [e|items].
    { simpl. split; [exact Hpos|]. intros b [= <-]. exact Hpos. }
    destruct (parse_balances _ items ∅) as [e|b'] eqn:Hp.
    { simpl. split; [exact Hpos|]. intros b [= <-]. exact Hpos. }
    simpl. pose proof (parse_balances_positive _ _ _ Hp) as Hb.
    split; [exact Hb|]. intros b [= <-]. exact Hb.
  - intros side asset amount s Hpos.
    destruct (result (BinanceExchange.alpha_transfer side asset amount env w s))
      as [e|reply] eqn:Hres.
    + destruct (exchange_failed_transfer side asset amount env w s e Hres) as (_ & Hf & _).
      rewrite Hf. exact Hpos.
    + destruct (exchange_transfer_success side asset amount env w s reply Hres) as (Hf & _).
      rewrite Hf. apply positive_balances_empty.
Qed.

Lemma balances_stay_positive_witness :
  result (BinanceExchange.fetch_funding_balance (Bench.env_ok [] None) Bench.w0
            (Bench.exchange0 30)) = inr {[ "USDT" := 5%float ]} /\
  positive_balances {[ "USDT" := 5%float ]}.
Proof.
  assert (Hres : result (BinanceExchange.fetch_funding_balance (Bench.env_ok [] None)
                           Bench.w0 (Bench.exchange0 30)) = inr {[ "USDT" := 5%float ]})
    by (vm_compute; reflexivity).
  split; [exact Hres|].
  apply (proj2 (proj1 (proj2 (proj2 (balances_stay_positive (Bench.env_ok [] None) Bench.w0)))
                  (Bench.exchange0 30)
                  (proj1 (proj2 (balances_stay_positive (Bench.env_ok [] None) Bench.w0))
                     true 30%float 0%float))).
  exact Hres.
Defined.

(** ** What an accepted transfer has done *)

Lemma format_precision_ok (v : float) (z : Z) (s : string) :
  format_precision v z = inr s -> exists n, z = Z.of_nat n /\ s = format_f v n.
Proof.
  unfold format_precision. destruct (Z.ltb_spec z 0) as [Hneg|Hpos]; [discriminate|].
  destruct (PY_SSIZE_T_MAX <? z); [discriminate|].
  destruct (INT_MAX <? z); [discriminate|].
  intros [= <-]. exists (Z.to_nat z). split; [lia | reflexivity].
Qed.

Lemma exchange_catalog_sends env w s info :
  let oc := BinanceExchange.alpha_exchange_info env w s in
  result oc = inr info ->
  exists fetchedAt catalog_request,
    BinanceExchange._alpha_exchange_cache (self oc) = Some (fetchedAt, info) /\
    sends oc w catalog_request /\
    (catalog_request = [] \/ exists ts, catalog_request = [GetExchangeInfo ts 5000]).
Proof.
  cbv zeta. unfold sends.
  destruct (catalog_fresh (time_time env (ticks w))
              (BinanceExchange._alpha_exchange_cache s)) eqn:Hf.
  - destruct (BinanceExchange._alpha_exchange_cache s) as [[t i]|] eqn:Hc; [|discriminate].
    rewrite (exchange_catalog_hit env w s t i Hc Hf). simpl. intros [= ->].
    exists t, []. auto.
  - rewrite (exchange_catalog_miss env w s Hf).
    destruct (py_int _) as [e|ts]; [discriminate|]. simpl.
    destruct (reply_exchange_info env _) as [e|i]; [discriminate|].
    intros [= ->]. exists (time_time env (ticks w)), [GetExchangeInfo ts 5000].
    split; [reflexivity|]. split; [reflexivity|]. eauto.
Qed.

Lemma adapter_catalog_sends env w s info :
  let oc := BinanceAdapter.get_alpha_exchange_info env w s in
  result oc = inr info ->
  exists fetchedAt catalog_request,
    BinanceAdapter._alpha_exchange_cache (self oc) = Some (fetchedAt, info) /\
    sends oc w catalog_request /\
    (catalog_request = [] \/ exists ts, catalog_request = [GetExchangeInfo ts 5000]).
Proof.
  cbv zeta. unfold sends.
  destruct (catalog_fresh (time_time env (ticks w))
              (BinanceAdapter._alpha_exchange_cache s)) eqn:Hf.
  - destruct (BinanceAdapter._alpha_exchange_cache s) as [[t i]|] eqn:Hc; [|discriminate].
    rewrite (adapter_catalog_hit env w s t i Hc Hf). simpl. intros [= ->].
    exists t, []. auto.
  - rewrite (adapter_catalog_miss env w s Hf). simpl.
    destruct (reply_exchange_info env _) as [e|i]; [discriminate|].
    intros [= ->]. eexists _, [GetExchangeInfo _ 5000].
    split; [reflexivity|]. split; [reflexivity|]. eauto.
Qed.

Lemma exchange_ticker_ok sym env w s pv :
  let o := BinanceExchange._get_alpha_ticker_price sym env w s in
  result o = inr pv ->
  exists ts ticker,
    trace (world o) = GetTickerPrice sym ts 5000 :: trace w /\
    reply_ticker_price env (trace (world o)) = inr ticker /\
    ticker_price (float_of_str env) ticker = inr pv.
Proof.
  cbv zeta. rewrite exchange_ticker_run.
  destruct (py_int _) as [e|ts]; [discriminate|]. simpl.
  destruct (reply_ticker_price env _) as [e|ticker] eqn:Hr; [discriminate|].
  intros Hp. exists ts, ticker. auto.
Qed.

Lemma adapter_ticker_ok sym env w s pv :
  let o := BinanceAdapter.get_alpha_ticker_price sym env w s in
  result o = inr pv ->
  exists ticker,
    trace (world o) =
      GetTickerPrice sym (exchange_milliseconds env (ticks w)) 5000 :: trace w /\
    reply_ticker_price env (trace (world o)) = inr ticker /\
    ticker_price (float_of_str env) ticker = inr pv.
Proof.
  cbv zeta. rewrite adapter_ticker_run. simpl.
  destruct (reply_ticker_price env _) as [e|ticker] eqn:Hr; [discriminate|].
  intros Hp. exists ticker. auto.
Qed.

(** X5. What a transfer of [BinanceExchange] that returns has done.  It
    resolved the first TRADING instrument for the asset in the catalog the
    cache now holds; it sent, in this order, at most one catalog request,
    one ticker request for the symbol of that instrument and one order; the
    ticker's price parsed to a number that is not [<= 0]; the order names the
    base asset of the instrument, the asset as quote asset, the side of the
    method, the quantity [amount / price] and the price, each rendered at the
    precision of the instrument (8 when the key is absent), and
    [recvWindow] 5000; and the value returned is the gateway's reply to that
    order. *)
Theorem accepted_transfer_order (side : Side) (asset : string) (amount : float)
    (env : Env) (w : World) (s : BinanceExchange.t) (reply : OrderReply) :
  let o := BinanceExchange.alpha_transfer side asset amount env w s in
  result o = inr reply ->
  exists fetchedAt info si sym base pv qp pp ts_order ts_price catalog_request ticker,
    BinanceExchange._alpha_exchange_cache (self o) = Some (fetchedAt, info) /\
    first_trading asset (symbols_of info) si /\
    symbol si = Some sym /\ baseAsset si = Some base /\
    get_default (quantityPrecision si) 8 = Z.of_nat qp /\
    get_default (pricePrecision si) 8 = Z.of_nat pp /\
    (catalog_request = [] \/ exists ts, catalog_request = [GetExchangeInfo ts 5000]) /\
    reply_ticker_price env
      (GetTickerPrice sym ts_price 5000 :: catalog_request ++ trace w) = inr ticker /\
    ticker_price (float_of_str env) ticker = inr pv /\
    (pv <=? 0)%float = false /\
    sends o w
      (PlaceOrder {| o_baseAsset := base; o_quoteAsset := asset; o_side := side;
                     o_quantity := format_f (amount / pv) qp;
                     o_price := format_f pv pp;
                     o_timestamp := ts_order; o_recvWindow := 5000 |}
       :: GetTickerPrice sym ts_price 5000 :: catalog_request) /\
    reply_place_order env (trace (world o)) = inr reply.
Proof.
  cbv zeta. unfold sends. rewrite exchange_transfer_run.
  destruct (negb _); [discriminate|]. cbv zeta.
  rewrite exchange_symbol_info_run. cbn [result world self].
  pose proof (exchange_catalog_sends env w s) as Hcat. cbv zeta in Hcat. unfold sends in Hcat.
  destruct (result (BinanceExchange.alpha_exchange_info env w s)) as [e|info];
    [discriminate|].
  destruct (Hcat info eq_refl) as (t & creq & Hcache & Htr & Hcreq).
  destruct (BinanceExchange.scan_symbols asset (symbols_of info)) as [e|si] eqn:Hscan;
    [discriminate|].
  apply scan_symbols_first in Hscan.
  destruct (symbol si) as [sym|] eqn:Hsym; [|discriminate].
  pose proof (exchange_ticker_ok sym env
                (world (BinanceExchange.alpha_exchange_info env w s))
                (self (BinanceExchange.alpha_exchange_info env w s))) as Htick.
  cbv zeta in Htick.
  destruct (result (BinanceExchange._get_alpha_ticker_price sym env _ _)) as [e|pv];
    [discriminate|].
  destruct (Htick pv eq_refl) as (tsp & ticker & Htr2 & Hreply2 & Hparse).
  destruct (pv <=? 0)%float eqn:Hpos; [discriminate|].
  destruct (format_precision (amount / pv) _) as [e|quantity] eqn:Hq; [discriminate|].
  destruct (format_precision pv _) as [e|price] eqn:Hp; [discriminate|].
  apply format_precision_ok in Hq as (qp & Hqp & ->).
  apply format_precision_ok in Hp as (pp & Hpp & ->).
  destruct (baseAsset si) as [base|] eqn:Hbase; [|discriminate].
  destruct (py_int _) as [e|tso]; [discriminate|].
  destruct (reply_place_order env _) as [e|r] eqn:Hr; [discriminate|].
  cbn [result world self trace sent tick]. intros [= <-].
  rewrite Htr2, Htr in Hreply2, Hr. rewrite Htr2, Htr.
  exists t, info, si, sym, base, pv, qp, pp, tso, tsp, creq, ticker.
  repeat (split; [assumption || reflexivity|]). exact Hr.
Qed.

Lemma accepted_transfer_order_witness :
  exists order ts sym catalog_request,
    sends (BinanceExchange.alpha_transfer BUY "USDT" 100
             (Bench.env_ok [] (Some (PyStr "2.5"))) Bench.w0 (Bench.exchange0 30))
      Bench.w0
      (PlaceOrder order :: GetTickerPrice sym ts 5000 :: catalog_request) /\
    o_quoteAsset order = "USDT" /\ o_side order = BUY /\ o_recvWindow order = 5000.
Proof.
  destruct (accepted_transfer_order BUY "USDT" 100 (Bench.env_ok [] (Some (PyStr "2.5")))
              Bench.w0 (Bench.exchange0 30) {[ "orderId" := PyInt 42 ]})
    as (fetchedAt & info & si & sym & base & pv & qp & pp & ts_order & ts_price
        & catalog_request & ticker & _ & _ & _ & _ & _ & _ & _ & _ & _ & _ & Hsends & _).
  - vm_compute. reflexivity.
  - eexists _, ts_price, sym, catalog_request. split; [exact Hsends|].
    split; [reflexivity|]. split; reflexivity.
Defined.

Lemma adapter_build_ok q amount env w s base quote price quantity :
  let o := BinanceAdapter._build_alpha_order q amount env w s in
  result o = inr (base, quote, price, quantity) ->
  exists fetchedAt info si sym pv qp pp catalog_request ticker,
    BinanceAdapter._alpha_exchange_cache (self o) = Some (fetchedAt, info) /\
    first_trading q (symbols_of info) si /\
    symbol si = Some sym /\ baseAsset si = Some base /\ quote = q /\
    get_default (quantityPrecision si) 8 = Z.of_nat qp /\
    get_default (pricePrecision si) 8 = Z.of_nat pp /\
    (catalog_request = [] \/ exists ts, catalog_request = [GetExchangeInfo ts 5000]) /\
    (exists ts, sends o w (GetTickerPrice sym ts 5000 :: catalog_request)) /\
    reply_ticker_price env (trace (world o)) = inr ticker /\
    ticker_price (float_of_str env) ticker = inr pv /\
    (pv <=? 0)%float = false /\
    price = format_f pv pp /\ quantity = format_f (amount / pv) qp.
Proof.
  cbv zeta. unfold sends. rewrite adapter_build_run. cbv zeta.
  pose proof (adapter_catalog_sends env w s) as Hcat. cbv zeta in Hcat. unfold sends in Hcat.
  destruct (result (BinanceAdapter.get_alpha_exchange_info env w s)) as [e|info];
    [discriminate|].
  destruct (Hcat info eq_refl) as (t & creq & Hcache & Htr & Hcreq).
  destruct (BinanceAdapter.next_trading q (symbols_of info)) as [si|] eqn:Hnext;
    [|discriminate].
  apply next_trading_first in Hnext.
  rewrite adapter_priced_order_run.
  destruct (symbol si) as [sym|] eqn:Hsym; [|discriminate]. cbv zeta.
  pose proof (adapter_ticker_ok sym env
                (world (BinanceAdapter.get_alpha_exchange_info env w s))
                (self (BinanceAdapter.get_alpha_exchange_info env w s))) as Htick.
  cbv zeta in Htick. cbn [result world self].
  destruct (result (BinanceAdapter.get_alpha_ticker_price sym env _ _)) as [e|pv];
    [discriminate|].
  destruct (Htick pv eq_refl) as (ticker & Htr2 & Hreply2 & Hparse).
  destruct (pv <=? 0)%float eqn:Hpos; [discriminate|].
  destruct (format_precision pv _) as [e|price'] eqn:Hp; [discriminate|].
  destruct (format_precision (amount / pv) _) as [e|quantity'] eqn:Hq; [discriminate|].
  apply format_precision_ok in Hq as (qp & Hqp & ->).
  apply format_precision_ok in Hp as (pp & Hpp & ->).
  destruct (baseAsset si) as [base'|] eqn:Hbase; [|discriminate].
  cbn [getitem]. intros [= <- <- <- <-].
  exists t, info, si, sym, pv, qp, pp, creq, ticker.
  rewrite Htr2, Htr in *.
  repeat (split; [assumption || reflexivity || eauto|]). reflexivity.
Qed.

Lemma placed_app (a b : list Request) : placed (a ++ b) = (placed a ++ placed b)%list.
Proof. unfold placed. apply omap_app. Qed.

(** X6. [transfer_to_funding] and [transfer_to_spot] of [BinanceAdapter]
    return [True] exactly when the order they sent was accepted.  A call that
    returns [True] has resolved the first TRADING instrument for the asset in
    the catalog the cache now holds; it has sent, in this order, at most one
    catalog request, one ticker request for the symbol of that instrument and
    one order; the price is the one parsed from the gateway's reply to that
    ticker request, and is not [<= 0]; and the order names the base asset of
    the instrument, the quantity [amount / price] and the price at the
    precisions of the instrument, and [recvWindow] 5000. *)
Theorem adapter_transfer_true_iff_accepted (side : Side) (asset : string) (amount : float)
    (env : Env) (w : World) (s : BinanceAdapter.t) :
  let o := BinanceAdapter.alpha_order side asset amount env w s in
  (result o = inr true ->
   exists fetchedAt info si sym base pv qp pp ts_order ts_price catalog_request ticker
          reply,
     BinanceAdapter._alpha_exchange_cache (self o) = Some (fetchedAt, info) /\
     first_trading asset (symbols_of info) si /\
     symbol si = Some sym /\ baseAsset si = Some base /\
     get_default (quantityPrecision si) 8 = Z.of_nat qp /\
     get_default (pricePrecision si) 8 = Z.of_nat pp /\
     (catalog_request = [] \/ exists ts, catalog_request = [GetExchangeInfo ts 5000]) /\
     reply_ticker_price env
       (GetTickerPrice sym ts_price 5000 :: catalog_request ++ trace w) = inr ticker /\
     ticker_price (float_of_str env) ticker = inr pv /\
     (pv <=? 0)%float = false /\
     sends o w
       (PlaceOrder {| o_baseAsset := base; o_quoteAsset := asset; o_side := side;
                      o_quantity := format_f (amount / pv) qp;
                      o_price := format_f pv pp;
                      o_timestamp := ts_order; o_recvWindow := 5000 |}
        :: GetTickerPrice sym ts_price 5000 :: catalog_request) /\
     reply_place_order env (trace (world o)) = inr reply) /\
  (forall p rest reply,
      sends o w (PlaceOrder p :: rest) ->
      reply_place_order env (trace (world o)) = inr reply ->
      result o = inr true).
Proof.
  cbv zeta. unfold sends. rewrite adapter_transfer_run. cbv zeta.
  pose proof (adapter_build_ok asset amount env w s) as Hok. cbv zeta in Hok.
  unfold sends in Hok.
  pose proof (adapter_build_placed asset amount env w s) as Hplaced.
  destruct (BinanceAdapter._build_alpha_order asset amount env w s)
    as [[e|[[[base quote] price] quantity]] w1 s1]; cbn [result world self] in *.
  - split; [discriminate|].
    intros p rest reply Htr _. rewrite Htr in Hplaced.
    change (PlaceOrder p :: rest ++ trace w)%list
      with ((PlaceOrder p :: rest) ++ trace w)%list in Hplaced.
    rewrite placed_app in Hplaced. apply (f_equal length) in Hplaced.
    rewrite length_app in Hplaced. simpl in Hplaced. lia.
  - destruct (Hok base quote price quantity eq_refl)
      as (t & info & si & sym & pv & qp & pp & creq & ticker & Hcache & Hfirst & Hsym &
          Hbase & -> & Hqp & Hpp & Hcreq & [tsp Htr] & Hticker & Hparse & Hpos & -> & ->).
    cbn [trace sent tick]. split.
    + destruct (reply_place_order env _) as [e|r] eqn:Hr; [discriminate|]. intros _.
      rewrite Htr in *.
      exists t, info, si, sym, base, pv, qp, pp.
      exists (exchange_milliseconds env (ticks w1)), tsp, creq, ticker, r.
      repeat (split; [assumption || reflexivity|]). reflexivity.
    + intros p rest reply _ ->. reflexivity.
Qed.

Lemma adapter_transfer_true_iff_accepted_witness :
  result (BinanceAdapter.alpha_order BUY "USDT" 100
            (Bench.env_ok [] (Some (PyStr "2.5"))) Bench.w0 Bench.adapter0) = inr true /\
  exists pv ticker sym ts catalog_request,
    reply_ticker_price (Bench.env_ok [] (Some (PyStr "2.5")))
      (GetTickerPrice sym ts 5000 :: catalog_request ++ trace Bench.w0) = inr ticker /\
    ticker_price Bench.bench_float ticker = inr pv /\
    (pv <=? 0)%float = false.
Proof.
  assert (Htrue : result (BinanceAdapter.alpha_order BUY "USDT" 100
                    (Bench.env_ok [] (Some (PyStr "2.5"))) Bench.w0 Bench.adapter0) =
                  inr true).
  { apply (proj2 (adapter_transfer_true_iff_accepted BUY "USDT" 100
                    (Bench.env_ok [] (Some (PyStr "2.5"))) Bench.w0 Bench.adapter0)
             {| o_baseAsset := "ALPHA_175"; o_quoteAsset := "USDT"; o_side := BUY;
                o_quantity := "40.0000"; o_price := "2.50";
                o_timestamp := 1704067199003; o_recvWindow := 5000 |}
             [GetTickerPrice "ALPHA_175USDT" 1704067199002 5000;
              GetExchangeInfo 1704067199001 5000]
             {[ "orderId" := PyInt 42 ]}).
    - vm_compute. reflexivity.
    - vm_compute. reflexivity. }
  split; [exact Htrue|].
  destruct (proj1 (adapter_transfer_true_iff_accepted BUY "USDT" 100
                     (Bench.env_ok [] (Some (PyStr "2.5"))) Bench.w0 Bench.adapter0) Htrue)
    as (fetchedAt & info & si & sym & base & pv & qp & pp & ts_order & ts_price
        & catalog_request & ticker & reply & _ & _ & _ & _ & _ & _ & _ & Hticker & Hparse
        & Hpos & _).
  exists pv, ticker, sym, ts_price, catalog_request.
  split; [exact Hticker|]. split; [exact Hparse | exact Hpos].
Defined.

(** ** Instruments with missing keys or a precision out of range *)

Lemma format_precision_cases (v : float) (z : Z) :
  (0 <= z <= INT_MAX /\ format_precision v z = inr (format_f v (Z.to_nat z))) \/
  (~ 0 <= z <= INT_MAX /\ exists e, format_error e /\ format_precision v z = inl e).
Proof.
  destruct (Z_le_dec 0 z) as [H0|H0]; [destruct (Z_le_dec z INT_MAX) as [H1|H1]|].
  - left. split; [lia|]. apply format_precision_in_range. lia.
  - right. assert (Hout : ~ 0 <= z <= INT_MAX) by lia. split; [exact Hout|].
    destruct (format_precision_out_of_range z Hout) as (e & He & Hraise). eauto.
  - right. assert (Hout : ~ 0 <= z <= INT_MAX) by lia. split; [exact Hout|].
    destruct (format_precision_out_of_range z Hout) as (e & He & Hraise). eauto.
Qed.

Lemma exchange_lookup_placed q env w s :
  placed (trace (world (BinanceExchange._get_alpha_symbol_info q env w s))) =
    placed (trace w).
Proof. rewrite exchange_symbol_info_run. simpl. apply exchange_catalog_placed. Qed.

(** X7. A transfer places no order for an instrument whose metadata is
    incomplete.  In [BinanceExchange], when the instrument resolved has no
    [symbol] key the transfer raises [KeyError] before the ticker request;
    when the price is valid but a precision is negative or above [INT_MAX]
    it raises a [ValueError] of the format specifier, and when both
    precisions are within 0 and [INT_MAX] but the [baseAsset] key is missing
    it raises [KeyError], in both cases after the ticker request and before
    any order.  In [BinanceAdapter] the order build raises in the same cases
    and the transfer returns [False] with no order sent. *)
Theorem incomplete_instrument_places_no_order (side : Side) (asset : string)
    (amount : float) (env : Env) (w : World) :
  (forall s si,
      BinanceExchange.enable_savings s = true ->
      let o1 := BinanceExchange._get_alpha_symbol_info asset env w s in
      result o1 = inr si ->
      let o := BinanceExchange.alpha_transfer side asset amount env w s in
      placed (trace (world o1)) = placed (trace w) /\
      (symbol si = None ->
       o = {| result := inl (KeyError "symbol"); world := world o1; self := self o1 |}) /\
      (forall sym pv,
          symbol si = Some sym ->
          let o2 := BinanceExchange._get_alpha_ticker_price sym env (world o1) (self o1) in
          result o2 = inr pv ->
          (pv <=? 0)%float = false ->
          placed (trace (world o2)) = placed (trace w) /\
          (~ 0 <= get_default (quantityPrecision si) 8 <= INT_MAX \/
           ~ 0 <= get_default (pricePrecision si) 8 <= INT_MAX ->
           exists e,
             format_error e /\
             o = {| result := inl e; world := world o2; self := self o1 |}) /\
          (0 <= get_default (quantityPrecision si) 8 <= INT_MAX ->
           0 <= get_default (pricePrecision si) 8 <= INT_MAX ->
           baseAsset si = None ->
           o = {| result := inl (KeyError "baseAsset");
                  world := world o2; self := self o1 |}))) /\
  (forall s info si,
      let oc := BinanceAdapter.get_alpha_exchange_info env w s in
      result oc = inr info ->
      first_trading asset (symbols_of info) si ->
      let ob := BinanceAdapter._build_alpha_order asset amount env w s in
      let o := BinanceAdapter.alpha_order side asset amount env w s in
      (symbol si = None ->
       ob = {| result := inl (KeyError "symbol"); world := world oc; self := self oc |} /\
       result o = inr false /\ placed (trace (world o)) = placed (trace w)) /\
      (forall sym pv,
          symbol si = Some sym ->
          let o2 := BinanceAdapter.get_alpha_ticker_price sym env (world oc) (self oc) in
          result o2 = inr pv ->
          (pv <=? 0)%float = false ->
          (~ 0 <= get_default (quantityPrecision si) 8 <= INT_MAX \/
           ~ 0 <= get_default (pricePrecision si) 8 <= INT_MAX ->
           (exists e,
              format_error e /\
              ob = {| result := inl e; world := world o2; self := self oc |}) /\
           result o = inr false /\ placed (trace (world o)) = placed (trace w)) /\
          (0 <= get_default (quantityPrecision si) 8 <= INT_MAX ->
           0 <= get_default (pricePrecision si) 8 <= INT_MAX ->
           baseAsset si = None ->
           ob = {| result := inl (KeyError "baseAsset");
                   world := world o2; self := self oc |} /\
           result o = inr false /\ placed (trace (world o)) = placed (trace w)))).
Proof.
  split.
  - intros s si Hon o1 Hsi o.
    assert (Ho : o = BinanceExchange.alpha_transfer side asset amount env w s) by reflexivity.
    rewrite exchange_transfer_run, Hon in Ho. simpl negb in Ho. cbv iota zeta in Ho.
    fold o1 in Ho. rewrite Hsi in Ho.
    split; [apply exchange_lookup_placed|]. split.
    + intros Hsym. rewrite Hsym in Ho. exact Ho.
    + intros sym pv Hsym o2 Hpv Hpos. rewrite Hsym in Ho. fold o2 in Ho.
      rewrite Hpv, Hpos in Ho.
      split; [unfold o2; rewrite exchange_ticker_placed; apply exchange_lookup_placed|].
      destruct (format_precision_cases (amount / pv) (get_default (quantityPrecision si) 8))
        as [[Hq Hfq] | (Hq & eq & Heq & Hfq)];
        rewrite Hfq in Ho.
      * destruct (format_precision_cases pv (get_default (pricePrecision si) 8))
          as [[Hp Hfp] | (Hp & ep & Hep & Hfp)];
          rewrite Hfp in Ho.
        -- split; [intros [Hout|Hout]; contradiction|].
           intros _ _ Hbase. rewrite Hbase in Ho. exact Ho.
        -- split; [intros _; exists ep; split; [exact Hep | exact Ho]|].
           intros _ Hin. contradiction.
      * split; [intros _; exists eq; split; [exact Heq | exact Ho]|].
        intros Hin. contradiction.
  - intros s info si oc Hinfo Hfirst ob o.
    assert (Hob : ob = BinanceAdapter._build_alpha_order asset amount env w s) by reflexivity.
    rewrite adapter_build_run in Hob. fold oc in Hob. cbv zeta in Hob.
    apply next_trading_first in Hfirst. rewrite Hinfo, Hfirst in Hob.
    rewrite adapter_priced_order_run in Hob.
    assert (Hfalse : forall e, result ob = inl e ->
              result o = inr false /\ placed (trace (world o)) = placed (trace w)).
    { intros e He. exact (adapter_build_failure side asset amount env w s e He). }
    split.
    + intros Hsym. rewrite Hsym in Hob. split; [exact Hob|].
      apply (Hfalse (KeyError "symbol")). rewrite Hob. reflexivity.
    + intros sym pv Hsym o2 Hpv Hpos. rewrite Hsym in Hob. cbv zeta in Hob. fold o2 in Hob.
      rewrite Hpv, Hpos in Hob.
      destruct (format_precision_cases pv (get_default (pricePrecision si) 8))
        as [[Hp Hfp] | (Hp & ep & Hep & Hfp)];
        rewrite Hfp in Hob.
      * destruct (format_precision_cases (amount / pv)
                    (get_default (quantityPrecision si) 8))
          as [[Hq Hfq] | (Hq & eq & Heq & Hfq)];
          rewrite Hfq in Hob.
        -- split; [intros [Hout|Hout]; contradiction|].
           intros _ _ Hbase. rewrite Hbase in Hob.
           split; [exact Hob|]. eapply Hfalse. rewrite Hob. reflexivity.
        -- split; [|intros Hin; contradiction].
           intros _. split; [exists eq; split; [exact Heq | exact Hob]|].
           eapply Hfalse. rewrite Hob. reflexivity.
      * split; [|intros _ Hin; contradiction].
        intros _. split; [exists ep; split; [exact Hep | exact Hob]|].
        eapply Hfalse. rewrite Hob. reflexivity.
Qed.

Lemma incomplete_instrument_witness :
  result (BinanceExchange.transfer_to_savings "USDT" 100
            (Bench.env_ok [] (Some (PyStr "2.5"))) Bench.w0
            (BinanceExchange.set_alpha_exchange_cache
               (Some (1704067190%float,
                      {| symbols :=
                           Some [{| symbol := Some "ALPHA_175USDT"; baseAsset := None;
                                    quoteAsset := Some "USDT"; status := Some "TRADING";
                                    pricePrecision := Some 2;
                                    quantityPrecision := Some 4 |}] |}))
               (Bench.exchange0 30))) = inl (KeyError "baseAsset") /\
  exists e,
    format_error e /\
    result (BinanceExchange.transfer_to_savings "USDT" 100
              (Bench.env_ok [] (Some (PyStr "2.5"))) Bench.w0
              (BinanceExchange.set_alpha_exchange_cache
                 (Some (1704067190%float,
                        {| symbols :=
                             Some [{| symbol := Some "ALPHA_175USDT";
                                      baseAsset := Some "ALPHA_175";
                                      quoteAsset := Some "USDT"; status := Some "TRADING";
                                      pricePrecision := Some 2;
                                      quantityPrecision := Some 2147483648 |}] |}))
                 (Bench.exchange0 30))) = inl e.
Proof.
  split.
  - destruct (proj1 (incomplete_instrument_places_no_order BUY "USDT" 100
                       (Bench.env_ok [] (Some (PyStr "2.5"))) Bench.w0)
                (BinanceExchange.set_alpha_exchange_cache
                   (Some (1704067190%float,
                          {| symbols :=
                               Some [{| symbol := Some "ALPHA_175USDT"; baseAsset := None;
                                        quoteAsset := Some "USDT"; status := Some "TRADING";
                                        pricePrecision := Some 2;
                                        quantityPrecision := Some 4 |}] |}))
                   (Bench.exchange0 30))
                {| symbol := Some "ALPHA_175USDT"; baseAsset := None;
                   quoteAsset := Some "USDT"; status := Some "TRADING";
                   pricePrecision := Some 2; quantityPrecision := Some 4 |})
      as (_ & _ & Hpriced).
    + reflexivity.
    + vm_compute. reflexivity.
    + destruct (Hpriced "ALPHA_175USDT" 2.5%float) as (_ & _ & Hbase).
      * reflexivity.
      * vm_compute. reflexivity.
      * vm_compute. reflexivity.
      * refine (f_equal result (Hbase _ _ eq_refl)); unfold INT_MAX; simpl; lia.
  - destruct (proj1 (incomplete_instrument_places_no_order BUY "USDT" 100
                       (Bench.env_ok [] (Some (PyStr "2.5"))) Bench.w0)
                (BinanceExchange.set_alpha_exchange_cache
                   (Some (1704067190%float,
                          {| symbols :=
                               Some [{| symbol := Some "ALPHA_175USDT";
                                        baseAsset := Some "ALPHA_175";
                                        quoteAsset := Some "USDT"; status := Some "TRADING";
                                        pricePrecision := Some 2;
                                        quantityPrecision := Some 2147483648 |}] |}))
                   (Bench.exchange0 30))
                {| symbol := Some "ALPHA_175USDT"; baseAsset := Some "ALPHA_175";
                   quoteAsset := Some "USDT"; status := Some "TRADING";
                   pricePrecision := Some 2; quantityPrecision := Some 2147483648 |})
      as (_ & _ & Hpriced).
    + reflexivity.
    + vm_compute. reflexivity.
    + destruct (Hpriced "ALPHA_175USDT" 2.5%float) as (_ & Hformat & _).
      * reflexivity.
      * vm_compute. reflexivity.
      * vm_compute. reflexivity.
      * destruct Hformat as (e & He & Ho).
        { left. unfold INT_MAX. simpl. lia. }
        exists e. split; [exact He | exact (f_equal result Ho)].
Defined.

(** ** What a method leaves alone *)

Lemma exchange_transfer_after_catalog side asset amount env w s :
  BinanceExchange.enable_savings s = true ->
  let oc := BinanceExchange.alpha_exchange_info env w s in
  let o := BinanceExchange.alpha_transfer side asset amount env w s in
  catalog_fetches (trace (world o)) = catalog_fetches (trace (world oc)) /\
  balance_fetches (trace (world o)) = balance_fetches (trace (world oc)) /\
  BinanceExchange._alpha_exchange_cache (self o) =
    BinanceExchange._alpha_exchange_cache (self oc).
Proof.
  intros Hon. cbv zeta. rewrite exchange_transfer_run, Hon. simpl negb. cbv iota zeta.
  rewrite exchange_symbol_info_run. cbv zeta. cbn [result world self].
  destruct (BinanceExchange.alpha_exchange_info env w s) as [[e|info] w1 s1];
    cbn [result world self]; [auto|].
  destruct (BinanceExchange.scan_symbols asset (symbols_of info)) as [e|si]; [auto|].
  destruct (symbol si) as [sym|]; [|auto].
  rewrite exchange_ticker_run.
  split_matches; auto.
Qed.

Lemma exchange_catalog_balance_fetches env w s :
  balance_fetches (trace (world (BinanceExchange.alpha_exchange_info env w s))) =
    balance_fetches (trace w).
Proof.
  destruct (catalog_fresh (time_time env (ticks w))
              (BinanceExchange._alpha_exchange_cache s)) eqn:Hf.
  - destruct (BinanceExchange._alpha_exchange_cache s) as [[t i]|] eqn:Hc; [|discriminate].
    rewrite (exchange_catalog_hit env w s t i Hc Hf). reflexivity.
  - rewrite (exchange_catalog_miss env w s Hf). destruct (py_int _); reflexivity.
Qed.

Lemma adapter_transfer_after_catalog side asset amount env w s :
  let oc := BinanceAdapter.get_alpha_exchange_info env w s in
  let o := BinanceAdapter.alpha_order side asset amount env w s in
  catalog_fetches (trace (world o)) = catalog_fetches (trace (world oc)) /\
  balance_fetches (trace (world o)) = balance_fetches (trace (world oc)) /\
  self o = self oc.
Proof.
  cbv zeta. rewrite adapter_transfer_run, adapter_build_run. cbv zeta.
  destruct (BinanceAdapter.get_alpha_exchange_info env w s) as [[e|info] w1 s1];
    cbn [result world self]; [auto|].
  destruct (BinanceAdapter.next_trading asset (symbols_of info)) as [si|];
    cbn [result world self]; [|auto].
  rewrite adapter_priced_order_run.
  destruct (symbol si) as [sym|]; cbn [result world self]; [|auto].
  rewrite adapter_ticker_run.
  split_matches; auto.
Qed.

Lemma adapter_catalog_balance_fetches env w s :
  balance_fetches (trace (world (BinanceAdapter.get_alpha_exchange_info env w s))) =
    balance_fetches (trace w).
Proof.
  destruct (catalog_fresh (time_time env (ticks w))
              (BinanceAdapter._alpha_exchange_cache s)) eqn:Hf.
  - destruct (BinanceAdapter._alpha_exchange_cache s) as [[t i]|] eqn:Hc; [|discriminate].
    rewrite (adapter_catalog_hit env w s t i Hc Hf). reflexivity.
  - rewrite (adapter_catalog_miss env w s Hf). reflexivity.
Qed.

(** X8. Transfers and balance reads keep to their own requests and caches.
    A transfer of either connector sends no balance request, and changes the
    catalog cache only through its catalog step: with a catalog entry younger
    than 30 seconds it sends no catalog request and leaves the entry as it
    is.  A transfer of [BinanceExchange] never changes
    [enable_savings], [cache_ttl] or [time_diff].  A balance read of either
    connector sends no catalog request and no order. *)
Theorem transfers_and_reads_keep_apart (side : Side) (asset : string) (amount : float)
    (env : Env) (w : World) :
  (forall s,
      let o := BinanceExchange.alpha_transfer side asset amount env w s in
      balance_fetches (trace (world o)) = balance_fetches (trace w) /\
      BinanceExchange.enable_savings (self o) = BinanceExchange.enable_savings s /\
      BinanceExchange.cache_ttl (self o) = BinanceExchange.cache_ttl s /\
      BinanceExchange.time_diff (self o) = BinanceExchange.time_diff s /\
      forall fetchedAt info,
        BinanceExchange._alpha_exchange_cache s = Some (fetchedAt, info) ->
        (time_time env (ticks w) - fetchedAt <? 30)%float = true ->
        catalog_fetches (trace (world o)) = catalog_fetches (trace w) /\
        BinanceExchange._alpha_exchange_cache (self o) = Some (fetchedAt, info)) /\
  (forall s,
      let o := BinanceAdapter.alpha_order side asset amount env w s in
      balance_fetches (trace (world o)) = balance_fetches (trace w) /\
      forall fetchedAt info,
        BinanceAdapter._alpha_exchange_cache s = Some (fetchedAt, info) ->
        (time_time env (ticks w) - fetchedAt <? 30)%float = true ->
        catalog_fetches (trace (world o)) = catalog_fetches (trace w) /\
        self o = s) /\
  (forall s,
      let o := BinanceExchange.fetch_funding_balance env w s in
      catalog_fetches (trace (world o)) = catalog_fetches (trace w) /\
      placed (trace (world o)) = placed (trace w)) /\
  (forall s,
      let o := BinanceAdapter.fetch_funding_balance env w s in
      catalog_fetches (trace (world o)) = catalog_fetches (trace w) /\
      placed (trace (world o)) = placed (trace w)).
Proof.
  split; [|split; [|split]].
  - intros s o.
    destruct (BinanceExchange.enable_savings s) eqn:Hon.
    + destruct (exchange_transfer_after_catalog side asset amount env w s Hon)
        as (Hcat & Hbal & Hcache). fold o in Hcat, Hbal, Hcache.
      split; [rewrite Hbal; apply exchange_catalog_balance_fetches|].
      assert (Hkeep :
        BinanceExchange.enable_savings (self o) = BinanceExchange.enable_savings s /\
        BinanceExchange.cache_ttl (self o) = BinanceExchange.cache_ttl s /\
        BinanceExchange.time_diff (self o) = BinanceExchange.time_diff s).
      { destruct (result o) as [e|reply] eqn:Hres.
        - subst o. revert Hres. rewrite exchange_transfer_run, Hon. simpl negb.
          cbv iota zeta.
          pose proof (exchange_symbol_info_keeps asset env w s) as Hk. cbv zeta in Hk.
          rewrite Hon in Hk.
          split_matches; intros; try discriminate; tauto.
        - destruct (exchange_transfer_success side asset amount env w s reply Hres)
            as (_ & _ & He & Ht & Hd). fold o in He, Ht, Hd. rewrite Hon. auto. }
      destruct Hkeep as (He & Ht & Hd). rewrite Hon in He.
      split; [exact He|]. split; [exact Ht|]. split; [exact Hd|].
      intros t info Hc Hf. rewrite Hcat, Hcache.
      rewrite (exchange_catalog_hit env w s t info Hc Hf). simpl. auto.
    + pose proof (exchange_transfer_gated side asset amount env w s Hon) as Hg.
      fold o in Hg. rewrite Hg. simpl. rewrite Hon. repeat split; auto.
  - intros s o.
    destruct (adapter_transfer_after_catalog side asset amount env w s)
      as (Hcat & Hbal & Hself). fold o in Hcat, Hbal, Hself.
    split; [rewrite Hbal; apply adapter_catalog_balance_fetches|].
    intros t info Hc Hf. rewrite Hcat, Hself.
    rewrite (adapter_catalog_hit env w s t info Hc Hf). simpl. auto.
  - intros s o. subst o. rewrite exchange_balance_run. cbv zeta.
    split_matches; auto.
  - intros s o. subst o. rewrite adapter_balance_run. cbv zeta. auto.
Qed.

Lemma transfers_and_reads_keep_apart_witness :
  catalog_fetches
    (trace (world (BinanceExchange.alpha_transfer SELL "USDT" 100
                     (Bench.env_ok [] (Some (PyStr "2.5"))) Bench.w0
                     (BinanceExchange.set_alpha_exchange_cache
                        (Some (1704067190%float, Bench.catalog)) (Bench.exchange0 30))))) =
    catalog_fetches (trace Bench.w0) /\
  BinanceExchange._alpha_exchange_cache
    (self (BinanceExchange.alpha_transfer SELL "USDT" 100
             (Bench.env_ok [] (Some (PyStr "2.5"))) Bench.w0
             (BinanceExchange.set_alpha_exchange_cache
                (Some (1704067190%float, Bench.catalog)) (Bench.exchange0 30)))) =
    Some (1704067190%float, Bench.catalog).
Proof.
  destruct (proj1 (transfers_and_reads_keep_apart SELL "USDT" 100
                     (Bench.env_ok [] (Some (PyStr "2.5"))) Bench.w0)
              (BinanceExchange.set_alpha_exchange_cache
                 (Some (1704067190%float, Bench.catalog)) (Bench.exchange0 30)))
    as (_ & _ & _ & _ & Hcat).
  apply (Hcat 1704067190%float Bench.catalog).
  - reflexivity.
  - vm_compute. reflexivity.
Defined.

(** ** Entries that do not count, and a connector that starts cold *)

Lemma scan_symbols_skip q (before after : list AlphaSymbol) (x : AlphaSymbol) :
  is_trading q x = false ->
  BinanceExchange.scan_symbols q (before ++ x :: after) =
    BinanceExchange.scan_symbols q (before ++ after).
Proof.
  intros Hx. induction before as [|y before IH]; simpl.
  - rewrite Hx. reflexivity.
  - destruct (is_trading q y); [reflexivity | exact IH].
Qed.

Lemma scan_symbols_stop q (before after after' : list AlphaSymbol) (x : AlphaSymbol) :
  is_trading q x = true ->
  BinanceExchange.scan_symbols q (before ++ x :: after) =
    BinanceExchange.scan_symbols q (before ++ x :: after').
Proof.
  intros Hx. induction before as [|y before IH]; simpl.
  - rewrite Hx. reflexivity.
  - destruct (is_trading q y); [reflexivity | exact IH].
Qed.

(** X9. Which instrument the lookup of either connector chooses depends on
    the entries up to the first match only: an entry that is quoted in
    another asset or is not TRADING can be put into or taken out of the
    catalog at any place, and the entries after a TRADING entry for the quote
    asset can be replaced at will, without changing the result. *)
Theorem lookup_ignores_other_entries (q : string) (before after : list AlphaSymbol)
    (x : AlphaSymbol) :
  (~ (quoteAsset x = Some q /\ status x = Some "TRADING") ->
   BinanceExchange.scan_symbols q (before ++ x :: after) =
     BinanceExchange.scan_symbols q (before ++ after) /\
   BinanceAdapter.next_trading q (before ++ x :: after) =
     BinanceAdapter.next_trading q (before ++ after)) /\
  (quoteAsset x = Some q -> status x = Some "TRADING" ->
   forall after',
     BinanceExchange.scan_symbols q (before ++ x :: after) =
       BinanceExchange.scan_symbols q (before ++ x :: after') /\
     BinanceAdapter.next_trading q (before ++ x :: after) =
       BinanceAdapter.next_trading q (before ++ x :: after')).
Proof.
  split.
  - intros Hx. apply is_trading_false in Hx.
    rewrite !next_trading_scan, (scan_symbols_skip q before after x Hx). auto.
  - intros Hq Hs after'.
    assert (Hx : is_trading q x = true) by (apply is_trading_spec; auto).
    rewrite !next_trading_scan, (scan_symbols_stop q before after after' x Hx). auto.
Qed.

Lemma count_positive_ok fos (held : list (string * pyval)) :
  (exists n, BinanceAdapterSetup.count_positive fos held = inr n) <->
  Forall (fun kv => exists f, py_float fos kv.2 = inr f) held.
Proof.
  induction held as [|[k v] held IH]; simpl.
  - split; [constructor | eauto].
  - rewrite Forall_cons. simpl. destruct (py_float fos v) as [e|f].
    + split; [intros [n Hn]; discriminate | intros [[f Hf] _]; discriminate].
    + rewrite <- IH. destruct (BinanceAdapterSetup.count_positive fos held) as [e|n].
      * split; [intros [n Hn]; discriminate | intros [_ [n Hn]]; discriminate].
      * split; eauto.
Qed.

Lemma lookup_ignores_other_entries_witness :
  BinanceExchange.scan_symbols "USDT" [Bench.HALTED_USDT; Bench.ALPHA_USDT] =
    BinanceExchange.scan_symbols "USDT" [Bench.ALPHA_USDT] /\
  BinanceAdapter.next_trading "USDT" [Bench.HALTED_USDT; Bench.ALPHA_USDT] =
    BinanceAdapter.next_trading "USDT" [Bench.ALPHA_USDT].
Proof.
  apply (proj1 (lookup_ignores_other_entries "USDT" [] [Bench.ALPHA_USDT] Bench.HALTED_USDT)).
  intros [_ Hst]. discriminate Hst.
Defined.

(** X10. [initialize] of [BinanceAdapter] empties the catalog cache before
    anything can fail and sends no Alpha request: whether it returns or
    raises, the cache is empty afterwards, so the next catalog lookup sends a
    request.  It returns when [load_markets] and [fetch_balance] return, the
    balance has a [free] dict and every value of it converts with [float()];
    otherwise it raises: the error of [load_markets] or [fetch_balance], or
    [KeyError] for a missing [free]. *)
Theorem initialize_empties_catalog_cache (load_markets : exn + unit)
    (fetch_balance : exn + SpotBalance) (env : Env) (w : World) (s : BinanceAdapter.t) :
  let o := BinanceAdapterSetup.initialize load_markets fetch_balance env w s in
  self o = {| BinanceAdapter._alpha_exchange_cache := None |} /\
  world o = w /\
  (forall w',
      trace (world (BinanceAdapter.get_alpha_exchange_info env w' (self o))) =
        GetExchangeInfo (exchange_milliseconds env (S (ticks w'))) 5000 :: trace w') /\
  (result o = inr tt <->
   load_markets = inr tt /\
   exists balance held,
     fetch_balance = inr balance /\ free balance = Some held /\
     Forall (fun kv => exists f, py_float (float_of_str env) kv.2 = inr f) held) /\
  (forall e, load_markets = inl e -> result o = inl e) /\
  (forall e, load_markets = inr tt -> fetch_balance = inl e -> result o = inl e) /\
  (forall balance,
      load_markets = inr tt -> fetch_balance = inr balance -> free balance = None ->
      result o = inl (KeyError "free")).
Proof.
  cbv zeta. unfold BinanceAdapterSetup.initialize. run.
  assert (Hnext : forall w',
    trace (world (BinanceAdapter.get_alpha_exchange_info env w'
                    {| BinanceAdapter._alpha_exchange_cache := None |})) =
      GetExchangeInfo (exchange_milliseconds env (S (ticks w'))) 5000 :: trace w').
  { intros w'. rewrite adapter_catalog_miss by reflexivity. reflexivity. }
  destruct load_markets as [e|[]]; simpl.
  { repeat split; auto; try discriminate; try congruence;
      try (intros; by simplify_eq/=).
    intros [H _]. discriminate H. }
  destruct fetch_balance as [e|[held]]; simpl.
  { repeat split; auto; try discriminate; try congruence;
      try (intros; by simplify_eq/=).
    intros (_ & b & h & H & _). discriminate H. }
  destruct held as [held|]; simpl.
  2:{ repeat split; auto; try discriminate; try congruence;
      try (intros; by simplify_eq/=).
      intros (_ & b & h & [= <-] & H & _). discriminate H. }
  pose proof (count_positive_ok (float_of_str env) held) as Hcount.
  destruct (BinanceAdapterSetup.count_positive (float_of_str env) held) as [e|n]; simpl.
  - repeat split; auto; try discriminate; try congruence;
      try (intros; by simplify_eq/=).
    intros (_ & b & h & [= <-] & [= <-] & Hall). apply Hcount in Hall as [n Hn].
    discriminate Hn.
  - repeat split; auto; try discriminate; try congruence;
      try (intros; by simplify_eq/=).
    exists {| free := Some held |}, held.
    split; [reflexivity|]. split; [reflexivity|]. apply Hcount. eauto.
Qed.

Lemma initialize_empties_catalog_cache_witness :
  result (BinanceAdapterSetup.initialize (inr tt) (inr {| free := None |})
            (Bench.env_ok [] None) Bench.w0
            {| BinanceAdapter._alpha_exchange_cache :=
                 Some (1704067190%float, Bench.catalog) |}) = inl (KeyError "free").
Proof.
  destruct (initialize_empties_catalog_cache (inr tt) (inr {| free := None |})
              (Bench.env_ok [] None) Bench.w0
              {| BinanceAdapter._alpha_exchange_cache :=
                   Some (1704067190%float, Bench.catalog) |})
    as (_ & _ & _ & _ & _ & _ & Hfree).
  apply (Hfree {| free := None |}); reflexivity.
Defined.

(** ** The digits of a rendering *)

Section Digits.









End Digits.


